(* ===== verification/_CoqProject ===== *)
-Q . S2P
Prelude.v
JsValue.v
Currency.v
Gateway.v
World.v
XrplService.v
Cost.v
Settlement.v
Membership.v
Typing.v
Concurrency.v
Auth.v
Bounds.v
TontineLib.v
WalletRoutes.v
XrpClient.v
Client.v
Render.v
