(* ===== verification/Prelude.v ===== *)
(** * A verification library for the BCI tontine coordinator

    The repository is a Next.js application that runs rotating-savings groups
    ("tontines") whose money is an RLUSD stablecoin balance on the XRP Ledger
    testnet.  Its moving parts, all under [src/]:

    - the HTTP route handlers under [src/BCI/src/app/api/] and
      [src/src/app/api/], each a read-modify-write cycle on one of two JSON
      files ([data/tontines.json], [data/users.json]) with calls to the ledger
      in between;
    - the ledger helpers [src/BCI/src/utils/xrplService.js]
      ([toHexCurrency], [getRLUSDBalance], [transferFunds],
      [createTemporaryWallet]), [src/BCI/src/lib/xrpClient.js]
      ([createTrustLine], [sendRLUSD]) and [src/BCI/src/lib/xrplHelpers.js]
      (escrows), with copies of [toHexCurrency] and of the trust-line search
      inside the wallet and trust-line routes;
    - the in-memory classes [src/src/lib/tontine.js],
      [src/BCI/src/lib/tontineMaster.js], [src/src/lib/tontineUser.js];
    - the pages ([src/src/app/page.js], [login], [join], [create-tontine],
      [triggerTransfer], and [src/BCI/src/app/viewTontines]), React client
      components that keep the logged-in user in [localStorage], call the
      routes with [fetch] and navigate with [router.push], and the auth
      guards [src/src/utils/auth.js] and [src/BCI/src/app/layout.js].

    The routes interact through the two files and the ledger: [createWallet]
    funds a wallet and appends a record, [join] asks [/api/trustline/add] for
    the record's wallet before appending a member, [triggerTransfer] pays the
    due records and marks them completed.  The pages drive the routes: the
    login page stores the user [/api/auth] answers, the dashboard lists the
    user's tontines and the wallet balance, the create page calls
    [createWallet] and redirects to the view page of the new id, which
    reads [tontines/details] and may call [trustline/add].

    ** Layout (one file per component, in dependency order)

    - [Prelude] (this file): the state-and-exception monad [st] in which
      every handler is written, the exceptions [exn], the list helpers the
      handlers share ([update_first] is [array.find(...)] followed by an
      in-place mutation of the found object, [str_includes] is
      [array.includes]), the hint databases and the tactics [st_simpl],
      [st_run], [st_preserve].
    - [JsValue]: truthiness of request fields, [parseFloat] and [parseInt]
      on strings, the test [parseFloat(b) <= 0].
    - [Currency]: [toHexCurrency] and [RLUSD_HEX], with the ledger's reading
      of a hex code [fromHexCurrency]; the copies of [toHexCurrency] in the
      wallet, wallet/balance and trustline/add routes, each translated as
      written and shown to compute the service's function.
    - [Gateway]: the Ledger Gateway, a type class [Gateway] of the xrpl calls
      the code makes ([account_lines], [Wallet.fromSeed],
      [autofill]+[sign]+[submitAndWait], [Wallet.generate]+[fundWallet],
      [getXrpBalance]), the ledger laws [GatewayLaws], the three trust-line
      searches of the sources, and [SimLedger], a concrete ledger of trust
      lines used to run handlers on concrete inputs.
    - [World]: the durable store (files as missing, blank, unparsable or
      JSON, because the handlers treat these differently), the records, the
      world every handler threads (files, ledger, event log), the responses,
      and the primitive actions with their frame lemmas.
    - [XrplService]: [xrplService.js] and [POST /api/trustline/add].
    - [Cost]: a cost calculus on [st] counting, in the event log, the
      transactions submitted and the ledger calls made ([within]), with
      the [cost] tactic and the bounds of the service functions.
    - [Settlement]: [GET /api/triggerTransfer] ([is_due], [process_tontine],
      [settle_loop], [triggerTransfer]).
    - [Membership]: [create-tontine], [createWallet], [join-tontine], [join],
      [tontines/list], [tontines/details], and the well-formedness invariant
      of [tontines.json].
    - [Typing]: the two record shapes [tontines.json] holds and the typing
      judgement over them.
    - [Concurrency]: [join-tontine], [create-tontine], [join],
      [createWallet] and [triggerTransfer] cut at their awaits into
      suspended requests ([proc]) and a scheduler [sched].
    - [Auth]: [POST /api/auth].
    - [Bounds]: the ledger calls of the handlers other than the
      settlement.
    - [TontineLib]: the classes [Tontine], [TontineUser], [TontineMaster]
      (stdpp [gmap]s for JavaScript objects used as maps) and
      [POST /api/add-member].
    - [WalletRoutes]: the balance routes, [xrpClient.js] and the routes that
      call it, the escrow helpers, and the stub routes.
    - [XrpClient]: the module-level client of [xrpClient.js] shared by
      concurrent requests: its connection flag beside the world
      ([xstate]), [connectXRPL], [disconnectXRPL], and [createTrustLine] and
      [sendRLUSD] cut at their awaits (connect, send, wait for the outcome,
      the [finally]) as [proc]s of [Concurrency] for the routes
      [create-trustline], [send-rlsud] and [record-payment]; and the
      helpers of [xrplHelpers.js] with the clients they open counted.
    - [Client]: the pages and guards.  The browser is a record [client]
      ([localStorage.user] and the location), each page's state a record of
      the fields its handlers set, each handler ([handleLogin],
      [dashboard_mount], [handleJoinTontine], [handleCreateWallet],
      [view_mount], [handleAddTrustline], [handleTriggerTransfer], ...) a
      computation of [st] that calls the route models through [fetch].  The
      step relation [ui_step] composes them: one step is a page handler run
      to its end, a navigation, a guard, or another browser's request to a
      writing route.
    - [Render]: the [return] of each page as a pure function from its state
      to the items it shows, with the TypeErrors of its property reads, and
      the two components of [src/BCI/src/app/components].

    ** Effects

    A handler is a function [world -> world * (exn + A)] (the monad [st]).
    An exception does not roll back what happened before it: a payment that
    the ledger accepted, or a file already written, stays in the world.
    Each route catches every exception and answers 500, as the sources'
    [try]/[catch] blocks do.  Every ledger call and every file write is
    appended to the world's event log, so that theorems speak about the
    order in which a handler performs them.  The clock ([Date.now()]) and
    [Math.random()] suffixes are parameters; date parsing of
    [scheduledTime] is a parameter [date_parse] of the settlement section.

    ** What the theorems show

    - invariants: [tontines.json] stays well formed (unique names, no member
      twice) under every writing handler (Membership) and under every
      interleaving of the five writing requests (Concurrency); the shared
      xrpl client is open only while a request holds it (XrpClient); [users.json]
      keeps one user per wallet (Auth); the master of [TontineLib] keeps
      each tontine under its own id;
    - settlement: monotone statuses, not-due records untouched, empty
      wallets skipped, funded records completed, every payment is the
      payment of a due record to its destination of the balance its wallet
      held when sent ([pass_trace], a trace of the ledger states), a 500
      writes nothing and leaves every record the pass paid active (the lost
      completion when a later transfer fails); termination of the repeated passes (the number of
      [active] records is a variant: at most that many passes change the
      file) and liveness of the zero-balance retry (a skipped record is
      completed by the first later pass that finds it funded and whose
      payment the ledger accepts);
    - bounds: a settlement pass submits at most one payment and makes at
      most three ledger calls per due record, on every path;
      [createWallet] at most one transaction in four calls, [join] one in
      two, and the other file handlers none (the scenarios reach these
      bounds);
    - typing: every writing handler keeps each record of one of the two
      shapes (preservation), and a typed due record has the wallet and the
      destination the settlement reads (progress);
    - the browser and the server together: by rule induction on [ui_step],
      the user in [localStorage] is always the user [users.json] holds for
      its address and [tontines.json] stays well formed; the login page
      stores exactly that user; the create page redirects to a view page
      that shows the record just written (when the id is fresh); the join
      page reports success only when the membership is durable; the
      dashboard's cards open the view pages of the user's tontines;
    - membership: join idempotence, the trust line before the membership
      write, a failed trust line leaves the file unchanged, createWallet
      funds before it writes;
    - concurrency: each two-phase request run alone is the sequential
      handler (a consistency check of the cut, not a property of the code);
      the lost update when two joins interleave, and the
      completion a join reverts when it interleaves with a settlement pass;
      a payment whose wait outlives another request's
      [finally] is applied by the ledger but answered with a 500, and no
      schedule leaves the client open once every request has answered;
      the helpers of [xrplHelpers.js] leave their client open on every
      exception;
    - round trips: [toHexCurrency] with the ledger's reading,
      [addMember]/[removeMember], [joinTontine]/[leaveTontine];
    - functional and error behaviour of the wallet and trust-line routes,
      with the divergences they show.

    ** Bounds and fuel

    No definition needs fuel: every loop of the code is a [for ... of] over
    a list or an array method, modelled by structural recursion; the
    scheduler [sched] recurses on the schedule.  Integers are [Z]: balances
    are decimal strings read by [parseFloat], time stamps are millisecond
    counts (below 2^53 in JavaScript, exact in [Z]), and [atmCycle] is
    incremented by one.  The termination of repeated settlement passes is
    stated over any finite list of pass times ([changed_passes]), with the
    bound the variant gives, not with fuel.

    ** Not modelled

    The markup and style of the pages and components (JSX elements,
    [style jsx], class names) and the transient loading messages a page
    shows while its request is pending.  The two Next.js apps are taken as
    one server with both route sets (the pages of one app call routes of
    the other).  The xrpl library itself is behind the [Gateway] class, of
    which [SimLedger] is one instance; a failed [client.connect()] of the
    shared client is folded into the submission that follows it.  The
    finer interleavings of the code inside one phase of a request
    ([fs.access], [fs.readFile], [fs.writeFile] are one step each here, and
    the ledger awaits of one settlement pass are one step); in particular
    [fs.promises.writeFile] truncates the file before it writes it, and a
    synchronous reader in that window ([createWallet], [triggerTransfer],
    [tontines/list]) would see an empty file.  The interleaving of a
    page's request with another browser's inside that request.  The second
    case of [list-tontines/route.test.js], which replaces the global
    [Response] with a Jest mock (its first case is [get_balance_test]). *)

From stdpp Require Import base list strings.
From Stdlib Require Import ZArith Lia.

(** ** Exceptions

    The exceptions the modelled code throws itself or receives from the
    libraries it calls.  The route handlers turn all of them into a 500
    answer, so only their kind matters, not their message text. *)
Inductive exn :=
  | ENetwork                  (** connect / request / submit failed *)
  | ENoEnt                    (** [fs.readFileSync] of a missing file *)
  | ESyntax                   (** [JSON.parse] of text that is not JSON *)
  | ETypeError                (** property access on [undefined] *)
  | EValidation               (** the xrpl library rejects a transaction *)
  | EBadSeed                  (** [Wallet.fromSeed] of an invalid seed *)
  | ECurrencyLength           (** [toHexCurrency]: code not 3..6 chars *)
  | ENoBalance                (** [transferFunds]: no RLUSD to send *)
  | EPaymentFailed (code : string)   (** [transferFunds]: not tesSUCCESS *)
  | ETrustSetFailed (code : string)  (** [createTemporaryWallet] *)
  | ETrustlineUnverified      (** [createTemporaryWallet], step 6 *)
  | ENotConnected             (** [NotConnectedError]: a request on a closed client *)
  | EDisconnected.            (** [DisconnectedError]: the client closed while waiting *)

#[export] Instance exn_eq_dec : EqDecision exn.
Proof. solve_decision. Defined.

(** ** The state-and-exception monad *)

Definition st (W A : Type) : Type := W -> W * (exn + A).

Definition st_ret {W A} (a : A) : st W A := fun w => (w, inr a).
Definition st_throw {W A} (e : exn) : st W A := fun w => (w, inl e).
Definition st_bind {W A B} (c : st W A) (k : A -> st W B) : st W B :=
  fun w => match c w with
           | (w', inl e) => (w', inl e)
           | (w', inr a) => k a w'
           end.
(** [try { c } catch (e) { h(e) }] *)
Definition st_catch {W A} (c : st W A) (h : exn -> st W A) : st W A :=
  fun w => match c w with
           | (w', inl e) => h e w'
           | r => r
           end.
Definition st_get {W} : st W W := fun w => (w, inr w).
Definition st_modify {W} (f : W -> W) : st W unit := fun w => (f w, inr tt).
(** Lift an [exn + A] computed without effects. *)
Definition st_lift {W A} (r : exn + A) : st W A := fun w => (w, r).

Declare Scope st_scope.
Delimit Scope st_scope with st.
Notation "'let!' x ':=' c 'in' k" := (st_bind c (fun x => k))
  (at level 10, x name, c at level 100, k at level 200) : st_scope.
Notation "'let!' ' p ':=' c 'in' k" := (st_bind c (fun x => match x with p => k end))
  (at level 10, p pattern, c at level 100, k at level 200) : st_scope.
Notation "'do!' c 'in' k" := (st_bind c (fun _ => k))
  (at level 10, c at level 100, k at level 200) : st_scope.

Section Monad.
  Context {W : Type}.

Lemma st_bind_ret {A B} (a : A) (k : A -> st W B) w :
    st_bind (st_ret a) k w = k a w.
  Proof. reflexivity. Qed.

Lemma st_bind_throw {A B} e (k : A -> st W B) w :
    st_bind (st_throw e) k w = (w, inl e).
  Proof. reflexivity. Qed.

Lemma st_bind_assoc {A B C} (c : st W A) (k1 : A -> st W B) (k2 : B -> st W C) w :
    st_bind (st_bind c k1) k2 w = st_bind c (fun a => st_bind (k1 a) k2) w.
  Proof. unfold st_bind. destruct (c w) as [w' [e|a]]; reflexivity. Qed.

  (** Running a bind: the continuation runs exactly when [c] succeeds. *)
Lemma st_bind_inv {A B} (c : st W A) (k : A -> st W B) w w'' r :
    st_bind c k w = (w'', r) ->
    (exists e, c w = (w'', inl e) /\ r = inl e) \/
    (exists w' a, c w = (w', inr a) /\ k a w' = (w'', r)).
  Proof.
    unfold st_bind. destruct (c w) as [w' [e|a]]; intros H.
    - left. injection H as -> <-. eauto.
    - right. eauto.
  Qed.

  (** An invariant of the world preserved by every step of a computation. *)
Definition st_preserves {A} (P : W -> Prop) (c : st W A) : Prop :=
    forall w, P w -> P (fst (c w)).

Lemma st_preserves_ret {A} P (a : A) : st_preserves P (st_ret a).
  Proof. intros w Hw. exact Hw. Qed.

Lemma st_preserves_throw {A} P e : st_preserves P (@st_throw W A e).
  Proof. intros w Hw. exact Hw. Qed.

Lemma st_preserves_lift {A} P (r : exn + A) : st_preserves P (st_lift r).
  Proof. intros w Hw. exact Hw. Qed.

Lemma st_preserves_bind {A B} P (c : st W A) (k : A -> st W B) :
    st_preserves P c -> (forall a, st_preserves P (k a)) ->
    st_preserves P (st_bind c k).
  Proof.
    intros Hc Hk w Hw. unfold st_bind. specialize (Hc w Hw).
    destruct (c w) as [w' [e|a]]; [exact Hc | apply Hk, Hc].
  Qed.

Lemma st_preserves_catch {A} P (c : st W A) (h : exn -> st W A) :
    st_preserves P c -> (forall e, st_preserves P (h e)) ->
    st_preserves P (st_catch c h).
  Proof.
    intros Hc Hh w Hw. unfold st_catch. specialize (Hc w Hw).
    destruct (c w) as [w' [e|a]]; [apply Hh, Hc | exact Hc].
  Qed.
End Monad.

Create HintDb tontine.
Create Rewrite HintDb st_db.
Create Rewrite HintDb tontine_rw.
#[export] Hint Resolve st_preserves_ret st_preserves_throw st_preserves_lift
  st_preserves_bind st_preserves_catch : tontine.
#[export] Hint Rewrite @st_bind_ret @st_bind_throw @st_bind_assoc : st_db.

(** Unfold the monad's plumbing in the goal. *)
Ltac st_simpl :=
  simpl in *;
  unfold st_bind, st_ret, st_throw, st_catch, st_get, st_modify, st_lift in *;
  simpl in *.

(** Prove [st_preserves P c] by following the structure of [c]: binds,
    catches and branches are taken apart, leaves are closed from the
    [tontine] hint database. *)
Ltac st_preserve_step :=
  match goal with
  | |- st_preserves _ (st_bind _ _) => apply st_preserves_bind
  | |- st_preserves _ (st_catch _ _) => apply st_preserves_catch
  | |- st_preserves _ (st_ret _) => apply st_preserves_ret
  | |- st_preserves _ (st_throw _) => apply st_preserves_throw
  | |- st_preserves _ (st_lift _) => apply st_preserves_lift
  | |- st_preserves _ (if _ then _ else _) => case_match
  | |- st_preserves _ (match _ with _ => _ end) => case_match
  | |- forall _, _ => intro
  | |- st_preserves _ _ => solve [eauto with tontine]
  end.
Ltac st_preserve := repeat (progress (try st_preserve_step)).

(** Run a computation whose result is known, in a hypothesis: unfold the
    monad and split every [match] on the way, discarding impossible cases. *)
Ltac st_run := st_simpl; simplify_eq/=; repeat (case_match; simplify_eq/=).

(** ** Lists: find-then-mutate

    [arr.find(p)] returns a reference into the array; mutating it changes the
    array element in place.  [update_first p f l] is that combined effect: the
    first element satisfying [p] is replaced by [f] of itself. *)

Fixpoint update_first {A} (p : A -> bool) (f : A -> A) (l : list A) : list A :=
  match l with
  | [] => []
  | x :: l' => if p x then f x :: l' else x :: update_first p f l'
  end.

Section UpdateFirst.
  Context {A : Type} (p : A -> bool) (f : A -> A).

Lemma update_first_length l : length (update_first p f l) = length l.
  Proof. induction l as [|x l IH]; simpl; [done|]. destruct (p x); simpl; auto. Qed.

Lemma update_first_none l : find p l = None -> update_first p f l = l.
  Proof.
    induction l as [|x l IH]; simpl; [done|].
    destruct (p x); [discriminate|]. intros H. by rewrite IH.
  Qed.

  (** Every element of the result is an element of [l] or [f] of one. *)
Lemma update_first_forall2 l :
    Forall2 (fun x y => y = x \/ (p x = true /\ y = f x)) l (update_first p f l).
  Proof.
    induction l as [|x l IH]; simpl; [constructor|].
    destruct (p x) eqn:E; constructor; auto.
    apply Forall2_same_length_lookup. split; [done|]. intros i a b H1 H2. left. congruence.
  Qed.

Lemma update_first_in y l : In y (update_first p f l) -> In y l \/ exists x, In x l /\ y = f x.
  Proof.
    induction l as [|x l IH]; simpl; [done|].
    destruct (p x); simpl; intros [H|H]; subst; eauto.
    - destruct (IH H) as [?|[z [??]]]; eauto.
  Qed.

Lemma update_first_map (g : A -> Prop) l :
    Forall g l -> (forall x, g x -> p x = true -> g (f x)) -> Forall g (update_first p f l).
  Proof.
    intros Hl Hf. induction Hl as [|x l Hx Hl IH]; simpl; [constructor|].
    destruct (p x) eqn:E; constructor; auto.
  Qed.
  (** [update_first] changes exactly the element [find] returns. *)
Lemma update_first_split l x :
    find p l = Some x ->
    exists l1 l2, l = l1 ++ x :: l2 /\ update_first p f l = l1 ++ f x :: l2 /\ Forall (fun y => p y = false) l1.
  Proof.
    induction l as [|y l IH]; simpl; [discriminate|].
    destruct (p y) eqn:E.
    - intros [= ->]. exists [], l. auto.
    - intros H. destruct (IH H) as (l1 & l2 & -> & -> & Hl1). exists (y :: l1), l2. auto.
  Qed.

Lemma find_update_first l x :
    find p l = Some x -> p (f x) = true -> find p (update_first p f l) = Some (f x).
  Proof.
    intros Hf Hp. destruct (update_first_split l x Hf) as (l1 & l2 & _ & -> & Hl1).
    induction Hl1 as [|y l1 Hy Hl1 IH]; simpl; [by rewrite Hp|]. by rewrite Hy.
  Qed.
End UpdateFirst.

Lemma find_app {A} (p : A -> bool) l1 l2 :
  find p (l1 ++ l2) = match find p l1 with Some x => Some x | None => find p l2 end.
Proof. induction l1 as [|x l1 IH]; simpl; [done|]. by destruct (p x). Qed.

#[export] Hint Resolve update_first_length update_first_none : tontine.

(** [arr.some(p)] / [arr.includes(x)] on strings. *)
Definition str_includes (l : list string) (x : string) : bool :=
  existsb (String.eqb x) l.

Lemma str_includes_spec l x : str_includes l x = true <-> In x l.
Proof.
  unfold str_includes. rewrite existsb_exists. split.
  - intros [y [Hy E]]. apply String.eqb_eq in E. by subst.
  - intros H. exists x. split; [done|]. apply String.eqb_refl.
Qed.

Lemma str_includes_app l x y :
  str_includes (l ++ [y]) x = str_includes l x || String.eqb x y.
Proof. unfold str_includes. rewrite existsb_app. simpl. by rewrite orb_false_r. Qed.

#[export] Hint Rewrite str_includes_app : tontine_rw.
