(* ===== verification/JsValue.v ===== *)
(** * JavaScript values used by the handlers

    Request fields and JSON record fields are modelled as [option string]
    ([None] for an absent field or [null]); the handlers' guards
    [if (!a || !b ...)] become [truthy].  [parseFloat] and [parseInt] are
    modelled on strings, following the ECMAScript grammar of
    StrDecimalLiteral: leading white space is skipped, the longest valid
    prefix is read, and no digit at all gives NaN.  A finite result is kept
    exact as [m * 10^e]; this agrees with the double-precision result on
    every test the code makes ([<= 0]) as long as the exponent stays inside
    the range of doubles, which holds for every amount the ledger reports
    (XRPL amounts carry exponents between -96 and 80). *)

From stdpp Require Import base list strings.
From Stdlib Require Import ZArith Lia Ascii.
From S2P Require Import Prelude.

Local Open Scope Z_scope.

(** [!x] is false exactly for [undefined], [null] and [""] among the values a
    JSON string field can hold. *)
Definition truthy (x : option string) : bool :=
  match x with
  | Some s => negb (String.eqb s "")
  | None => false
  end.

(** A JavaScript number as far as the code observes it. *)
Inductive number :=
  | NaN
  | Inf (neg : bool)
  | Fin (m : Z) (e : Z).   (** the value [m * 10^e] *)

#[export] Instance number_eq_dec : EqDecision number.
Proof. solve_decision. Defined.

(** [x <= 0] on a number: false for NaN. *)
Definition js_le0 (x : number) : bool :=
  match x with
  | NaN => false
  | Inf neg => neg
  | Fin m _ => m <=? 0
  end.

(** StrWhiteSpaceChar, restricted to single-byte characters. *)
Definition is_js_space (c : ascii) : bool :=
  match c with
  | " " | "009" | "010" | "011" | "012" | "013" | "160" => true
  | _ => false
  end%char.

Fixpoint skip_ws (s : string) : string :=
  match s with
  | String c s' => if is_js_space c then skip_ws s' else s
  | EmptyString => EmptyString
  end.

Definition digit_val (c : ascii) : option Z :=
  let n := Z.of_nat (nat_of_ascii c) - 48 in
  if (0 <=? n) && (n <=? 9) then Some n else None.

(** Read DecimalDigits: the value accumulated onto [acc], the number of
    digits read, and the rest of the input. *)
Fixpoint read_digits (s : string) (acc : Z) (n : nat) : Z * nat * string :=
  match s with
  | String c s' =>
      match digit_val c with
      | Some d => read_digits s' (acc * 10 + d) (S n)
      | None => (acc, n, s)
      end
  | EmptyString => (acc, n, EmptyString)
  end.

(** An optional sign: is it a minus, and the rest. *)
Definition read_sign (s : string) : bool * string :=
  match s with
  | String "+" s' => (false, s')
  | String "-" s' => (true, s')
  | _ => (false, s)
  end%char.

(** ExponentPart, or 0 when there is none (an [e] with no digits after it
    is not part of the literal). *)
Definition read_exponent (s : string) : Z :=
  match s with
  | String c r =>
      if (Ascii.eqb c "e" || Ascii.eqb c "E")%char then
        let '(neg, r') := read_sign r in
        let '(v, n, _) := read_digits r' 0 0 in
        if (n =? 0)%nat then 0 else if neg then - v else v
      else 0
  | EmptyString => 0
  end.

(** [parseFloat(s)] *)
Definition parseFloat (s : string) : number :=
  let '(neg, s1) := read_sign (skip_ws s) in
  if String.prefix "Infinity" s1 then Inf neg else
  let '(ip, ni, s2) := read_digits s1 0 0 in
  let '(m, nf, s3) :=
    match s2 with
    | String "." r => read_digits r ip 0
    | _ => (ip, 0%nat, s2)
    end%char in
  if (ni + nf =? 0)%nat then NaN
  else Fin (if neg then - m else m) (read_exponent s3 - Z.of_nat nf).

(** [parseInt(s, 10)]; [None] is NaN. *)
Definition parseInt10 (s : string) : option Z :=
  let '(neg, s1) := read_sign (skip_ws s) in
  let '(v, n, _) := read_digits s1 0 0 in
  if (n =? 0)%nat then None else Some (if neg then - v else v).

(** ** Lemmas *)

Lemma truthy_some s : s <> "" -> truthy (Some s) = true.
Proof. intros Hs. unfold truthy. by rewrite (proj2 (String.eqb_neq s "") Hs). Qed.

Lemma read_digits_nonneg s acc n :
  0 <= acc -> 0 <= fst (fst (read_digits s acc n)).
Proof.
  revert acc n. induction s as [|c s IH]; intros acc n Hacc; simpl; [done|].
  unfold digit_val. destruct (_ && _) eqn:E; simpl; [|done].
  apply IH. apply andb_true_iff in E as [E1 _]. apply Z.leb_le in E1. lia.
Qed.

(** The sign test on a parsed number only depends on the leading sign and
    on whether the mantissa has a non-zero digit: a string without a minus
    sign that parses to a finite number is [<= 0] exactly when its digits
    are all zero. *)
Lemma parseFloat_le0_nonneg s m e :
  fst (read_sign (skip_ws s)) = false -> parseFloat s = Fin m e -> 0 <= m.
Proof.
  unfold parseFloat. destruct (read_sign (skip_ws s)) as [neg s1]. simpl. intros ->.
  destruct (String.prefix _ _); [discriminate|].
  destruct (read_digits s1 0 0) as [[ip ni] s2] eqn:Hd.
  assert (0 <= ip) by (pose proof (read_digits_nonneg s1 0 0) as H; rewrite Hd in H; simpl in H; lia).
  destruct s2 as [|c r]; [destruct (_ + _)%nat eqn:?; simpl; [|destruct n]; congruence|].
  destruct (Ascii.eqb c ".") eqn:Hc.
  - apply Ascii.eqb_eq in Hc; subst c.
    destruct (read_digits r ip 0) as [[m' nf] s3] eqn:Hd'.
    assert (0 <= m') by (pose proof (read_digits_nonneg r ip 0 H) as H'; rewrite Hd' in H'; done).
    destruct (_ =? _)%nat; intros Hf; inversion Hf; lia.
  - assert (Hm : (match String c r with
                  | String "." r0 => read_digits r0 ip 0
                  | _ => (ip, 0%nat, String c r) end)%char = (ip, 0%nat, String c r)).
    { destruct c as [[] [] [] [] [] [] [] []]; try reflexivity; discriminate. }
    rewrite Hm. destruct (_ =? _)%nat; intros Hf; inversion Hf; lia.
Qed.

Example parseFloat_samples :
  parseFloat "50" = Fin 50 0 /\ parseFloat "0" = Fin 0 0 /\
  parseFloat " -1.25e2x" = Fin (-125) 0 /\ parseFloat ".5" = Fin 5 (-1) /\
  parseFloat "abc" = NaN /\ parseFloat "-Infinity" = Inf true /\
  parseFloat "1e" = Fin 1 0.
Proof. vm_compute. repeat split. Qed.

Example parseInt_samples :
  parseInt10 "30" = Some 30 /\ parseInt10 " 15 days" = Some 15 /\
  parseInt10 "abc" = None /\ parseInt10 "-7" = Some (-7).
Proof. vm_compute. repeat split. Qed.

Example js_le0_samples :
  js_le0 (parseFloat "0") = true /\ js_le0 (parseFloat "50") = false /\
  js_le0 (parseFloat "-3") = true /\ js_le0 (parseFloat "abc") = false.
Proof. vm_compute. repeat split. Qed.
