(* ===== verification/Currency.v ===== *)
(** * Currency codes: [toHexCurrency]

    [toHexCurrency] appears three times in the sources, identically:
    [src/BCI/src/utils/xrplService.js] lines 8-17,
    [src/BCI/src/app/api/trustline/add/route.js] lines 31-40,
    [src/BCI/src/app/api/wallet/route.js] lines 35-44 (and a one-line variant
    in [src/src/app/api/wallet/balance/route.js] lines 30-36).  A code that is
    already 40 upper-case hex digits is returned as it is; otherwise a code of
    3 to 6 characters is hex-encoded byte by byte ([Buffer.from(c, "ascii")]
    then [.toString("hex")]), upper-cased and padded with ["0"] to 40
    characters; any other length throws.

    Strings are byte strings: [Buffer.from(c, "ascii")] keeps the low byte of
    each character, which is the character itself here.  [toUpperCase] is
    modelled on ASCII letters, the only ones the code ever upper-cases (hex
    digits and base58 ledger addresses).

    The inverse [fromHexCurrency] is the XRP Ledger's reading of a 160-bit
    currency code: decode the hex and drop the trailing zero bytes. *)

From stdpp Require Import base list strings.
From Stdlib Require Import Ascii Lia.
From S2P Require Import Prelude JsValue.

(** ** String built-ins *)

Definition ascii_upper (c : ascii) : ascii :=
  let n := nat_of_ascii c in
  if (97 <=? n)%nat && (n <=? 122)%nat then ascii_of_nat (n - 32) else c.

(** [s.toUpperCase()] *)
Fixpoint to_upper (s : string) : string :=
  match s with
  | String c s' => String (ascii_upper c) (to_upper s')
  | EmptyString => EmptyString
  end.

Fixpoint str_repeat (n : nat) (c : ascii) : string :=
  match n with
  | O => EmptyString
  | S n' => String c (str_repeat n' c)
  end.

(** [s.padEnd(n, c)] for a one-character pad string. *)
Definition padEnd (s : string) (n : nat) (c : ascii) : string :=
  if (n <=? String.length s)%nat then s
  else String.append s (str_repeat (n - String.length s) c).

Definition hex_digit_lower (d : nat) : ascii :=
  if (d <? 10)%nat then ascii_of_nat (48 + d) else ascii_of_nat (87 + d).

(** [Buffer.from(s, "ascii").toString("hex")] *)
Fixpoint hex_lower (s : string) : string :=
  match s with
  | String c s' =>
      let n := nat_of_ascii c in
      String (hex_digit_lower (n / 16)) (String (hex_digit_lower (n mod 16)) (hex_lower s'))
  | EmptyString => EmptyString
  end.

(** The character class [[A-F0-9]]. *)
Definition is_upper_hex (c : ascii) : bool :=
  let n := nat_of_ascii c in
  ((48 <=? n) && (n <=? 57)) || ((65 <=? n) && (n <=? 70)).

(** [/^[A-F0-9]{40}$/.test(s)] *)
Definition is_hex40 (s : string) : bool :=
  (String.length s =? 40)%nat && forallb is_upper_hex (String.list_ascii_of_string s).

(** [toHexCurrency(currency)] *)
Definition toHexCurrency (currency : string) : exn + string :=
  if is_hex40 currency then inr currency
  else if (String.length currency <? 3)%nat || (6 <? String.length currency)%nat
  then inl ECurrencyLength
  else inr (padEnd (to_upper (hex_lower currency)) 40 "0").

(** [const RLUSD_HEX = toHexCurrency("RLUSD")] (module initialisation; an
    exception there would abort the module, which cannot happen). *)
Definition RLUSD_HEX : string :=
  match toHexCurrency "RLUSD" with inr h => h | inl _ => EmptyString end.

(** ** The routes' own copies

    Three routes declare a [toHexCurrency] of their own instead of importing
    the service's; each is translated where it is written, and
    [route_toHexCurrency_agree] shows that the copies compute the service's
    function. *)

(** [toHexCurrency] of [src/BCI/src/app/api/wallet/route.js], lines 35-44 *)
Definition wallet_route_toHexCurrency (currency : string) : exn + string :=
  if is_hex40 currency then inr currency
  else if (String.length currency <? 3)%nat || (6 <? String.length currency)%nat
  then inl ECurrencyLength
  else let hex := to_upper (hex_lower currency) in inr (padEnd hex 40 "0").

(** [const RLUSD_HEX = toHexCurrency("RLUSD")] of the same file, line 55 *)
Definition wallet_route_RLUSD_HEX : string :=
  match wallet_route_toHexCurrency "RLUSD" with inr h => h | inl _ => EmptyString end.

(** [toHexCurrency] of [src/BCI/src/app/api/trustline/add/route.js], lines
    31-40 *)
Definition trustline_toHexCurrency (currency : string) : exn + string :=
  if is_hex40 currency then inr currency
  else if (String.length currency <? 3)%nat || (6 <? String.length currency)%nat
  then inl ECurrencyLength
  else let hex := to_upper (hex_lower currency) in inr (padEnd hex 40 "0").

(** [toHexCurrency] of [src/src/app/api/wallet/balance/route.js], lines
    30-36: the conversion is one chained expression. *)
Definition balance_toHexCurrency (currency : string) : exn + string :=
  if is_hex40 currency then inr currency
  else if (String.length currency <? 3)%nat || (6 <? String.length currency)%nat
  then inl ECurrencyLength
  else inr (padEnd (to_upper (hex_lower currency)) 40 "0").

(** ** The ledger's reading of a hex currency code *)

Definition hex_val (c : ascii) : option nat :=
  let n := nat_of_ascii c in
  if (48 <=? n) && (n <=? 57) then Some (n - 48)
  else if (65 <=? n) && (n <=? 70) then Some (n - 55) else None.

Fixpoint hex_decode (s : string) : option string :=
  match s with
  | EmptyString => Some EmptyString
  | String a (String b s') =>
      match hex_val a, hex_val b, hex_decode s' with
      | Some x, Some y, Some r => Some (String (ascii_of_nat (16 * x + y)) r)
      | _, _, _ => None
      end
  | String _ EmptyString => None
  end.

Fixpoint strip_trailing_nul (s : string) : string :=
  match s with
  | EmptyString => EmptyString
  | String c s' =>
      let r := strip_trailing_nul s' in
      if Ascii.eqb c "000"%char && String.eqb r EmptyString then EmptyString
      else String c r
  end.

Definition fromHexCurrency (h : string) : option string :=
  strip_trailing_nul <$> hex_decode h.

(** A string that does not end with a zero byte. *)
Definition no_trailing_nul (s : string) : Prop :=
  strip_trailing_nul s = s.

(** ** Lemmas *)

Lemma string_app_cons c s t : String.append (String c s) t = String c (String.append s t).
Proof. reflexivity. Qed.

Lemma to_upper_append s t : to_upper (String.append s t) = String.append (to_upper s) (to_upper t).
Proof. induction s as [|c s IH]; simpl; [done|]. by rewrite IH. Qed.

Lemma hex_lower_length s : String.length (hex_lower s) = 2 * String.length s.
Proof. induction s as [|c s IH]; simpl; [done|]. rewrite IH. lia. Qed.

Lemma to_upper_length s : String.length (to_upper s) = String.length s.
Proof. induction s as [|c s IH]; simpl; [done|]. by rewrite IH. Qed.

Lemma str_repeat_length n c : String.length (str_repeat n c) = n.
Proof. induction n as [|n IH]; simpl; [done|]. by rewrite IH. Qed.

Lemma append_length s t : String.length (String.append s t) = String.length s + String.length t.
Proof. induction s as [|c s IH]; simpl; [done|]. by rewrite IH. Qed.

Lemma padEnd_length s n c : String.length (padEnd s n c) = Nat.max n (String.length s).
Proof.
  unfold padEnd. destruct (Nat.leb_spec n (String.length s)); [lia|].
  rewrite append_length, str_repeat_length. lia.
Qed.

(** Each byte becomes two upper-case hex digits that decode back to it. *)
Lemma hex_byte_roundtrip c :
  hex_val (ascii_upper (hex_digit_lower (nat_of_ascii c / 16))) = Some (nat_of_ascii c / 16) /\
  hex_val (ascii_upper (hex_digit_lower (nat_of_ascii c mod 16))) = Some (nat_of_ascii c mod 16) /\
  ascii_of_nat (16 * (nat_of_ascii c / 16) + nat_of_ascii c mod 16) = c /\
  is_upper_hex (ascii_upper (hex_digit_lower (nat_of_ascii c / 16))) = true /\
  is_upper_hex (ascii_upper (hex_digit_lower (nat_of_ascii c mod 16))) = true.
Proof. destruct c as [[] [] [] [] [] [] [] []]; vm_compute; repeat split. Qed.

Lemma hex_decode_upper s t :
  hex_decode (String.append (to_upper (hex_lower s)) t) =
  String.append s <$> hex_decode t.
Proof.
  induction s as [|c s IH].
  - change (hex_decode t = String.append "" <$> hex_decode t).
    by destruct (hex_decode t).
  - destruct (hex_byte_roundtrip c) as (H1 & H2 & H3 & _).
    cbn [hex_lower to_upper]. rewrite !string_app_cons. cbn [hex_decode].
    rewrite H1, H2, IH. destruct (hex_decode t); [|done]. rewrite H3. reflexivity.
Qed.

(** The zero padding is the hex encoding of zero bytes. *)
Lemma str_repeat_zero_hex k :
  str_repeat (2 * k) "0" = to_upper (hex_lower (str_repeat k "000")).
Proof.
  induction k as [|k IH]; [done|].
  replace (2 * S k) with (S (S (2 * k))) by lia.
  cbn [str_repeat hex_lower to_upper]. rewrite IH. reflexivity.
Qed.

Lemma strip_zeros k : strip_trailing_nul (str_repeat k "000") = "".
Proof. induction k as [|k IH]; [done|]. cbn [str_repeat strip_trailing_nul]. by rewrite IH. Qed.

Lemma strip_trailing_nul_app_zeros s k :
  strip_trailing_nul s = s ->
  strip_trailing_nul (String.append s (str_repeat k "000")) = s.
Proof.
  induction s as [|c s IH]; intros Hs; [apply strip_zeros|].
  rewrite string_app_cons. cbn [strip_trailing_nul] in *.
  destruct (Ascii.eqb c "000" && String.eqb (strip_trailing_nul s) "") eqn:E;
    [discriminate|].
  injection Hs as Hs. rewrite (IH Hs). rewrite Hs in E. by rewrite E.
Qed.

Lemma forallb_upper_hex s :
  forallb is_upper_hex (String.list_ascii_of_string (to_upper (hex_lower s))) = true.
Proof.
  induction s as [|c s IH]; [done|].
  cbn [hex_lower to_upper String.list_ascii_of_string forallb].
  destruct (hex_byte_roundtrip c) as (_ & _ & _ & H4 & H5). by rewrite H4, H5, IH.
Qed.

Lemma list_ascii_append s t :
  String.list_ascii_of_string (String.append s t) = String.list_ascii_of_string s ++ String.list_ascii_of_string t.
Proof. induction s as [|c s IH]; simpl; [done|]. by rewrite IH. Qed.

#[export] Hint Rewrite to_upper_append hex_lower_length to_upper_length
  str_repeat_length append_length padEnd_length list_ascii_append : tontine_rw.

(** The padded encoding of a 3..6 character code, as an encoding of the
    code followed by zero bytes. *)
Lemma padEnd_hex_zero s :
  (String.length s < 20)%nat ->
  padEnd (to_upper (hex_lower s)) 40 "0" =
  String.append (to_upper (hex_lower s)) (to_upper (hex_lower (str_repeat (20 - String.length s) "000"))).
Proof.
  intros Hlen. unfold padEnd. rewrite to_upper_length, hex_lower_length.
  destruct (Nat.leb_spec 40 (2 * String.length s)); [lia|].
  rewrite <- str_repeat_zero_hex. do 2 f_equal. lia.
Qed.

Example RLUSD_HEX_value : RLUSD_HEX = "524C555344000000000000000000000000000000".
Proof. vm_compute. reflexivity. Qed.

Lemma append_empty_r s : String.append s EmptyString = s.
Proof. induction s as [|c s IH]; [done|]. rewrite string_app_cons. by rewrite IH. Qed.

Lemma forallb_zeros n : forallb is_upper_hex (String.list_ascii_of_string (str_repeat n "0")) = true.
Proof. induction n as [|n IH]; [done|]. exact IH. Qed.

Lemma short_not_hex40 c : (String.length c <= 6)%nat -> is_hex40 c = false.
Proof. intros H. unfold is_hex40. destruct (Nat.eqb_spec (String.length c) 40); [lia|done]. Qed.

(** The routes' copies are the service's function, on every input. *)
Lemma route_toHexCurrency_agree c :
  wallet_route_toHexCurrency c = toHexCurrency c /\ trustline_toHexCurrency c = toHexCurrency c /\
  balance_toHexCurrency c = toHexCurrency c.
Proof. done. Qed.

Lemma wallet_route_RLUSD_HEX_eq : wallet_route_RLUSD_HEX = RLUSD_HEX.
Proof. done. Qed.

(** ** Theorems *)

(** C32: For a currency code of 3 to 6 characters that does not end with a
    zero byte, [toHexCurrency] succeeds and the ledger's reading of the hex
    code gives the original code back (encode/decode round trip). *)
Theorem toHexCurrency_roundtrip c :
  (3 <= String.length c <= 6)%nat -> no_trailing_nul c ->
  exists h, toHexCurrency c = inr h /\ fromHexCurrency h = Some c.
Proof.
  intros Hlen Hnul. unfold toHexCurrency. rewrite short_not_hex40 by lia.
  destruct (Nat.ltb_spec (String.length c) 3); [lia|].
  destruct (Nat.ltb_spec 6 (String.length c)); [lia|]. simpl.
  eexists; split; [reflexivity|].
  unfold fromHexCurrency. rewrite padEnd_hex_zero by lia.
  rewrite hex_decode_upper.
  replace (hex_decode (to_upper (hex_lower (str_repeat (20 - String.length c) "000"))))
    with (Some (String.append (str_repeat (20 - String.length c) "000") EmptyString)).
  - simpl. f_equal. rewrite append_empty_r. by apply strip_trailing_nul_app_zeros.
  - rewrite <- (append_empty_r (to_upper _)), hex_decode_upper. reflexivity.
Qed.

(** Whatever [toHexCurrency] returns is a code of exactly 40 upper-case
    hex digits, so applying it a second time returns the same code. *)
Theorem toHexCurrency_idempotent c h :
  toHexCurrency c = inr h -> is_hex40 h = true /\ toHexCurrency h = inr h.
Proof.
  intros Hc. assert (Hh : is_hex40 h = true).
  { revert Hc. unfold toHexCurrency.
    destruct (is_hex40 c) eqn:Hx; [intros [= <-]; done|].
    destruct (_ || _) eqn:Hl; [discriminate|]. intros [= <-].
    apply orb_false_iff in Hl as [Hl1 Hl2]. apply Nat.ltb_ge in Hl1, Hl2.
    unfold is_hex40. rewrite padEnd_length, to_upper_length, hex_lower_length.
    apply andb_true_iff. split; [apply Nat.eqb_eq; lia|].
    rewrite padEnd_hex_zero by lia. rewrite list_ascii_append, forallb_app.
    by rewrite !forallb_upper_hex. }
  split; [done|]. unfold toHexCurrency. by rewrite Hh.
Qed.

(** C33: [toHexCurrency] throws exactly when its argument is neither a
    40-digit upper-case hex code nor 3 to 6 characters long. *)
Theorem toHexCurrency_error c :
  (exists e, toHexCurrency c = inl e) <->
  is_hex40 c = false /\ (String.length c < 3 \/ 6 < String.length c)%nat.
Proof.
  unfold toHexCurrency. destruct (is_hex40 c); [split; [intros [? ?]; discriminate | intros [? ?]; discriminate]|].
  destruct (Nat.ltb_spec (String.length c) 3), (Nat.ltb_spec 6 (String.length c)); simpl;
    split; try (intros [? ?]; discriminate); try (intros [_ ?]; lia); eauto.
Qed.

(** [toHexCurrency] is not injective on 3..6 character codes: a code
    and the same code followed by a zero byte get the same hex code, so the
    ledger cannot tell them apart. *)
Example toHexCurrency_trailing_nul_collision :
  toHexCurrency "ABC" = toHexCurrency (String.append "ABC" (String "000"%char EmptyString)) /\
  "ABC" <> String.append "ABC" (String "000"%char EmptyString).
Proof. split; [vm_compute; reflexivity | discriminate]. Qed.

(** ** Witnesses *)

Lemma toHexCurrency_roundtrip_witness :
  exists h, toHexCurrency "RLUSD" = inr h /\ fromHexCurrency h = Some "RLUSD".
Proof. apply toHexCurrency_roundtrip; [simpl; lia | vm_compute; reflexivity]. Defined.

Lemma toHexCurrency_idempotent_witness :
  is_hex40 RLUSD_HEX = true /\ toHexCurrency RLUSD_HEX = inr RLUSD_HEX.
Proof. apply (toHexCurrency_idempotent "RLUSD"). vm_compute. reflexivity. Defined.
