(* ===== verification/Gateway.v ===== *)
(** * The Ledger Gateway

    The code talks to the XRP Ledger through the [xrpl] client library:
    [client.request({command: "account_lines", ...})], [Wallet.fromSeed],
    [client.autofill] + [wallet.sign] + [client.submitAndWait],
    [Wallet.generate] + [client.fundWallet].  The class [Gateway] is that
    interface over an abstract ledger state [L]; each call may fail, and a
    submission returns the ledger's [meta.TransactionResult] code.  The
    clients ([XrplService], [Settlement], [Membership]) are proved against the
    class; [GatewayLaws] states the ledger facts some theorems need.

    [SimLedger] is a concrete instance: a ledger of trust lines with integer
    balances, used to run the handlers on concrete inputs.

    The searches for the RLUSD trust line differ between the sources; each
    is modelled where it occurs ([rlusd_line_service], [rlusd_line_exact],
    [rlusd_line_hex]). *)

From stdpp Require Import base list strings pretty.
From Stdlib Require Import ZArith Lia Ascii.
From S2P Require Import Prelude JsValue Currency.

(** ** Ledger data as the code sees it *)

(** An entry of [account_lines]: [line.account] is the issuer. *)
Record line := mk_line {
  ln_account : string;
  ln_currency : string;
  ln_balance : string;
  ln_limit : string;
}.

(** [{currency, issuer, value}] *)
Record amount := mk_amount {
  am_currency : string;
  am_issuer : string;
  am_value : string;
}.

Inductive tx :=
  | Payment (account destination : string) (amt : amount)
  | TrustSet (account : string) (limit : amount)
  | EscrowCreate (account destination drops : string) (finishAfter : Z)
  | EscrowFinish (account owner : string) (offerSequence : Z).

(** The part of [submitAndWait]'s answer the code reads:
    [result.meta.TransactionResult]; the hash stands for the rest. *)
Record tx_response := mk_txr {
  tr_result : string;
  tr_hash : string;
}.

(** [{address, secret}] as stored in [tontines.json]. *)
Record wallet := mk_wallet {
  w_address : string;
  w_secret : string;
}.

#[export] Instance line_eq_dec : EqDecision line.
Proof. solve_decision. Defined.
#[export] Instance amount_eq_dec : EqDecision amount.
Proof. solve_decision. Defined.
#[export] Instance tx_eq_dec : EqDecision tx.
Proof. solve_decision. Defined.
#[export] Instance tx_response_eq_dec : EqDecision tx_response.
Proof. solve_decision. Defined.
#[export] Instance wallet_eq_dec : EqDecision wallet.
Proof. solve_decision. Defined.

(** [const ISSUER_ADDRESS = "rQhWct2fv4Vc4KRjRgMrxa8xPN9Zx9iLKV"] *)
Definition ISSUER_ADDRESS : string := "rQhWct2fv4Vc4KRjRgMrxa8xPN9Zx9iLKV".

Definition tesSUCCESS : string := "tesSUCCESS".

(** ** The interface *)

Class Gateway (L : Type) := {
  (** [account_lines] of an address in the validated ledger *)
  gw_account_lines : L -> string -> exn + list line;
  (** [Wallet.fromSeed(seed).classicAddress] *)
  gw_from_seed : string -> exn + string;
  (** [autofill], [sign] with the seed, [submitAndWait] *)
  gw_submit : L -> string -> tx -> L * (exn + tx_response);
  (** [Wallet.generate()] then [client.fundWallet(wallet)] *)
  gw_generate_fund : L -> L * (exn + wallet);
  (** [client.getXrpBalance(address)] *)
  gw_xrp_balance : L -> string -> exn + string;
}.

(** ** The RLUSD trust-line searches of the sources *)

(** [xrplService.js] lines 32-36. *)
Definition rlusd_line_service (ln : line) : bool :=
  (String.eqb (ln_currency ln) "RLUSD" || String.eqb (ln_currency ln) RLUSD_HEX) &&
  String.eqb (to_upper (ln_account ln)) (to_upper ISSUER_ADDRESS).

(** [xrplService.js] lines 111-113 and 153-155 ([createTemporaryWallet]). *)
Definition rlusd_line_exact (ln : line) : bool :=
  String.eqb (ln_currency ln) RLUSD_HEX && String.eqb (ln_account ln) ISSUER_ADDRESS.

(** [trustline/add/route.js] lines 66-68 and [wallet/balance/route.js]
    lines 71-75. *)
Definition rlusd_line_hex (ln : line) : bool :=
  String.eqb (ln_currency ln) RLUSD_HEX &&
  String.eqb (to_upper (ln_account ln)) (to_upper ISSUER_ADDRESS).

(** [let rlusdBalance = "0"; ... if (line) rlusdBalance = line.balance] *)
Definition balance_of (p : line -> bool) (lines : list line) : string :=
  match find p lines with
  | Some ln => ln_balance ln
  | None => "0"
  end.

(** ** Laws of a ledger *)

Class GatewayLaws (L : Type) `{Gateway L} := {
  (** A validated TrustSet shows up in the account's lines, with the
      currency and issuer it was set for. *)
  gw_trustset_visible : forall l seed acct lim l' r ls,
    gw_submit l seed (TrustSet acct lim) = (l', inr r) ->
    tr_result r = tesSUCCESS ->
    gw_account_lines l' acct = inr ls ->
    exists ln, In ln ls /\ ln_currency ln = am_currency lim /\ ln_account ln = am_issuer lim;
  (** Funding a fresh wallet leaves no trust line on it. *)
  gw_fresh_no_lines : forall l l' w ls,
    gw_generate_fund l = (l', inr w) ->
    gw_account_lines l' (w_address w) = inr ls -> ls = [];
}.

(** ** A simulated ledger *)

Module SimLedger.

Record sim := mk_sim {
    sim_up : bool;                             (** false: the network is down *)
    sim_lines : list (string * list line);     (** trust lines per address *)
    sim_reject : list string;                  (** accounts whose submissions fail *)
    sim_fresh : list wallet;                   (** wallets [fundWallet] hands out *)
  }.

Fixpoint assoc {A} (k : string) (l : list (string * A)) : option A :=
    match l with
    | [] => None
    | (k', v) :: l' => if String.eqb k k' then Some v else assoc k l'
    end.

Fixpoint set_assoc {A} (k : string) (v : A) (l : list (string * A)) : list (string * A) :=
    match l with
    | [] => [(k, v)]
    | (k', v') :: l' => if String.eqb k k' then (k, v) :: l' else (k', v') :: set_assoc k v l'
    end.

Definition same_line (cur iss : string) (ln : line) : bool :=
    String.eqb (ln_currency ln) cur && String.eqb (ln_account ln) iss.

  (** Add [delta] to the balance of the (cur, iss) line of an account. *)
Definition credit (cur iss : string) (delta : Z) (ls : list line) : option (list line) :=
    match find (same_line cur iss) ls with
    | None => None
    | Some ln =>
        match parseInt10 (ln_balance ln) with
        | None => None
        | Some b =>
            if (b + delta <? 0)%Z then None
            else Some (update_first (same_line cur iss)
                         (fun ln => mk_line (ln_account ln) (ln_currency ln)
                                      (pretty (b + delta)%Z) (ln_limit ln)) ls)
        end
    end.

Definition apply_tx (s : sim) (t : tx) : option sim :=
    match t with
    | TrustSet acct lim =>
        match assoc acct (sim_lines s) with
        | None => None
        | Some ls =>
            let ls' := if existsb (same_line (am_currency lim) (am_issuer lim)) ls then ls
                       else ls ++ [mk_line (am_issuer lim) (am_currency lim) "0" (am_value lim)] in
            Some (mk_sim (sim_up s) (set_assoc acct ls' (sim_lines s)) (sim_reject s) (sim_fresh s))
        end
    | Payment acct dest amt =>
        match parseInt10 (am_value amt), assoc acct (sim_lines s), assoc dest (sim_lines s) with
        | Some v, Some src, Some dst =>
            if (v <=? 0)%Z || String.eqb acct dest then None else
            match credit (am_currency amt) (am_issuer amt) (- v) src,
                  credit (am_currency amt) (am_issuer amt) v dst with
            | Some src', Some dst' =>
                Some (mk_sim (sim_up s) (set_assoc dest dst' (set_assoc acct src' (sim_lines s)))
                             (sim_reject s) (sim_fresh s))
            | _, _ => None
            end
        | _, _, _ => None
        end
    | EscrowCreate _ _ _ _ | EscrowFinish _ _ _ => None   (** escrows are not simulated *)
    end.

  (** Seeds are derived to addresses by replacing the leading [s] with
      [r]: ["sAlice"] signs for ["rAlice"]. *)
Definition derive (seed : string) : exn + string :=
    match seed with
    | String "s" rest => inr (String "r" rest)
    | _ => inl EBadSeed
    end%char.

Definition tx_account (t : tx) : string :=
    match t with
    | Payment a _ _ | TrustSet a _ | EscrowCreate a _ _ _ | EscrowFinish a _ _ => a
    end.

#[export] Instance sim_gateway : Gateway sim := {
    gw_account_lines s a :=
      if sim_up s then
        match assoc a (sim_lines s) with Some ls => inr ls | None => inl ENetwork end
      else inl ENetwork;
    gw_from_seed := derive;
    gw_submit s seed t :=
      if negb (sim_up s) then (s, inl ENetwork) else
      match derive seed with
      | inl e => (s, inl e)
      | inr signer =>
          if negb (String.eqb signer (tx_account t)) then (s, inr (mk_txr "tefBAD_AUTH" "")) else
          if existsb (String.eqb signer) (sim_reject s) then (s, inr (mk_txr "tecNO_PERMISSION" "")) else
          match apply_tx s t with
          | Some s' => (s', inr (mk_txr tesSUCCESS seed))
          | None => (s, inr (mk_txr "tecPATH_DRY" ""))
          end
      end;
    gw_generate_fund s :=
      if negb (sim_up s) then (s, inl ENetwork) else
      match sim_fresh s with
      | [] => (s, inl ENetwork)
      | w :: rest =>
          (mk_sim (sim_up s) (set_assoc (w_address w) [] (sim_lines s)) (sim_reject s) rest, inr w)
      end;
    (** Every known account holds the 10 XRP reserve. *)
    gw_xrp_balance s a :=
      if sim_up s then
        match assoc a (sim_lines s) with Some _ => inr "10" | None => inl ENetwork end
      else inl ENetwork;
  }.


Lemma assoc_set_assoc {A} k (v : A) l : assoc k (set_assoc k v l) = Some v.
Proof.
  induction l as [|[k' v'] l IH]; simpl; [by rewrite String.eqb_refl|].
  destruct (String.eqb_spec k k') as [->|Hne]; simpl; [by rewrite String.eqb_refl|].
  rewrite (proj2 (String.eqb_neq k k') Hne). exact IH.
Qed.

(** The simulated ledger obeys the ledger laws. *)
#[export] Instance sim_laws : GatewayLaws sim.
Proof.
  split.
  - intros l seed acct lim l' r ls Hsub Hok Hls. simpl in Hsub, Hls.
    repeat (case_match; simplify_eq/=); try discriminate;
      match goal with Ha : assoc _ (set_assoc _ _ _) = Some _ |- _ =>
        rewrite assoc_set_assoc in Ha; simplify_eq/= end.
    + match goal with Hex : existsb _ _ = true |- _ =>
        apply existsb_exists in Hex as (ln & Hin & Hs) end.
      exists ln. split; [done|]. unfold same_line in Hs. apply andb_true_iff in Hs as [Hc Hi].
      by apply String.eqb_eq in Hc, Hi.
    + exists (mk_line (am_issuer lim) (am_currency lim) "0" (am_value lim)).
      split; [apply in_or_app; right; by left | done].
  - intros l l' w ls Hgen Hls. simpl in Hgen, Hls.
    repeat (case_match; simplify_eq/=); try discriminate;
      match goal with Ha : assoc _ (set_assoc _ _ _) = Some _ |- _ =>
        rewrite assoc_set_assoc in Ha; by simplify_eq end.
Qed.
End SimLedger.
