(* ===== verification/World.v ===== *)
(** * The durable store and the world the handlers run in

    [data/tontines.json] and [data/users.json] are read whole and written
    whole by every handler.  A file is [FMissing], [FBlank] (empty or white
    space only), [FCorrupt] (not a JSON array of records) or [FJson l].  The
    handlers read it in three ways, kept apart here because they disagree on
    the first three cases:
    - [read_or_empty]: [existsSync] + [readFileSync().trim()] +
      [data ? JSON.parse(data) : []] ([createWallet] lines 60-66,
      [triggerTransfer] lines 31-35);
    - [read_strict]: [JSON.parse(readFileSync())] ([tontines/list] line 38,
      [tontines/details] line 32, [create-tontine] line 33, [join-tontine]
      line 48, [join] line 41);
    - [read_users]: [existsSync] + [JSON.parse(readFileSync())] ([auth]
      lines 32-36).

    A tontine record is the union of the two shapes the handlers write:
    [create-tontine] writes [{id, name, cycleSize, password, members,
    createdAt}] and [createWallet] writes [{id, tontineName, destination,
    scheduledTime, tontineMaster, wallet, createdAt, status, members}];
    [triggerTransfer] adds [transferredAt] and [txResult].  An absent field
    is [None].  Time stamps ([createdAt], [transferredAt]) are kept as the
    millisecond count the ISO string is printed from.

    The world also holds the ledger state and an event log of every ledger
    call and file write, newest last. *)

From stdpp Require Import base list strings.
From Stdlib Require Import ZArith Lia.
From S2P Require Import Prelude JsValue Currency Gateway.

Inductive status := Active | Completed.

#[export] Instance status_eq_dec : EqDecision status.
Proof. solve_decision. Defined.

Record tontine := mk_tontine {
  t_id : string;
  t_name : option string;
  t_tontineName : option string;
  t_cycleSize : option Z;          (** [parseInt]; NaN is stored as [null] *)
  t_password : option string;
  t_destination : option string;
  t_scheduledTime : option string;
  t_tontineMaster : option string;
  t_wallet : option wallet;
  t_createdAt : Z;
  t_status : option status;
  t_members : list string;
  t_transferredAt : option Z;
  t_txResult : option tx_response;
}.

Record user := mk_user {
  u_userId : string;
  u_walletAddress : string;
  u_sessionToken : string;
}.

#[export] Instance tontine_eq_dec : EqDecision tontine.
Proof. solve_decision. Defined.
#[export] Instance user_eq_dec : EqDecision user.
Proof. solve_decision. Defined.

(** [tontine.members.push(userId)] *)
Definition push_member (u : string) (t : tontine) : tontine :=
  mk_tontine (t_id t) (t_name t) (t_tontineName t) (t_cycleSize t) (t_password t)
    (t_destination t) (t_scheduledTime t) (t_tontineMaster t) (t_wallet t) (t_createdAt t)
    (t_status t) (t_members t ++ [u]) (t_transferredAt t) (t_txResult t).

(** [tontine.status = "completed"; tontine.transferredAt = ...;
    tontine.txResult = txResult] *)
Definition mark_completed (now : Z) (r : tx_response) (t : tontine) : tontine :=
  mk_tontine (t_id t) (t_name t) (t_tontineName t) (t_cycleSize t) (t_password t)
    (t_destination t) (t_scheduledTime t) (t_tontineMaster t) (t_wallet t) (t_createdAt t)
    (Some Completed) (t_members t) (Some now) (Some r).

(** [t.id === id] *)
Definition id_is (id : string) (t : tontine) : bool := String.eqb (t_id t) id.

Inductive file (A : Type) :=
  | FMissing
  | FBlank
  | FCorrupt
  | FJson (l : list A).
Arguments FMissing {A}. Arguments FBlank {A}. Arguments FCorrupt {A}. Arguments FJson {A} l.

Inductive event :=
  | EvLines (addr : string)
  | EvSubmit (t : tx) (res : exn + tx_response)
  | EvFund (res : exn + wallet)
  | EvWriteTontines (l : list tontine)
  | EvWriteUsers (l : list user)
  | EvXrpBalance (addr : string).

Record world (L : Type) := mk_world {
  w_tontines : file tontine;
  w_users : file user;
  w_ledger : L;
  w_log : list event;
}.
Arguments mk_world {L}. Arguments w_tontines {L}. Arguments w_users {L}.
Arguments w_ledger {L}. Arguments w_log {L}.

(** ** Responses

    The JSON bodies the routes answer with; error messages are named by the
    route and line that produce them. *)
Inductive err_msg :=
  | MissingFields        (** 400, every route's field check *)
  | DataFileMissing      (** 500, [join-tontine] line 44, [join] line 37 *)
  | NotFound             (** 404 *)
  | AlreadyMember        (** 400, [join-tontine] line 60, [join] line 52 *)
  | DuplicateName        (** 400, [create-tontine] line 40 *)
  | TrustlineError       (** 500, [join] line 72, [trustline/add] 103, 116 *)
  | InternalError        (** 500, every [catch] *)
  | InvalidAddress       (** 400, [wallet/balance] line 49 *)
  | BalanceError         (** 500, the wallet balance routes *)
  | TontineNotFound      (** 404, [get-tontine] line 17 *)
  | LedgerError (e : exn). (** 500, [error.message] of a ledger call *)

Record summary := mk_summary {
  s_id : string; s_tontineName : option string;
  s_scheduledTime : option string; s_status : option status;
}.

Record transfer_result := mk_result {
  res_id : string; res_status : status; res_tx : tx_response;
}.

Inductive body :=
  | BError (m : err_msg)
  | BTontine (t : tontine)
  | BCreated (tontineId walletAddress : string)
  | BJoined (t : tontine)
  | BTransfers (rs : list transfer_result)
  | BUser (u : user)
  | BSummaries (l : list summary)
  | BDetail (t : tontine)
  | BTrustline (existing : option line)
  | BBalances (xrpBalance rlusdBalance : string)   (** the wallet routes *)
  | BBalance (balance : string)                    (** [getWalletBalance], [wallet-balance] *)
  | BResult (r : tx_response)                      (** [create-trustline], [send-rlsud], [record-payment] *)
  | BStubTontines (l : list (string * string * Z)) (** [list-tontines]: [{id, name, cycleSize}] *)
  | BEmpty.                                        (** [res.status(405).end(...)] *)

Record response := mk_resp { r_status : Z; r_body : body }.

Definition err (code : Z) (m : err_msg) : response := mk_resp code (BError m).

(** ** Primitive actions *)

Section Actions.
  Context {L : Type} `{Gateway L}.

Abbreviation M := (st (world L)).

Definition log (e : event) (w : world L) : world L :=
    mk_world (w_tontines w) (w_users w) (w_ledger w) (w_log w ++ [e]).

Definition read_or_empty (f : file tontine) : exn + list tontine :=
    match f with
    | FMissing | FBlank => inr []
    | FCorrupt => inl ESyntax
    | FJson l => inr l
    end.

Definition read_strict {A} (f : file A) : exn + list A :=
    match f with
    | FMissing => inl ENoEnt
    | FBlank | FCorrupt => inl ESyntax
    | FJson l => inr l
    end.

Definition read_users (f : file user) : exn + list user :=
    match f with
    | FMissing => inr []
    | FBlank | FCorrupt => inl ESyntax
    | FJson l => inr l
    end.

Definition load_tontines (rd : file tontine -> exn + list tontine) : M (list tontine) :=
    fun w => (w, rd (w_tontines w)).

Definition load_users : M (list user) := fun w => (w, read_users (w_users w)).

  (** [fs.access(dataFilePath)] succeeds *)
Definition tontines_exist : M bool :=
    fun w => (w, inr (match w_tontines w with FMissing => false | _ => true end)).

  (** [fs.writeFile(dataFilePath, JSON.stringify(l))] *)
Definition write_tontines (l : list tontine) : M unit :=
    fun w => (mk_world (FJson l) (w_users w) (w_ledger w) (w_log w ++ [EvWriteTontines l]), inr tt).

Definition write_users (l : list user) : M unit :=
    fun w => (mk_world (w_tontines w) (FJson l) (w_ledger w) (w_log w ++ [EvWriteUsers l]), inr tt).

  (** [client.request({command: "account_lines", account: a, ...})] *)
Definition account_lines (a : string) : M (list line) :=
    fun w => (log (EvLines a) w, gw_account_lines (w_ledger w) a).

  (** [client.getXrpBalance(a)] *)
Definition xrp_balance (a : string) : M string :=
    fun w => (log (EvXrpBalance a) w, gw_xrp_balance (w_ledger w) a).

Definition submit (seed : string) (t : tx) : M tx_response :=
    fun w => let '(l', r) := gw_submit (w_ledger w) seed t in
             (mk_world (w_tontines w) (w_users w) l' (w_log w ++ [EvSubmit t r]), r).

Definition generate_fund : M wallet :=
    fun w => let '(l', r) := gw_generate_fund (w_ledger w) in
             (mk_world (w_tontines w) (w_users w) l' (w_log w ++ [EvFund r]), r).

Definition from_seed (seed : string) : M string := st_lift (gw_from_seed seed).

  (** ** Frame lemmas: what each action leaves alone *)

Definition files_are (ft : file tontine) (fu : file user) (w : world L) : Prop :=
    w_tontines w = ft /\ w_users w = fu.

Lemma load_tontines_files rd ft fu : st_preserves (files_are ft fu) (load_tontines rd).
  Proof. intros w Hw. exact Hw. Qed.
Lemma load_users_files ft fu : st_preserves (files_are ft fu) load_users.
  Proof. intros w Hw. exact Hw. Qed.
Lemma tontines_exist_files ft fu : st_preserves (files_are ft fu) tontines_exist.
  Proof. intros w Hw. exact Hw. Qed.
Lemma account_lines_files a ft fu : st_preserves (files_are ft fu) (account_lines a).
  Proof. intros w Hw. exact Hw. Qed.
Lemma submit_files seed t ft fu : st_preserves (files_are ft fu) (submit seed t).
  Proof. intros w Hw. unfold submit. by destruct (gw_submit _ _ _). Qed.
Lemma generate_fund_files ft fu : st_preserves (files_are ft fu) generate_fund.
  Proof. intros w Hw. unfold generate_fund. by destruct (gw_generate_fund _). Qed.
Lemma from_seed_files seed ft fu : st_preserves (files_are ft fu) (from_seed seed).
  Proof. intros w Hw. exact Hw. Qed.

  (** Every action only appends to the log. *)
Definition log_extends (lg : list event) (w : world L) : Prop := lg `prefix_of` w_log w.

Lemma load_tontines_log rd lg : st_preserves (log_extends lg) (load_tontines rd).
  Proof. intros w Hw. exact Hw. Qed.
Lemma load_users_log lg : st_preserves (log_extends lg) load_users.
  Proof. intros w Hw. exact Hw. Qed.
Lemma tontines_exist_log lg : st_preserves (log_extends lg) tontines_exist.
  Proof. intros w Hw. exact Hw. Qed.
Lemma account_lines_log a lg : st_preserves (log_extends lg) (account_lines a).
  Proof. intros w Hw. unfold log_extends in *. simpl. by apply prefix_app_r. Qed.
Lemma submit_log seed t lg : st_preserves (log_extends lg) (submit seed t).
  Proof.
    intros w Hw. unfold submit, log_extends in *. destruct (gw_submit _ _ _). simpl.
    by apply prefix_app_r.
  Qed.
Lemma generate_fund_log lg : st_preserves (log_extends lg) generate_fund.
  Proof.
    intros w Hw. unfold generate_fund, log_extends in *. destruct (gw_generate_fund _). simpl.
    by apply prefix_app_r.
  Qed.
Lemma from_seed_log seed lg : st_preserves (log_extends lg) (from_seed seed).
  Proof. intros w Hw. exact Hw. Qed.
Lemma write_tontines_log l lg : st_preserves (log_extends lg) (write_tontines l).
  Proof. intros w Hw. unfold log_extends in *. simpl. by apply prefix_app_r. Qed.
Lemma write_users_log l lg : st_preserves (log_extends lg) (write_users l).
  Proof. intros w Hw. unfold log_extends in *. simpl. by apply prefix_app_r. Qed.

  (** The actions that do not write [tontines.json]. *)
Definition tontines_file_is (ft : file tontine) (w : world L) : Prop := w_tontines w = ft.

Lemma write_users_tontines l ft : st_preserves (tontines_file_is ft) (write_users l).
  Proof. intros w Hw. exact Hw. Qed.
Lemma load_tontines_tontines rd ft : st_preserves (tontines_file_is ft) (load_tontines rd).
  Proof. intros w Hw. exact Hw. Qed.
Lemma load_users_tontines ft : st_preserves (tontines_file_is ft) load_users.
  Proof. intros w Hw. exact Hw. Qed.
Lemma tontines_exist_tontines ft : st_preserves (tontines_file_is ft) tontines_exist.
  Proof. intros w Hw. exact Hw. Qed.
Lemma account_lines_tontines a ft : st_preserves (tontines_file_is ft) (account_lines a).
  Proof. intros w Hw. exact Hw. Qed.
Lemma submit_tontines seed t ft : st_preserves (tontines_file_is ft) (submit seed t).
  Proof. intros w Hw. unfold submit. by destruct (gw_submit _ _ _). Qed.
Lemma generate_fund_tontines ft : st_preserves (tontines_file_is ft) generate_fund.
  Proof. intros w Hw. unfold generate_fund. by destruct (gw_generate_fund _). Qed.
Lemma from_seed_tontines seed ft : st_preserves (tontines_file_is ft) (from_seed seed).
  Proof. intros w Hw. exact Hw. Qed.
End Actions.

#[export] Hint Resolve load_tontines_files load_users_files tontines_exist_files
  account_lines_files submit_files generate_fund_files from_seed_files
  load_tontines_log load_users_log tontines_exist_log account_lines_log submit_log
  generate_fund_log from_seed_log write_tontines_log write_users_log
  write_users_tontines load_tontines_tontines load_users_tontines tontines_exist_tontines
  account_lines_tontines submit_tontines generate_fund_tontines from_seed_tontines : tontine.

(** ** Concrete worlds on the simulated ledger *)
Module Fixtures.
  Import SimLedger.

Definition rlusd_line (bal : string) : line := mk_line ISSUER_ADDRESS RLUSD_HEX bal "1000000".

  (** The pool wallet [rPool] holds [pool_bal] RLUSD; [rDest] can receive. *)
Definition ledger0 (pool_bal : string) : sim :=
    mk_sim true [("rPool", [rlusd_line pool_bal]); ("rDest", [rlusd_line "0"])] []
      [mk_wallet "rFresh" "sFresh"].

Definition pool_wallet : wallet := mk_wallet "rPool" "sPool".

Definition world_of (ft : file tontine) (l : sim) : world sim := mk_world ft FMissing l [].
End Fixtures.
