(* ===== verification/XrplService.v ===== *)
(** * The ledger helpers of [src/BCI/src/utils/xrplService.js] and the
      trust-line route [src/BCI/src/app/api/trustline/add/route.js]

    [getRLUSDBalance] reads the account's trust lines and returns the balance
    string of the first RLUSD line ("0" if none); [transferFunds] queries that
    balance again, refuses a balance [<= 0], and pays the whole of it to the
    destination; [createTemporaryWallet] funds a fresh wallet and sets its
    RLUSD trust line, then checks that the line is there.  All are written
    against the [Gateway] class; connecting and disconnecting the client is
    folded into the calls (a failed connect is a failed call). *)

From stdpp Require Import base list strings.
From Stdlib Require Import ZArith Lia.
From S2P Require Import Prelude JsValue Currency Gateway World.

Local Open Scope st_scope.

Section Service.
  Context {L : Type} `{Gateway L}.

Abbreviation M := (st (world L)).

  (** [getRLUSDBalance(address)], lines 20-45 *)
Definition getRLUSDBalance (address : string) : M string :=
    let! ls := account_lines address in
    st_ret (balance_of rlusd_line_service ls).

  (** The payment [transferFunds] submits, lines 61-70. *)
Definition rlusd_payment (from dest value : string) : tx :=
    Payment from dest (mk_amount RLUSD_HEX ISSUER_ADDRESS value).

  (** [transferFunds(walletData, destination)], lines 48-87; an absent
      destination is refused by the xrpl library before anything is sent. *)
Definition transferFunds (wd : wallet) (destination : option string) : M tx_response :=
    let! amount := getRLUSDBalance (w_address wd) in
    if js_le0 (parseFloat amount) then st_throw ENoBalance else
    let! classic := from_seed (w_secret wd) in
    match destination with
    | None => st_throw EValidation
    | Some dest =>
        let! r := submit (w_secret wd) (rlusd_payment classic dest amount) in
        if String.eqb (tr_result r) tesSUCCESS then st_ret r
        else st_throw (EPaymentFailed (tr_result r))
    end.

  (** The TrustSet of [createTemporaryWallet] (lines 121-129) and of
      [trustline/add] (lines 87-95). *)
Definition rlusd_trustset (acct currency : string) : tx :=
    TrustSet acct (mk_amount currency ISSUER_ADDRESS "1000000").

  (** [createTemporaryWallet()], lines 90-168 *)
Definition createTemporaryWallet : M wallet :=
    let! w := generate_fund in
    let! ls := account_lines (w_address w) in
    if existsb rlusd_line_exact ls then st_ret w else
    let! r := submit (w_secret w) (rlusd_trustset (w_address w) RLUSD_HEX) in
    if negb (String.eqb (tr_result r) tesSUCCESS) then st_throw (ETrustSetFailed (tr_result r)) else
    let! ls' := account_lines (w_address w) in
    if existsb rlusd_line_exact ls' then st_ret w else st_throw ETrustlineUnverified.

  (** [POST /api/trustline/add], lines 49-119.  The lines are read for the
      address in the request, but the TrustSet is signed for the address the
      seed derives. *)
Definition trustline_add (tontineWalletAddress tontineSecret : option string) : M response :=
    st_catch
      (match tontineWalletAddress, tontineSecret with
       | Some addr, Some secret =>
           if negb (truthy (Some addr) && truthy (Some secret)) then st_ret (err 400 MissingFields) else
           let! ls := account_lines addr in
           let! cur := st_lift (trustline_toHexCurrency "RLUSD") in
           match find (fun ln => String.eqb (ln_currency ln) cur &&
                                 String.eqb (to_upper (ln_account ln)) (to_upper ISSUER_ADDRESS)) ls with
           | Some ln => st_ret (mk_resp 200 (BTrustline (Some ln)))
           | None =>
               let! classic := from_seed secret in
               let! cur' := st_lift (trustline_toHexCurrency "RLUSD") in
               let! r := submit secret (rlusd_trustset classic cur') in
               if String.eqb (tr_result r) tesSUCCESS then st_ret (mk_resp 200 (BTrustline None))
               else st_ret (err 500 TrustlineError)
           end
       | _, _ => st_ret (err 400 MissingFields)
       end)
      (fun _ => st_ret (err 500 TrustlineError)).

  (** ** Lemmas *)

Lemma getRLUSDBalance_run a w :
    getRLUSDBalance a w =
      (log (EvLines a) w, match gw_account_lines (w_ledger w) a with
                          | inl e => inl e
                          | inr ls => inr (balance_of rlusd_line_service ls)
                          end).
  Proof. unfold getRLUSDBalance. st_simpl. by destruct (gw_account_lines _ _). Qed.

Lemma transferFunds_files wd d ft fu : st_preserves (files_are ft fu) (transferFunds wd d).
  Proof.
    unfold transferFunds, getRLUSDBalance. st_preserve.
  Qed.

Lemma transferFunds_tontines wd d ft : st_preserves (tontines_file_is ft) (transferFunds wd d).
  Proof.
    unfold transferFunds, getRLUSDBalance. st_preserve.
  Qed.

Lemma transferFunds_log wd d lg : st_preserves (log_extends lg) (transferFunds wd d).
  Proof.
    unfold transferFunds, getRLUSDBalance. st_preserve.
  Qed.

Lemma createTemporaryWallet_files ft fu : st_preserves (files_are ft fu) createTemporaryWallet.
  Proof.
    unfold createTemporaryWallet. st_preserve.
  Qed.

Lemma createTemporaryWallet_log lg : st_preserves (log_extends lg) createTemporaryWallet.
  Proof.
    unfold createTemporaryWallet. st_preserve.
  Qed.
Lemma trustline_add_tontines a sec ft : st_preserves (tontines_file_is ft) (trustline_add a sec).
  Proof. unfold trustline_add. st_preserve. Qed.

Lemma createTemporaryWallet_tontines ft : st_preserves (tontines_file_is ft) createTemporaryWallet.
  Proof. unfold createTemporaryWallet. st_preserve. Qed.
End Service.

#[export] Hint Resolve trustline_add_tontines createTemporaryWallet_tontines : tontine.
#[export] Hint Resolve transferFunds_files transferFunds_tontines transferFunds_log
  createTemporaryWallet_files createTemporaryWallet_log : tontine.

Section ServiceTheorems.
  Context {L : Type} `{Gateway L}.

  (** What a receipt of [transferFunds] certifies about the run. *)
Definition transfer_receipt_spec wd d w w' r : Prop :=
    exists ls classic dest,
      let amount := balance_of rlusd_line_service ls in
      gw_account_lines (w_ledger w) (w_address wd) = inr ls /\
      js_le0 (parseFloat amount) = false /\
      gw_from_seed (w_secret wd) = inr classic /\ d = Some dest /\
      gw_submit (w_ledger w) (w_secret wd) (rlusd_payment classic dest amount) = (w_ledger w', inr r) /\
      tr_result r = tesSUCCESS /\
      w_log w' = w_log w ++ [EvLines (w_address wd); EvSubmit (rlusd_payment classic dest amount) (inr r)] /\
      w_tontines w' = w_tontines w /\ w_users w' = w_users w.

  (** C13: When [transferFunds] returns a receipt, it read the wallet's trust
      lines once, found an RLUSD balance that is not [<= 0], and submitted
      exactly one payment, of that balance string, from the address the seed
      derives to the destination, which the ledger accepted with
      [tesSUCCESS]; nothing else was logged and no file was touched. *)
Theorem transferFunds_success wd d w w' r :
    transferFunds wd d w = (w', inr r) -> transfer_receipt_spec wd d w w' r.
  Proof.
    unfold transferFunds, getRLUSDBalance, account_lines, submit, from_seed, log.
    intros Hrun. st_run.
    match goal with E : String.eqb _ _ = true |- _ => apply String.eqb_eq in E end.
    eexists _, _, _. simpl. rewrite <- app_assoc. naive_solver.
  Qed.

  (** If the RLUSD balance the wallet's lines show is [<= 0] (zero,
      negative, or no RLUSD line at all, read as "0"), [transferFunds] throws
      [ENoBalance] after the balance query and submits nothing: the ledger is
      unchanged. *)
Theorem transferFunds_no_balance wd d w ls :
    gw_account_lines (w_ledger w) (w_address wd) = inr ls ->
    js_le0 (parseFloat (balance_of rlusd_line_service ls)) = true ->
    transferFunds wd d w = (log (EvLines (w_address wd)) w, inl ENoBalance).
  Proof.
    intros Hls Hle. unfold transferFunds, getRLUSDBalance, account_lines.
    st_simpl. rewrite Hls. simpl. rewrite Hle. reflexivity.
  Qed.
End ServiceTheorems.

Section LawfulLedger.
Context {L : Type} `{GatewayLaws L}.

Lemma exact_line_found ls lim :
  am_currency lim = RLUSD_HEX -> am_issuer lim = ISSUER_ADDRESS ->
  (exists ln, In ln ls /\ ln_currency ln = am_currency lim /\ ln_account ln = am_issuer lim) ->
  existsb rlusd_line_exact ls = true.
Proof.
  intros Hc Hi (ln & Hin & Hlc & Hla). apply existsb_exists. exists ln. split; [done|].
  unfold rlusd_line_exact. rewrite Hlc, Hla, Hc, Hi, !String.eqb_refl. done.
Qed.

(** C40: On a ledger that obeys the laws, the final verification of
    [createTemporaryWallet] ("Trustline verification failed") never fires:
    the fresh wallet has no line, so the TrustSet is always submitted, and
    once the ledger has accepted it and both queries answer, the wallet is
    returned, after exactly the funding, a query, the TrustSet and the
    second query. *)
Theorem createTemporaryWallet_lawful (w : world L) l1 wl ls1 l2 tr ls2 :
  gw_generate_fund (w_ledger w) = (l1, inr wl) ->
  gw_account_lines l1 (w_address wl) = inr ls1 ->
  gw_submit l1 (w_secret wl) (rlusd_trustset (w_address wl) RLUSD_HEX) = (l2, inr tr) ->
  tr_result tr = tesSUCCESS ->
  gw_account_lines l2 (w_address wl) = inr ls2 ->
  createTemporaryWallet w =
    (mk_world (w_tontines w) (w_users w) l2
       (w_log w ++ [EvFund (inr wl); EvLines (w_address wl);
                    EvSubmit (rlusd_trustset (w_address wl) RLUSD_HEX) (inr tr);
                    EvLines (w_address wl)]), inr wl).
Proof.
  intros Hg Hl1 Hs Hok Hl2.
  pose proof (gw_fresh_no_lines _ _ _ _ Hg Hl1) as ->.
  assert (Hex : existsb rlusd_line_exact ls2 = true).
  { apply (exact_line_found ls2 (mk_amount RLUSD_HEX ISSUER_ADDRESS "1000000")); [done|done|].
    exact (gw_trustset_visible _ _ _ _ _ _ _ Hs Hok Hl2). }
  unfold createTemporaryWallet, generate_fund, account_lines, submit, log, st_bind, st_ret.
  cbn -[rlusd_trustset RLUSD_HEX].
  repeat (first [rewrite Hg | rewrite Hl1 | rewrite Hs | rewrite Hok | rewrite Hl2 | rewrite Hex];
          cbn -[rlusd_trustset RLUSD_HEX]).
  by rewrite <- !app_assoc.
Qed.
End LawfulLedger.

Section ServiceWitnesses.
  Import SimLedger Fixtures.

Definition pay_world : world sim := world_of FMissing (ledger0 "50").

Lemma transferFunds_success_witness :
    transferFunds pool_wallet (Some "rDest") pay_world =
      (fst (transferFunds pool_wallet (Some "rDest") pay_world), inr (mk_txr tesSUCCESS "sPool")) /\
    transfer_receipt_spec pool_wallet (Some "rDest") pay_world
      (fst (transferFunds pool_wallet (Some "rDest") pay_world)) (mk_txr tesSUCCESS "sPool").
  Proof.
    assert (Hrun : transferFunds pool_wallet (Some "rDest") pay_world =
      (fst (transferFunds pool_wallet (Some "rDest") pay_world), inr (mk_txr tesSUCCESS "sPool")))
      by (vm_compute; reflexivity).
    split; [exact Hrun | exact (transferFunds_success _ _ _ _ _ Hrun)].
  Defined.

Lemma transferFunds_no_balance_witness :
    transferFunds pool_wallet (Some "rDest") (world_of FMissing (ledger0 "0")) =
      (log (EvLines (w_address pool_wallet)) (world_of FMissing (ledger0 "0")), inl ENoBalance).
  Proof.
    apply (transferFunds_no_balance _ _ _ [rlusd_line "0"]); vm_compute; reflexivity.
  Defined.

Definition fund_world : world sim := world_of FMissing (ledger0 "0").
Definition fund_l1 : sim := fst (gw_generate_fund (w_ledger fund_world)).
Definition fund_l2 : sim := fst (gw_submit fund_l1 "sFresh" (rlusd_trustset "rFresh" RLUSD_HEX)).

Lemma createTemporaryWallet_lawful_witness :
  createTemporaryWallet fund_world =
    (mk_world FMissing FMissing fund_l2
       (w_log fund_world ++ [EvFund (inr (mk_wallet "rFresh" "sFresh")); EvLines "rFresh";
                             EvSubmit (rlusd_trustset "rFresh" RLUSD_HEX) (inr (mk_txr tesSUCCESS "sFresh"));
                             EvLines "rFresh"]), inr (mk_wallet "rFresh" "sFresh")).
Proof.
  apply (createTemporaryWallet_lawful fund_world fund_l1 (mk_wallet "rFresh" "sFresh") []
           fund_l2 (mk_txr tesSUCCESS "sFresh") [rlusd_line "0"]); vm_compute; reflexivity.
Defined.
End ServiceWitnesses.
