(* ===== verification/Cost.v ===== *)
(** * Cost: counting the ledger calls of a computation

    Every call a handler makes to the ledger appends one event to the
    world's log ([EvLines], [EvXrpBalance], [EvFund], [EvSubmit]); file
    writes append [EvWriteTontines] or [EvWriteUsers].  [within ns nc c]
    bounds what [c] appends, on every path and exceptions included: at most
    [ns] submitted transactions and at most [nc] ledger calls.  The lemmas
    are a small cost calculus on [st] ([within_bind] adds the bounds of the
    two parts, [within_bind_rest] splits a bound top down), closed by the
    [cost] tactic, and the bounds of the service functions of
    [xrplService.js] and of [trustline/add].  [Settlement] and [Bounds]
    use them to bound the handlers. *)

From stdpp Require Import base list strings.
From Stdlib Require Import ZArith Lia.
From S2P Require Import Prelude JsValue Gateway World XrplService.

Local Open Scope st_scope.

(** A transaction handed to [submitAndWait]. *)
Definition is_submit (e : event) : bool := match e with EvSubmit _ _ => true | _ => false end.

(** A request to the ledger (not a file write). *)
Definition is_ledger_call (e : event) : bool :=
  match e with EvWriteTontines _ | EvWriteUsers _ => false | _ => true end.

Definition n_submits (evs : list event) : nat := length (List.filter is_submit evs).
Definition n_calls (evs : list event) : nat := length (List.filter is_ledger_call evs).

Section Cost.
  Context {L : Type} `{Gateway L}.

Abbreviation M := (st (world L)).

  (** Run from [w], [c] appends at most [ns] submissions and [nc] ledger
      calls to the log, and nothing else is taken from it. *)
Definition within_at {A} (ns nc : nat) (c : M A) (w : world L) : Prop :=
    exists evs, w_log (c w).1 = w_log w ++ evs /\ n_submits evs <= ns /\ n_calls evs <= nc.

Definition within {A} (ns nc : nat) (c : M A) : Prop := forall w, within_at ns nc c w.
End Cost.

(** ** The cost calculus *)

Lemma n_submits_app l1 l2 : n_submits (l1 ++ l2) = n_submits l1 + n_submits l2.
Proof. unfold n_submits. by rewrite List.filter_app, length_app. Qed.

Lemma n_calls_app l1 l2 : n_calls (l1 ++ l2) = n_calls l1 + n_calls l2.
Proof. unfold n_calls. by rewrite List.filter_app, length_app. Qed.

Create Rewrite HintDb len.
#[export] Hint Rewrite n_submits_app n_calls_app : len.

(** The [len] tactic of the length lemmas: rewrite the counts of appended
    logs, compute the counts of the single events, and close with [lia]. *)
Ltac len := autorewrite with len in *; cbn [n_submits n_calls List.filter is_submit is_ledger_call length] in *; lia.

Section CostLemmas.
  Context {L : Type} `{Gateway L}.

Abbreviation M := (st (world L)).

Lemma within_at_mono {A} ns nc ns' nc' (c : M A) w :
    within_at ns nc c w -> ns <= ns' -> nc <= nc' -> within_at ns' nc' c w.
  Proof. intros (evs & E & Hs & Hc) ? ?. exists evs. split_and!; [done|lia|lia]. Qed.

Lemma within_mono {A} ns nc ns' nc' (c : M A) :
    within ns nc c -> ns <= ns' -> nc <= nc' -> within ns' nc' c.
  Proof. intros Hc ? ? w. eapply within_at_mono; eauto. Qed.

  (** A step that leaves the log alone. *)
Lemma within_pure {A} (c : M A) : (forall w, w_log (c w).1 = w_log w) -> within 0 0 c.
  Proof. intros Hc w. exists []. rewrite Hc, app_nil_r. done. Qed.

Lemma within_ret {A} (a : A) : within (L:=L) 0 0 (st_ret a).
  Proof. by apply within_pure. Qed.

Lemma within_throw {A} e : within (L:=L) 0 0 (@st_throw _ A e).
  Proof. by apply within_pure. Qed.

Lemma within_lift {A} (r : exn + A) : within (L:=L) 0 0 (st_lift r).
  Proof. by apply within_pure. Qed.

Lemma within_bind_at {A B} ns nc ns' nc' (c : M A) (k : A -> M B) w :
    within_at ns nc c w ->
    (forall a w', c w = (w', inr a) -> within_at ns' nc' (k a) w') ->
    within_at (ns + ns') (nc + nc') (st_bind c k) w.
  Proof.
    intros (evs & E & Hs & Hc) Hk. unfold within_at, st_bind. cbv beta.
    destruct (c w) as [w' [e|a]] eqn:Ec; rewrite ?Ec in E; simpl in *.
    - exists evs. split_and!; [done|lia|lia].
    - destruct (Hk a w' eq_refl) as (evs' & E' & Hs' & Hc').
      exists (evs ++ evs'). rewrite E', E, app_assoc. split_and!; [done|len|len].
  Qed.

Lemma within_bind {A B} ns nc ns' nc' (c : M A) (k : A -> M B) :
    within ns nc c -> (forall a, within ns' nc' (k a)) -> within (ns + ns') (nc + nc') (st_bind c k).
  Proof. intros Hc Hk w. apply within_bind_at; [apply Hc|]. intros a w' _. apply Hk. Qed.

Lemma within_catch {A} ns nc ns' nc' (c : M A) (h : exn -> M A) :
    within ns nc c -> (forall e, within ns' nc' (h e)) -> within (ns + ns') (nc + nc') (st_catch c h).
  Proof.
    intros Hc Hh w. destruct (Hc w) as (evs & E & Hs & Hn). unfold within_at, st_catch. cbv beta.
    destruct (c w) as [w' [e|a]] eqn:Ec; rewrite ?Ec in E; simpl in *.
    - destruct (Hh e w') as (evs' & E' & Hs' & Hn').
      exists (evs ++ evs'). rewrite E', E, app_assoc. split_and!; [done|len|len].
    - exists evs. split_and!; [done|lia|lia].
  Qed.

Lemma within_account_lines a : within (L:=L) 0 1 (account_lines a).
  Proof. intros w. exists [EvLines a]. split_and!; [done|len|len]. Qed.

Lemma within_xrp_balance a : within (L:=L) 0 1 (xrp_balance a).
  Proof. intros w. exists [EvXrpBalance a]. split_and!; [done|len|len]. Qed.

Lemma within_submit seed t : within (L:=L) 1 1 (submit seed t).
  Proof.
    intros w. unfold within_at, submit. cbv beta. destruct (gw_submit (w_ledger w) seed t) as [l' r].
    exists [EvSubmit t r]. split_and!; [done|len|len].
  Qed.

Lemma within_generate_fund : within (L:=L) 0 1 generate_fund.
  Proof.
    intros w. unfold within_at, generate_fund. cbv beta. destruct (gw_generate_fund (w_ledger w)) as [l' r].
    exists [EvFund r]. split_and!; [done|len|len].
  Qed.

Lemma within_write_tontines l : within (L:=L) 0 0 (write_tontines l).
  Proof. intros w. exists [EvWriteTontines l]. split_and!; [done|len|len]. Qed.

Lemma within_write_users l : within (L:=L) 0 0 (write_users l).
  Proof. intros w. exists [EvWriteUsers l]. split_and!; [done|len|len]. Qed.

Lemma within_load_tontines rd : within (L:=L) 0 0 (load_tontines rd).
  Proof. by apply within_pure. Qed.

Lemma within_load_users : within (L:=L) 0 0 load_users.
  Proof. by apply within_pure. Qed.

Lemma within_tontines_exist : within (L:=L) 0 0 tontines_exist.
  Proof. by apply within_pure. Qed.
End CostLemmas.

(** The forms the tactic uses: the bound of the rest of a computation is
    what the bound of the whole leaves after its first step. *)
Lemma within_bind_rest {L} `{Gateway L} {A B} ns nc a b (c : st (world L) A) (k : A -> st (world L) B) :
  within a b c -> (forall x, within (ns - a) (nc - b) (k x)) -> a <= ns -> b <= nc ->
  within ns nc (st_bind c k).
Proof.
  intros Hc Hk ? ?. eapply within_mono; [apply (within_bind a b (ns - a) (nc - b)); eauto| |]; lia.
Qed.

Lemma within_catch_ret {L} `{Gateway L} {A} ns nc (c : st (world L) A) (h : exn -> A) :
  within ns nc c -> within ns nc (st_catch c (fun e => st_ret (h e))).
Proof.
  intros Hc. eapply within_mono; [apply (within_catch ns nc 0 0); [exact Hc|intros; apply within_ret]| |]; lia.
Qed.

Lemma within_if {L} `{Gateway L} {A} ns nc (b : bool) (c1 c2 : st (world L) A) :
  within ns nc c1 -> within ns nc c2 -> within ns nc (if b then c1 else c2).
Proof. by destruct b. Qed.

Create HintDb cost.
#[export] Hint Resolve within_ret within_throw within_lift within_account_lines within_xrp_balance
  within_submit within_generate_fund within_write_tontines within_write_users within_load_tontines
  within_load_users within_tontines_exist within_if : cost.

(** Bound a computation by its structure, top down: a bind takes the bound
    of its first step from the [cost] database and leaves the rest of the
    bound to its continuation; a catch whose handler answers keeps the
    bound; a branch keeps the bound of the whole; a leaf is closed from the
    database up to [lia]. *)
Ltac cost_step :=
  match goal with
  | |- within _ _ (st_catch _ (fun _ => st_ret _)) => apply within_catch_ret
  | |- within _ _ (st_bind _ _) =>
      eapply within_bind_rest; [solve [eauto with cost] | | lia | lia]
  | |- within _ _ (if _ then _ else _) => case_match
  | |- within _ _ (match _ with _ => _ end) => case_match
  | |- within _ _ (let _ := _ in _) => cbv zeta
  | |- forall _, _ => intro
  | |- within _ _ _ => eapply within_mono; [solve [eauto with cost] | lia | lia]
  end.
Ltac cost := repeat (progress (try cost_step)).

(** ** The ledger calls of the service and of the handlers *)

Section ServiceCosts.
  Context {L : Type} `{Gateway L}.

Lemma within_getRLUSDBalance a : within (L:=L) 0 1 (getRLUSDBalance a).
  Proof. unfold getRLUSDBalance. cost. Qed.
#[local] Hint Resolve within_getRLUSDBalance : cost.

Lemma within_transferFunds wd d : within (L:=L) 1 2 (transferFunds wd d).
  Proof. unfold transferFunds, from_seed. cost. Qed.

Lemma within_createTemporaryWallet : within (L:=L) 1 4 createTemporaryWallet.
  Proof. unfold createTemporaryWallet. cost. Qed.

Lemma within_trustline_add a s : within (L:=L) 1 2 (trustline_add a s).
  Proof. unfold trustline_add, from_seed. cost. Qed.
End ServiceCosts.
#[export] Hint Resolve within_getRLUSDBalance within_transferFunds within_createTemporaryWallet
  within_trustline_add : cost.
