(* ===== verification/Settlement.v ===== *)
(** * Settlement: [GET /api/triggerTransfer]

    [src/BCI/src/app/api/triggerTransfer/route.js] reads [tontines.json]
    (missing or blank counts as empty), and for each record in order that is
    [active] with [new Date(scheduledTime) <= now] queries the wallet's RLUSD
    balance, skips the record when [parseFloat(balance) <= 0], and otherwise
    calls [transferFunds] (which queries the balance again and pays all of
    it) and marks the record [completed] with [transferredAt] and
    [txResult].  If any record was changed the whole list is written once,
    after the loop.  Any exception anywhere ends the pass with a 500 answer.

    [date_parse] is [new Date(s).getTime()] ([None] for an Invalid Date, on
    which every comparison is false); it is a parameter of the section
    because it depends on the server's time zone.  The pass reads the clock
    once; the code reads it again for [transferredAt], a few milliseconds
    later, and the model uses the same [now] for both.

    Besides one pass, the file proves two facts of the passes repeated by
    the external trigger: a variant (the number of [active] records) bounds
    the passes that change the file, and a record skipped for an empty
    wallet is completed by a later pass once funded. *)

From stdpp Require Import base list strings sets.
From Stdlib Require Import ZArith Lia.
From S2P Require Import Prelude JsValue Currency Gateway World XrplService Cost.

Local Open Scope st_scope.
Local Open Scope Z_scope.

Section Settlement.
  Context {L : Type} `{Gateway L}.
  Variable date_parse : string -> option Z.

Abbreviation M := (st (world L)).

  (** [tontine.status === "active" && new Date(tontine.scheduledTime) <= now],
      lines 42-45 *)
Definition is_due (now : Z) (t : tontine) : bool :=
    match t_status t, t_scheduledTime t with
    | Some Active, Some s =>
        match date_parse s with Some ts => ts <=? now | None => false end
    | _, _ => false
    end.

  (** The loop body, lines 42-72: [None] leaves the record as it is. *)
Definition process_tontine (now : Z) (t : tontine) : M (option (tontine * transfer_result)) :=
    if negb (is_due now t) then st_ret None else
    match t_wallet t with
    | None => st_throw ETypeError
    | Some wd =>
        let! balance := getRLUSDBalance (w_address wd) in
        if js_le0 (parseFloat balance) then st_ret None else
        let! txResult := transferFunds wd (t_destination t) in
        st_ret (Some (mark_completed now txResult t, mk_result (t_id t) Completed txResult))
    end.

  (** [for (const tontine of tontines) {...}], lines 38-73: the records after
      the loop, the [updated] flag and the [results] array. *)
Fixpoint settle_loop (now : Z) (ts : list tontine) : M (list tontine * bool * list transfer_result) :=
    match ts with
    | [] => st_ret ([], false, [])
    | t :: rest =>
        let! o := process_tontine now t in
        let! '(rest', upd, rs) := settle_loop now rest in
        match o with
        | None => st_ret (t :: rest', upd, rs)
        | Some (t', r) => st_ret (t' :: rest', true, r :: rs)
        end
    end.

  (** [GET(request)], lines 29-90 *)
Definition triggerTransfer (now : Z) : M response :=
    st_catch
      (let! ts := load_tontines read_or_empty in
       let! '(ts', updated, results) := settle_loop now ts in
       do! (if updated then write_tontines ts' else st_ret tt) in
       st_ret (mk_resp 200 (BTransfers results)))
      (fun _ => st_ret (err 500 InternalError)).

  (** What may happen to one record in a pass: nothing, or completion of a
      record that was due. *)
Definition settled (now : Z) (t t' : tontine) : Prop :=
    t' = t \/ (is_due now t = true /\ exists r, t' = mark_completed now r t).

Lemma is_due_active now t : is_due now t = true -> t_status t = Some Active.
  Proof. unfold is_due. repeat case_match; congruence. Qed.

  (** ** The loop body *)

Lemma process_tontine_some now t w w' t' r :
    process_tontine now t w = (w', inr (Some (t', r))) ->
    is_due now t = true /\ t' = mark_completed now (res_tx r) t /\
    res_id r = t_id t /\ res_status r = Completed.
  Proof.
    unfold process_tontine. intros Hrun. destruct (is_due now t) eqn:Hd; [|st_run].
    destruct (t_wallet t); [|st_run].
    apply st_bind_inv in Hrun as [[e [_ He]]|[w1 [b [_ Hrun]]]]; [discriminate|].
    destruct (js_le0 _); [st_run|].
    apply st_bind_inv in Hrun as [[e [_ He]]|[w2 [x [_ Hrun]]]]; [discriminate|].
    st_run. done.
  Qed.

Lemma process_tontine_not_due now t : is_due now t = false -> process_tontine now t = st_ret None.
  Proof. intros Hd. unfold process_tontine. by rewrite Hd. Qed.

  (** The run of the loop body on a due record, by what the ledger answers:
      an empty wallet is skipped after the balance query, a funded one is
      paid and completed. *)
Lemma process_tontine_unfunded_run now t wd w ls :
    is_due now t = true -> t_wallet t = Some wd ->
    gw_account_lines (w_ledger w) (w_address wd) = inr ls ->
    js_le0 (parseFloat (balance_of rlusd_line_service ls)) = true ->
    process_tontine now t w = (log (EvLines (w_address wd)) w, inr None).
  Proof.
    intros Hd Hw Hls Hle. unfold process_tontine, getRLUSDBalance, account_lines.
    rewrite Hd, Hw. st_simpl. rewrite Hls. simpl. by rewrite Hle.
  Qed.

Lemma process_tontine_funded_run now t wd w ls classic dest l' rcpt :
    is_due now t = true -> t_wallet t = Some wd ->
    gw_account_lines (w_ledger w) (w_address wd) = inr ls ->
    js_le0 (parseFloat (balance_of rlusd_line_service ls)) = false ->
    gw_from_seed (w_secret wd) = inr classic -> t_destination t = Some dest ->
    gw_submit (w_ledger w) (w_secret wd)
      (rlusd_payment classic dest (balance_of rlusd_line_service ls)) = (l', inr rcpt) ->
    tr_result rcpt = tesSUCCESS ->
    exists w', process_tontine now t w =
      (w', inr (Some (mark_completed now rcpt t, mk_result (t_id t) Completed rcpt))).
  Proof.
    intros Hd Hw Hls Hle Hseed Hdest Hsub Hok.
    unfold process_tontine, transferFunds, getRLUSDBalance, account_lines, from_seed, submit, log.
    rewrite Hd, Hw, Hdest. st_simpl.
    repeat (first [rewrite Hls | rewrite Hle | rewrite Hseed | rewrite Hsub | rewrite Hok]; simpl).
    eauto.
  Qed.

  (** ** The loop *)

Lemma settle_loop_inv now t rest w w' ts' upd rs :
    settle_loop now (t :: rest) w = (w', inr (ts', upd, rs)) ->
    exists w1 o rest' upd' rs',
      process_tontine now t w = (w1, inr o) /\
      settle_loop now rest w1 = (w', inr (rest', upd', rs')) /\
      match o with
      | None => ts' = t :: rest' /\ upd = upd' /\ rs = rs'
      | Some (t', r) => ts' = t' :: rest' /\ upd = true /\ rs = r :: rs'
      end.
  Proof.
    simpl. intros Hrun.
    apply st_bind_inv in Hrun as [[e [_ He]]|[w1 [o [Ho Hrun]]]]; [discriminate|].
    apply st_bind_inv in Hrun as [[e [_ He]]|[w2 [[[rest' u] rs'] [Hl Hrun]]]]; [discriminate|].
    exists w1, o, rest', u, rs'. destruct o as [[t' r]|]; st_run; auto.
  Qed.

  (** Each record comes out of the loop unchanged or completed, in place. *)
Lemma settle_loop_settled now ts w w' ts' upd rs :
    settle_loop now ts w = (w', inr (ts', upd, rs)) -> Forall2 (settled now) ts ts'.
  Proof.
    revert w ts' upd rs. induction ts as [|t rest IH]; intros w ts' upd rs Hrun.
    - st_run. constructor.
    - apply settle_loop_inv in Hrun as (w1 & o & rest' & upd' & rs' & Ho & Hl & Hc).
      destruct o as [[t' r]|]; destruct_and!; subst; constructor; eauto.
      + right. apply process_tontine_some in Ho as (? & -> & _). eauto.
      + by left.
  Qed.

  (** A loop over records none of which is due does nothing. *)
Lemma settle_loop_none_due now ts w :
    Forall (fun t => is_due now t = false) ts -> settle_loop now ts w = (w, inr (ts, false, [])).
  Proof.
    intros Hts. revert w. induction Hts as [|t rest Ht Hrest IH]; intros w; [done|].
    simpl. rewrite process_tontine_not_due by done. st_simpl. by rewrite IH.
  Qed.

  (** The loop writes no file. *)
Lemma process_tontine_tontines now t ft : st_preserves (tontines_file_is ft) (process_tontine now t).
  Proof. unfold process_tontine, getRLUSDBalance. st_preserve. Qed.

Lemma settle_loop_tontines now ts ft : st_preserves (tontines_file_is ft) (settle_loop now ts).
  Proof.
    induction ts as [|t rest IH]; simpl; st_preserve; auto using process_tontine_tontines.
  Qed.
  (** The three ways a pass ends: the file could not be read, the loop
      threw (caught, 500), or the loop finished (200, one write if
      anything changed). *)
Lemma triggerTransfer_cases now w w' r :
    triggerTransfer now w = (w', r) ->
    (exists e, read_or_empty (w_tontines w) = inl e /\ w' = w /\ r = inr (err 500 InternalError)) \/
    (exists ts e, read_or_empty (w_tontines w) = inr ts /\ settle_loop now ts w = (w', inl e) /\
                  r = inr (err 500 InternalError)) \/
    (exists ts w1 ts' upd rs, read_or_empty (w_tontines w) = inr ts /\
       settle_loop now ts w = (w1, inr (ts', upd, rs)) /\ r = inr (mk_resp 200 (BTransfers rs)) /\
       w' = (if upd then mk_world (FJson ts') (w_users w1) (w_ledger w1) (w_log w1 ++ [EvWriteTontines ts'])
             else w1)).
  Proof.
    unfold triggerTransfer, load_tontines, st_catch, st_bind, st_ret. intros Hrun.
    destruct (read_or_empty (w_tontines w)) as [e|ts] eqn:Hrd; [left; simplify_eq; eauto|right].
    destruct (settle_loop now ts w) as [w1 [e|[[ts' upd] rs]]] eqn:Hl; [left; simplify_eq; eauto|right].
    exists ts, w1, ts', upd, rs. destruct upd; simpl in Hrun; simplify_eq; eauto.
  Qed.
End Settlement.

Section SettlementTheorems.
  Context {L : Type} `{Gateway L}.
  Variable date_parse : string -> option Z.

Abbreviation is_due' := (is_due date_parse).

  (** After a pass, [tontines.json] is either exactly as before, or it
      holds, one for one and in order, the records read at the start, each
      unchanged or completed; [users.json] is never touched. *)
Lemma triggerTransfer_outcome now w w' r :
    triggerTransfer date_parse now w = (w', r) ->
    w_users w' = w_users w /\
    (w_tontines w' = w_tontines w \/
     exists ts ts', read_or_empty (w_tontines w) = inr ts /\ w_tontines w' = FJson ts' /\
                    Forall2 (settled date_parse now) ts ts').
  Proof.
    intros Hrun.
    assert (Hu : forall ts, st_preserves (files_are (w_tontines w) (w_users w))
                              (settle_loop date_parse now ts)).
    { intros ts. induction ts as [|t rest IH]; simpl; st_preserve.
      unfold process_tontine, getRLUSDBalance. st_preserve. }
    apply triggerTransfer_cases in Hrun
      as [(e & Hrd & -> & ->)|[(ts & e & Hrd & Hl & ->)|(ts & w1 & ts' & upd & rs & Hrd & Hl & -> & ->)]].
    - auto.
    - pose proof (Hu ts w (conj eq_refl eq_refl)) as Hf. rewrite Hl in Hf. destruct Hf as [Ht Hu']. simpl in Ht, Hu'. auto.
    - pose proof (Hu ts w (conj eq_refl eq_refl)) as Hf. rewrite Hl in Hf. destruct Hf as [Ht Hu']. simpl in Ht, Hu'.
      destruct upd; simpl; split; auto.
      right. exists ts, ts'. split_and!; eauto using settle_loop_settled.
  Qed.
End SettlementTheorems.

Section SettlementTheorems2.
  Context {L : Type} `{Gateway L}.
  Variable date_parse : string -> option Z.

  (** The records read before and after a pass are related one for one. *)
Lemma triggerTransfer_reads now w w' r ts ts' :
    triggerTransfer date_parse now w = (w', r) ->
    read_or_empty (w_tontines w) = inr ts -> read_or_empty (w_tontines w') = inr ts' ->
    Forall2 (settled date_parse now) ts ts'.
  Proof.
    intros Hrun Hb Ha. apply triggerTransfer_outcome in Hrun as [_ [Hf|(ts0 & ts1 & Hb' & Hf & Hs)]].
    - rewrite Hf, Hb in Ha. injection Ha as <-. apply Forall_Forall2_diag, Forall_forall. by left.
    - rewrite Hf in Ha. rewrite Hb in Hb'. simplify_eq/=. done.
  Qed.

  (** C6: A pass never moves a record backwards: each record's status after
      the pass is its status before, or [active] became [completed]; in
      particular a [completed] record stays [completed]. *)
Theorem triggerTransfer_monotone now w w' r ts ts' :
    triggerTransfer date_parse now w = (w', r) ->
    read_or_empty (w_tontines w) = inr ts -> read_or_empty (w_tontines w') = inr ts' ->
    Forall2 (fun t t' => t_status t' = t_status t \/
                         (t_status t = Some Active /\ t_status t' = Some Completed)) ts ts'.
  Proof.
    intros Hrun Hb Ha. eapply Forall2_impl; [eapply triggerTransfer_reads; eauto|].
    intros t t' [->|[Hd [x ->]]]; [by left|right]. split; [by apply (is_due_active date_parse now)|done].
  Qed.

  (** C7: A record that is not due at [now] (not [active], no
      [scheduledTime], an unparsable one, or one later than [now]) comes
      out of the pass exactly as it went in. *)
Theorem triggerTransfer_not_due_unchanged now w w' r ts ts' :
    triggerTransfer date_parse now w = (w', r) ->
    read_or_empty (w_tontines w) = inr ts -> read_or_empty (w_tontines w') = inr ts' ->
    Forall2 (fun t t' => is_due date_parse now t = false -> t' = t) ts ts'.
  Proof.
    intros Hrun Hb Ha. eapply Forall2_impl; [eapply triggerTransfer_reads; eauto|].
    intros t t' [->|[Hd _]] Hnd; congruence.
  Qed.

  (** C8: A due record whose wallet shows an RLUSD balance [<= 0] is
      skipped: the only effect is the balance query, nothing is paid, the
      record is left [active] and is examined again by the next pass. *)
Theorem process_zero_balance_skipped now t wd w ls :
    is_due date_parse now t = true -> t_wallet t = Some wd ->
    gw_account_lines (w_ledger w) (w_address wd) = inr ls ->
    js_le0 (parseFloat (balance_of rlusd_line_service ls)) = true ->
    process_tontine date_parse now t w = (log (EvLines (w_address wd)) w, inr None).
  Proof.
    apply process_tontine_unfunded_run.
  Qed.

  (** C9: A due record whose wallet holds a positive RLUSD balance, whose
      seed is valid and whose destination is set, is completed by the pass
      as soon as the ledger accepts the payment of that balance: the record
      becomes [completed] with [transferredAt = now] and the receipt, and
      the pass reports it. *)
Theorem process_funded_completes now t wd w ls classic dest l' rcpt :
    is_due date_parse now t = true -> t_wallet t = Some wd ->
    gw_account_lines (w_ledger w) (w_address wd) = inr ls ->
    js_le0 (parseFloat (balance_of rlusd_line_service ls)) = false ->
    gw_from_seed (w_secret wd) = inr classic -> t_destination t = Some dest ->
    gw_submit (w_ledger w) (w_secret wd)
      (rlusd_payment classic dest (balance_of rlusd_line_service ls)) = (l', inr rcpt) ->
    tr_result rcpt = tesSUCCESS ->
    exists w', process_tontine date_parse now t w =
      (w', inr (Some (mark_completed now rcpt t, mk_result (t_id t) Completed rcpt))).
  Proof.
    apply process_tontine_funded_run.
  Qed.

  (** C15: When a pass answers 500, [tontines.json] is exactly as it was:
      completions of records paid earlier in the same pass are not
      persisted. *)
Theorem triggerTransfer_500_no_write now w w' resp :
    triggerTransfer date_parse now w = (w', inr resp) -> r_status resp = 500%Z ->
    w_tontines w' = w_tontines w.
  Proof.
    intros Hrun Hst.
    apply triggerTransfer_cases in Hrun
      as [(e & _ & -> & _)|[(ts & e & _ & Hl & _)|(ts & w1 & ts' & upd & rs & _ & _ & Hr & _)]].
    - done.
    - pose proof (settle_loop_tontines date_parse now ts (w_tontines w) w eq_refl) as Ht.
      rewrite Hl in Ht. exact Ht.
    - injection Hr as ->. simpl in Hst. discriminate.
  Qed.

  (** A pass over a file in which no record is due touches neither
      the ledger nor the file: the world is unchanged and the answer is 200
      with an empty result list. *)
Theorem triggerTransfer_nothing_due now w ts :
    read_or_empty (w_tontines w) = inr ts ->
    Forall (fun t => is_due date_parse now t = false) ts ->
    triggerTransfer date_parse now w = (w, inr (mk_resp 200 (BTransfers []))).
  Proof.
    intros Hrd Hnd. unfold triggerTransfer, load_tontines. st_simpl. rewrite Hrd. simpl.
    by rewrite (settle_loop_none_due date_parse now ts w Hnd).
  Qed.
End SettlementTheorems2.

Section Provenance.
  Context {L : Type} `{Gateway L}.
  Variable date_parse : string -> option Z.

  (** [pass_trace now ts l evs l']: the events [evs] a pass over [ts] may
      append, run from ledger [l] to ledger [l']: balance queries, the file
      write, and RLUSD payments each signed for the wallet of a record of
      [ts] that is due, sent to that record's [destination], of the balance
      the ledger holds on the wallet's RLUSD line when it is sent; each
      payment moves the ledger as [submitAndWait] does, and nothing else
      moves it. *)
Inductive pass_trace (now : Z) (ts : list tontine) : L -> list event -> L -> Prop :=
  | pt_nil l : pass_trace now ts l [] l
  | pt_lines l a evs l' : pass_trace now ts l evs l' -> pass_trace now ts l (EvLines a :: evs) l'
  | pt_write l ts' evs l' :
      pass_trace now ts l evs l' -> pass_trace now ts l (EvWriteTontines ts' :: evs) l'
  | pt_pay l tn wd classic dest ls r l1 evs l' :
      In tn ts -> is_due date_parse now tn = true -> t_wallet tn = Some wd ->
      t_destination tn = Some dest -> gw_from_seed (w_secret wd) = inr classic ->
      gw_account_lines l (w_address wd) = inr ls ->
      gw_submit l (w_secret wd) (rlusd_payment classic dest (balance_of rlusd_line_service ls)) = (l1, r) ->
      pass_trace now ts l1 evs l' ->
      pass_trace now ts l (EvSubmit (rlusd_payment classic dest (balance_of rlusd_line_service ls)) r :: evs) l'.

  (** From [w0] to [w], the log grew by a [pass_trace] of the ledger. *)
Definition traced (now : Z) (ts : list tontine) (w0 w : world L) : Prop :=
    exists new, w_log w = w_log w0 ++ new /\ pass_trace now ts (w_ledger w0) new (w_ledger w).

Lemma pass_trace_app now ts l evs l1 evs' l2 :
    pass_trace now ts l evs l1 -> pass_trace now ts l1 evs' l2 -> pass_trace now ts l (evs ++ evs') l2.
  Proof. induction 1; intros Ht; simpl; [exact Ht|..]; econstructor; eauto. Qed.

  (** Extend a trace by events appended at the end of the log. *)
Lemma traced_snoc now ts w0 w w' evs :
    traced now ts w0 w -> w_log w' = w_log w ++ evs -> pass_trace now ts (w_ledger w) evs (w_ledger w') ->
    traced now ts w0 w'.
  Proof.
    intros (new & Hl & Ht) Hl' Ht'. exists (new ++ evs).
    rewrite Hl', Hl, app_assoc. split; [done|]. by eapply pass_trace_app.
  Qed.

Lemma account_lines_traced now ts w0 a : st_preserves (traced now ts w0) (account_lines a).
  Proof. intros w Hw. eapply traced_snoc; [exact Hw|done|]. repeat constructor. Qed.

Lemma transferFunds_traced now ts w0 tn wd :
    In tn ts -> is_due date_parse now tn = true -> t_wallet tn = Some wd ->
    st_preserves (traced now ts w0) (transferFunds wd (t_destination tn)).
  Proof.
    intros Hin Hd Hw w Htr.
    unfold transferFunds, getRLUSDBalance, account_lines, from_seed, submit, log. st_simpl.
    destruct (gw_account_lines (w_ledger w) (w_address wd)) as [e|ls] eqn:Hls; simpl;
      [eapply traced_snoc; [exact Htr|done|]; repeat constructor|].
    destruct (js_le0 _); simpl; [eapply traced_snoc; [exact Htr|done|]; repeat constructor|].
    destruct (gw_from_seed (w_secret wd)) as [e|classic] eqn:Hs; simpl;
      [eapply traced_snoc; [exact Htr|done|]; repeat constructor|].
    destruct (t_destination tn) as [dest|] eqn:Hdest; simpl;
      [|eapply traced_snoc; [exact Htr|done|]; repeat constructor].
    destruct (gw_submit _ _ _) as [l1 r] eqn:Hsub.
    assert (Htr' : traced now ts w0 (mk_world (w_tontines w) (w_users w) l1
                     (w_log w ++ [EvLines (w_address wd); EvSubmit (rlusd_payment classic dest
                                    (balance_of rlusd_line_service ls)) r]))).
    { eapply traced_snoc; [exact Htr|done|].
      apply pt_lines. eapply pt_pay; eauto. constructor. }
    destruct r as [e|v]; simpl; rewrite <- app_assoc; [exact Htr'|]. by case_match.
  Qed.

Lemma process_tontine_traced now ts w0 t :
    In t ts -> st_preserves (traced now ts w0) (process_tontine date_parse now t).
  Proof.
    intros Hin. unfold process_tontine.
    destruct (is_due date_parse now t) eqn:Hd; simpl; [|st_preserve].
    destruct (t_wallet t) as [wd|] eqn:Hw; [|st_preserve].
    unfold getRLUSDBalance. apply st_preserves_bind.
    - apply st_preserves_bind; [apply account_lines_traced|st_preserve].
    - intros b. case_match; [st_preserve|]. apply st_preserves_bind; [|st_preserve].
      by eapply transferFunds_traced.
  Qed.

Lemma settle_loop_traced now ts sub w0 :
    sub ⊆ ts -> st_preserves (traced now ts w0) (settle_loop date_parse now sub).
  Proof.
    induction sub as [|t rest IH]; intros Hsub; simpl; [st_preserve|].
    apply st_preserves_bind.
    - apply process_tontine_traced. apply list_elem_of_In, Hsub. set_solver.
    - intros o. apply st_preserves_bind; [apply IH; set_solver|]. intros [[??]?]. st_preserve.
  Qed.

  (** A payment of a trace comes from a record of [ts] that is [active]
      and has a wallet. *)
Lemma pass_trace_submit now ts l evs l' t r :
    pass_trace now ts l evs l' -> In (EvSubmit t r) evs ->
    exists tn wd dest, In tn ts /\ t_status tn = Some Active /\ t_wallet tn = Some wd /\
                       t_destination tn = Some dest.
  Proof.
    induction 1 as [|? ? ? ? ? IH|? ? ? ? ? IH|? tn wd ? dest ? ? ? ? ? Hin Hd Hw Hdest _ _ _ _ IH];
      simpl; intros Hin'; [done| | |].
    - destruct Hin' as [Heq|Hin']; [discriminate|by apply IH].
    - destruct Hin' as [Heq|Hin']; [discriminate|by apply IH].
    - destruct Hin' as [_|Hin']; [|by apply IH].
      exists tn, wd, dest. split_and!; [done|by eapply is_due_active|done|done].
  Qed.

  (** C14: Every transaction a pass submits to the ledger is the RLUSD
      payment of a record that was in [tontines.json] at the start of the
      pass and due then: signed for that record's wallet, sent to that
      record's [destination], of the balance the ledger held on the
      wallet's RLUSD line when it was sent; the ledger moves only by these
      payments, and the pass's other events are balance queries and the
      single file write.  No payment leaves the wallet of a record that is
      [completed] or not yet due. *)
Theorem triggerTransfer_provenance now w w' r ts :
    triggerTransfer date_parse now w = (w', r) -> read_or_empty (w_tontines w) = inr ts ->
    exists new, w_log w' = w_log w ++ new /\ pass_trace now ts (w_ledger w) new (w_ledger w').
  Proof.
    intros Hrun Hrd.
    assert (Hl : traced now ts w (fst (settle_loop date_parse now ts w))).
    { apply settle_loop_traced; [done|]. exists []. split; [by rewrite app_nil_r | constructor]. }
    apply triggerTransfer_cases in Hrun
      as [(e & Hrd' & -> & _)|[(ts0 & e & Hrd' & Hl' & _)|(ts0 & w1 & ts' & upd & rs & Hrd' & Hl' & _ & ->)]];
      rewrite Hrd in Hrd'; simplify_eq.
    - by rewrite Hl' in Hl.
    - rewrite Hl' in Hl. simpl in Hl. destruct upd; [|done].
      eapply traced_snoc; [exact Hl|done|]. simpl. repeat constructor.
  Qed.

End Provenance.

(** ** Concrete passes on the simulated ledger *)
(** ** Termination and liveness of repeated passes

    The settlement is run again and again by an external trigger.  The
    variant of that loop is the number of [active] records: a pass that
    changes [tontines.json] completes at least one of them and makes none
    active, so at most that many passes change the file, whatever the
    times they run at and whatever the ledger answers.  And a due record
    an empty wallet made the pass skip is taken up again by every later
    pass: once funded, the first pass the ledger accepts its payment in
    completes it (the retry policy of P5). *)

#[export] Instance file_eq_dec {A} `{EqDecision A} : EqDecision (file A).
Proof. solve_decision. Defined.

Definition active_count (ts : list tontine) : nat :=
  length (filter (fun t => t_status t = Some Active) ts).

(** The variant, on the file as [triggerTransfer] reads it. *)
Definition active_of (f : file tontine) : nat :=
  match read_or_empty f with inr ts => active_count ts | inl _ => 0 end.

Section Termination.
  Context {L : Type} `{Gateway L}.
  Variable date_parse : string -> option Z.

  (** The number of passes, run at the times [nows] one after the other,
      that change [tontines.json]. *)
Fixpoint changed_passes (nows : list Z) (w : world L) : nat :=
    match nows with
    | [] => 0
    | now :: rest =>
        let w1 := fst (triggerTransfer date_parse now w) in
        ((if decide (w_tontines w1 = w_tontines w) then 0 else 1) + changed_passes rest w1)%nat
    end.

Lemma active_count_cons t ts :
    active_count (t :: ts) = ((if decide (t_status t = Some Active) then 1 else 0) + active_count ts)%nat.
  Proof. unfold active_count. rewrite filter_cons. case_decide; simpl; lia. Qed.

Lemma settled_active_le now ts ts' :
    Forall2 (settled date_parse now) ts ts' -> (active_count ts' <= active_count ts)%nat.
  Proof.
    induction 1 as [|t t' ts ts' Hs _ IH]; [done|]. rewrite !active_count_cons.
    destruct Hs as [->|[_ [r ->]]]; simpl; repeat case_decide; simplify_eq/=; lia.
  Qed.

  (** A loop that reports a change completed a record that was active. *)
Lemma settle_loop_active now ts w w' ts' upd rs :
    settle_loop date_parse now ts w = (w', inr (ts', upd, rs)) ->
    (upd = false /\ ts' = ts) \/ (upd = true /\ (active_count ts' < active_count ts)%nat).
  Proof.
    revert w ts' upd rs. induction ts as [|t rest IH]; intros w ts' upd rs Hrun; [st_run; by left|].
    apply settle_loop_inv in Hrun as (w1 & o & rest' & upd' & rs' & Ho & Hl & Hc).
    pose proof (settle_loop_settled _ _ _ _ _ _ _ _ Hl) as Hs%settled_active_le.
    destruct o as [[t' r]|]; destruct_and!; subst.
    - apply process_tontine_some in Ho as (Hd & -> & _). apply is_due_active in Hd.
      right. split; [done|]. rewrite !active_count_cons. simpl. repeat case_decide; simplify_eq/=; lia.
    - destruct (IH _ _ _ _ Hl) as [[-> ->]|[-> Hlt]]; [by left|right].
      split; [done|]. rewrite !active_count_cons. lia.
  Qed.

  (** One pass: the file is unchanged, or the variant went down. *)
Lemma triggerTransfer_variant now w w' r :
    triggerTransfer date_parse now w = (w', r) ->
    w_tontines w' = w_tontines w \/ (active_of (w_tontines w') < active_of (w_tontines w))%nat.
  Proof.
    intros Hrun.
    apply triggerTransfer_cases in Hrun
      as [(e & _ & -> & _)|[(ts & e & _ & Hl & _)|(ts & w1 & ts' & upd & rs & Hrd & Hl & _ & ->)]];
      [by left| |].
    - left. pose proof (settle_loop_tontines date_parse now ts (w_tontines w) w eq_refl) as Ht.
      by rewrite Hl in Ht.
    - pose proof (settle_loop_tontines date_parse now ts (w_tontines w) w eq_refl) as Ht.
      rewrite Hl in Ht. unfold tontines_file_is in Ht. simpl in Ht.
      destruct (settle_loop_active _ _ _ _ _ _ _ Hl) as [[-> ->]|[-> Hlt]]; [by left|right].
      unfold active_of. simpl. by rewrite Hrd.
  Qed.
  (** C11: Termination of the repeated settlement: whatever the times the
      passes run at and whatever the ledger answers, the number of passes
      that change [tontines.json] is at most the number of [active] records
      the file held before the first one. *)
Theorem changed_passes_bound nows w : (changed_passes nows w <= active_of (w_tontines w))%nat.
  Proof.
    revert w. induction nows as [|now rest IH]; intros w; simpl; [lia|].
    destruct (triggerTransfer date_parse now w) as [w1 r] eqn:Hr. simpl. specialize (IH w1).
    destruct (triggerTransfer_variant _ _ _ _ Hr) as [Heq|Hlt]; case_decide; try congruence.
    - rewrite Heq in IH. lia.
    - lia.
    - lia.
  Qed.

Lemma is_due_mono now1 now2 t : (now1 <= now2)%Z -> is_due date_parse now1 t = true -> is_due date_parse now2 t = true.
  Proof. unfold is_due. repeat case_match; try done. rewrite !Z.leb_le. lia. Qed.

  (** A pass over records of which only [t] is due runs the loop body on
      [t] alone. *)
Lemma settle_loop_single_due now pre t post (w w1 : world L) o :
    Forall (fun x => is_due date_parse now x = false) (pre ++ post) ->
    process_tontine date_parse now t w = (w1, inr o) ->
    settle_loop date_parse now (pre ++ t :: post) w =
      (w1, inr (pre ++ match o with Some (t', _) => t' | None => t end :: post,
                match o with Some _ => true | None => false end,
                match o with Some (_, r) => [r] | None => [] end)).
  Proof.
    intros Hnd%Forall_app Ho. destruct Hnd as [Hpre Hpost]. revert w Ho.
    induction Hpre as [|x pre Hx _ IH]; intros w Ho; simpl.
    - unfold st_bind. rewrite Ho, (settle_loop_none_due date_parse now post w1 Hpost).
      by destruct o as [[t' r]|].
    - rewrite process_tontine_not_due by done. unfold st_bind, st_ret. by rewrite IH.
  Qed.

  (** C10: Liveness of the zero-balance retry (P5): take a record that is
      the only one due, whose wallet is empty.  A pass skips it and leaves
      [tontines.json] as it was.  Once the wallet is funded (the ledger is
      then any [l2]), a later pass whose payment the ledger accepts
      completes it: the pass answers 200 with its result and writes it
      [completed]. *)
Theorem unfunded_retried_then_completed now1 now2 (w w1 : world L) r1 pre t post wd ls0
    l2 ls classic dest l' rcpt :
    w_tontines w = FJson (pre ++ t :: post) ->
    Forall (fun x => is_due date_parse now2 x = false) (pre ++ post) ->
    is_due date_parse now1 t = true -> (now1 <= now2)%Z ->
    t_wallet t = Some wd -> t_destination t = Some dest ->
    gw_account_lines (w_ledger w) (w_address wd) = inr ls0 ->
    js_le0 (parseFloat (balance_of rlusd_line_service ls0)) = true ->
    triggerTransfer date_parse now1 w = (w1, r1) ->
    gw_account_lines l2 (w_address wd) = inr ls ->
    js_le0 (parseFloat (balance_of rlusd_line_service ls)) = false ->
    gw_from_seed (w_secret wd) = inr classic ->
    gw_submit l2 (w_secret wd) (rlusd_payment classic dest (balance_of rlusd_line_service ls)) =
      (l', inr rcpt) ->
    tr_result rcpt = tesSUCCESS ->
    w_tontines w1 = w_tontines w /\
    exists w2, triggerTransfer date_parse now2 (mk_world (w_tontines w1) (w_users w1) l2 (w_log w1)) =
                 (w2, inr (mk_resp 200 (BTransfers [mk_result (t_id t) Completed rcpt]))) /\
               w_tontines w2 = FJson (pre ++ mark_completed now2 rcpt t :: post).
  Proof.
    intros Hf Hnd Hd1 Hle Hw Hdest Hls0 Hz Hr1 Hls Hpos Hseed Hsub Hok.
    assert (Hnd1 : Forall (fun x => is_due date_parse now1 x = false) (pre ++ post)).
    { eapply Forall_impl; [exact Hnd|]. intros x Hx. cbv beta in Hx |- *. destruct (is_due date_parse now1 x) eqn:E; [|done].
      by rewrite (is_due_mono _ _ _ Hle E) in Hx. }
    assert (Ht1 : w_tontines w1 = w_tontines w).
    { revert Hr1. unfold triggerTransfer, load_tontines. st_simpl. rewrite Hf. simpl.
      rewrite (settle_loop_single_due _ _ _ _ _ _ _ Hnd1
                 (process_tontine_unfunded_run _ _ _ _ _ _ Hd1 Hw Hls0 Hz)).
      simpl. by intros [= <- _]. }
    split; [done|].
    set (W2 := mk_world (w_tontines w1) (w_users w1) l2 (w_log w1)).
    destruct (process_tontine_funded_run date_parse now2 t wd W2 ls classic dest l' rcpt
                (is_due_mono _ _ _ Hle Hd1) Hw Hls Hpos Hseed Hdest Hsub Hok) as [w' Hp].
    unfold triggerTransfer, load_tontines. st_simpl. rewrite Ht1, Hf. simpl.
    rewrite (settle_loop_single_due _ _ _ _ _ _ _ Hnd Hp). simpl. eauto.
  Qed.
End Termination.

(** ** Bounds: the ledger calls of a pass *)

(** The records a pass finds due. *)
Definition due_count (dp : string -> option Z) (now : Z) (ts : list tontine) : nat :=
  length (List.filter (is_due dp now) ts).

Section SettlementCosts.
  Local Open Scope nat_scope.
  Context {L : Type} `{Gateway L}.
  Variable date_parse : string -> option Z.

  (** The loop body calls the ledger only for a due record: one balance
      query, then [transferFunds]'s query and payment. *)
Lemma within_process_tontine now t :
    within (L:=L) (if is_due date_parse now t then 1 else 0) (if is_due date_parse now t then 3 else 0)
      (process_tontine date_parse now t).
  Proof. unfold process_tontine. destruct (is_due date_parse now t); simpl; cost. Qed.

Lemma due_count_cons now t ts :
    due_count date_parse now (t :: ts) = (if is_due date_parse now t then 1 else 0) + due_count date_parse now ts.
  Proof. unfold due_count. simpl. by destruct (is_due date_parse now t). Qed.

Lemma within_settle_loop now ts :
    within (L:=L) (due_count date_parse now ts) (3 * due_count date_parse now ts) (settle_loop date_parse now ts).
  Proof.
    induction ts as [|t rest IH]; simpl; [apply within_ret|].
    rewrite due_count_cons. pose proof (within_process_tontine now t) as Hp.
    eapply within_bind_rest; [exact Hp| | destruct (is_due _ _ _); lia | destruct (is_due _ _ _); lia].
    intros o. eapply within_mono; [apply within_bind; [exact IH|]| |].
    - intros [[ts' upd] rs]. destruct o as [[t' r]|]; apply within_ret.
    - destruct (is_due _ _ _); lia.
    - destruct (is_due _ _ _); lia.
  Qed.
End SettlementCosts.

Section SettlementBound.
  Local Open Scope nat_scope.
  Context {L : Type} `{Gateway L}.

Lemma within_catch_ret_at {A} ns nc (c : st (world L) A) (h : exn -> A) w :
    within_at ns nc c w -> within_at ns nc (st_catch c (fun e => st_ret (h e))) w.
  Proof.
    intros (evs & E & Hs & Hc). unfold within_at, st_catch, st_ret. cbv beta.
    destruct (c w) as [w' [e|a]]; simpl in *; exists evs; split_and!; done.
  Qed.

  (** C12: A settlement pass calls the ledger only for the records it finds
      due in [tontines.json]: at most one payment and three ledger calls
      per due record, on every path (funded or not, accepted or refused,
      exception or not), and none when the file cannot be read. *)
Theorem triggerTransfer_ledger_bound dp now (w : world L) :
    let ts := match read_or_empty (w_tontines w) with inr ts => ts | inl _ => [] end in
    within_at (due_count dp now ts) (3 * due_count dp now ts) (triggerTransfer dp now) w.
  Proof.
    intros ts0. unfold triggerTransfer. apply within_catch_ret_at.
    eapply within_at_mono;
      [apply (within_bind_at 0 0 (due_count dp now ts0) (3 * due_count dp now ts0));
         [apply within_load_tontines|] | lia | lia].
    intros ts w' Hl. unfold load_tontines in Hl. injection Hl as <- Hts.
    subst ts0. rewrite Hts.
    eapply within_at_mono; [apply (within_bind (due_count dp now ts) (3 * due_count dp now ts) 0 0); [apply within_settle_loop|] | |];
      [intros [[ts' upd] rs]; cost | lia | lia].
  Qed.
End SettlementBound.


Module SettlementScenarios.
  Import SimLedger Fixtures.

  (** Scheduled times written as a millisecond count. *)
Definition dp (s : string) : option Z := parseInt10 s.

  (** A record of the shape [createWallet] writes. *)
Definition rec_of (id : string) (wd : wallet) (dest sched : string) : tontine :=
    mk_tontine id None (Some "G") None None (Some dest) (Some sched) (Some "u1") (Some wd) 0
      (Some Active) ["u1"] None None.

Definition pool_rec : tontine := rec_of "1" pool_wallet "rDest" "1000".

  (** One due record whose wallet holds 50 RLUSD. *)
Definition w_pay : world sim := world_of (FJson [pool_rec]) (ledger0 "50").

  (** Two due records; the second pays to an address without a trust line,
      which the ledger refuses. *)
Definition ledger2 : sim :=
    mk_sim true [("rPool", [rlusd_line "50"]); ("rDest", [rlusd_line "0"]);
                 ("rPool2", [rlusd_line "10"]); ("rNoLine", [])] [] [].
Definition w_two : world sim :=
    world_of (FJson [pool_rec; rec_of "2" (mk_wallet "rPool2" "sPool2") "rNoLine" "1000"]) ledger2.

Definition records_after (now : Z) (w : world sim) : list tontine :=
    match read_or_empty (w_tontines (fst (triggerTransfer dp now w))) with
    | inr l => l
    | inl _ => []
    end.

Lemma triggerTransfer_monotone_witness :
    Forall2 (fun t t' => t_status t' = t_status t \/
                         (t_status t = Some Active /\ t_status t' = Some Completed))
      [pool_rec] (records_after 2000 w_pay).
  Proof.
    apply (triggerTransfer_monotone dp 2000 w_pay (fst (triggerTransfer dp 2000 w_pay))
             (snd (triggerTransfer dp 2000 w_pay))).
    - apply surjective_pairing.
    - reflexivity.
    - vm_compute. reflexivity.
  Defined.

Lemma triggerTransfer_not_due_unchanged_witness :
    Forall2 (fun t t' => is_due dp 500 t = false -> t' = t) [pool_rec] (records_after 500 w_pay).
  Proof.
    apply (triggerTransfer_not_due_unchanged dp 500 w_pay (fst (triggerTransfer dp 500 w_pay))
             (snd (triggerTransfer dp 500 w_pay))).
    - apply surjective_pairing.
    - reflexivity.
    - vm_compute. reflexivity.
  Defined.

Lemma process_zero_balance_skipped_witness :
    process_tontine dp 2000 pool_rec (world_of (FJson [pool_rec]) (ledger0 "0")) =
      (log (EvLines (w_address pool_wallet)) (world_of (FJson [pool_rec]) (ledger0 "0")), inr None).
  Proof.
    apply (process_zero_balance_skipped dp 2000 pool_rec pool_wallet _ [rlusd_line "0"]);
      vm_compute; reflexivity.
  Defined.

Lemma process_funded_completes_witness :
    exists w', process_tontine dp 2000 pool_rec w_pay =
      (w', inr (Some (mark_completed 2000 (mk_txr tesSUCCESS "sPool") pool_rec,
                      mk_result "1" Completed (mk_txr tesSUCCESS "sPool")))).
  Proof.
    apply (process_funded_completes dp 2000 pool_rec pool_wallet w_pay [rlusd_line "50"] "rPool" "rDest"
             (fst (gw_submit (w_ledger w_pay) "sPool" (rlusd_payment "rPool" "rDest" "50"))));
      vm_compute; reflexivity.
  Defined.

Lemma triggerTransfer_provenance_witness :
    exists new, w_log (fst (triggerTransfer dp 2000 w_pay)) = w_log w_pay ++ new /\
                pass_trace dp 2000 [pool_rec] (w_ledger w_pay) new (w_ledger (fst (triggerTransfer dp 2000 w_pay))).
  Proof.
    apply (triggerTransfer_provenance dp 2000 w_pay _ (snd (triggerTransfer dp 2000 w_pay))).
    - apply surjective_pairing.
    - reflexivity.
  Defined.

Lemma triggerTransfer_500_no_write_witness :
    w_tontines (fst (triggerTransfer dp 2000 w_two)) = w_tontines w_two.
  Proof.
    apply (triggerTransfer_500_no_write dp 2000 w_two _ (err 500 InternalError)).
    - vm_compute. reflexivity.
    - reflexivity.
  Defined.

Lemma triggerTransfer_nothing_due_witness :
    triggerTransfer dp 500 w_pay = (w_pay, inr (mk_resp 200 (BTransfers []))).
  Proof.
    apply (triggerTransfer_nothing_due dp 500 w_pay [pool_rec]); [reflexivity|].
    repeat constructor.
  Defined.

  (** A pass in which a later transfer fails loses the completion of an
      earlier one: group 1's 50 RLUSD is paid out and accepted, group 2's
      payment is refused, the pass answers 500 and writes nothing, so group 1
      is still [active] in [tontines.json].  The next pass finds its wallet
      empty and skips it, so it stays [active] although it has been paid. *)
Example triggerTransfer_lost_completion :
    let '(w1, r1) := triggerTransfer dp 2000 w_two in
    r1 = inr (err 500 InternalError) /\
    In (EvSubmit (rlusd_payment "rPool" "rDest" "50") (inr (mk_txr tesSUCCESS "sPool"))) (w_log w1) /\
    w_tontines w1 = w_tontines w_two /\
    w_tontines (fst (triggerTransfer dp 3000 w1)) = w_tontines w_two.
  Proof. vm_compute. split; [reflexivity|]. split; [right; right; left; reflexivity|]. split; reflexivity. Qed.

  (** The pool wallet is empty at the first pass and holds 50 RLUSD at the
      second. *)
Definition w_empty : world sim := world_of (FJson [pool_rec]) (ledger0 "0").
Definition pass1 := triggerTransfer dp 2000 w_empty.
Definition rcpt_pool : tx_response := mk_txr tesSUCCESS "sPool".

Lemma unfunded_retried_then_completed_witness :
    w_tontines (fst pass1) = w_tontines w_empty /\
    exists w2, triggerTransfer dp 3000
                 (mk_world (w_tontines (fst pass1)) (w_users (fst pass1)) (ledger0 "50") (w_log (fst pass1))) =
               (w2, inr (mk_resp 200 (BTransfers [mk_result (t_id pool_rec) Completed rcpt_pool]))) /\
               w_tontines w2 = FJson ([] ++ mark_completed 3000 rcpt_pool pool_rec :: []).
  Proof.
    apply (unfunded_retried_then_completed dp 2000 3000 w_empty (fst pass1) (snd pass1) [] pool_rec []
             pool_wallet [rlusd_line "0"] (ledger0 "50") [rlusd_line "50"] "rPool" "rDest"
             (fst (gw_submit (ledger0 "50") "sPool" (rlusd_payment "rPool" "rDest" "50"))) rcpt_pool).
    all: first [lia | constructor | vm_compute; reflexivity].
  Defined.
End SettlementScenarios.
