(* ===== verification/Membership.v ===== *)
(** * Membership: creating, joining, listing and showing tontines

    The routes that create and change tontine records:
    - [POST /api/create-tontine] ([src/BCI/src/app/api/create-tontine/route.js]):
      rejects a name already used by a record's [name] field;
    - [POST /api/createWallet] ([src/src/app/api/createWallet/route.js]): funds
      a wallet with its trust line first, then appends a record whose id is
      [Date.now().toString()]; there is no name check;
    - [POST /api/join-tontine] ([src/BCI/src/app/api/join-tontine/route.js]):
      appends the user to the first record with that id;
    - [POST /api/join] ([src/BCI/src/app/api/join/route.js]): the same, after
      asking [/api/trustline/add] (by an HTTP call, modelled as a call of the
      handler [trustline_add]) to ensure the record's wallet trust line;
    and the read-only routes [GET /api/tontines/list] and
    [GET /api/tontines/details].  [Math.random()] suffixes are parameters
    ([rand]); the clock is the parameter [now]. *)

From stdpp Require Import base list strings pretty.
From Stdlib Require Import ZArith Lia.
From S2P Require Import Prelude JsValue Currency Gateway World XrplService Settlement.

Local Open Scope st_scope.

Section Membership.
  Context {L : Type} `{Gateway L}.

Abbreviation M := (st (world L)).

  (** [tontines.some((t) => t.name === name)] *)
Definition name_taken (n : string) (ts : list tontine) : bool :=
    existsb (fun t => bool_decide (t_name t = Some n)) ts.

  (** The record [create-tontine] writes, lines 44-51. *)
Definition new_named_tontine (tontineId n cs pw creator : string) (now : Z) : tontine :=
    mk_tontine tontineId (Some n) None (parseInt10 cs) (Some pw) None None None None now None
      [creator] None None.

  (** [POST /api/create-tontine], lines 19-65 *)
Definition create_tontine (name cycleSize password creatorId : option string)
             (rand : string) (now : Z) : M response :=
    st_catch
      (match name, cycleSize, password, creatorId with
       | Some n, Some cs, Some pw, Some c =>
           if negb (truthy name && truthy cycleSize && truthy password && truthy creatorId)
           then st_ret (err 400 MissingFields) else
           let! ex := tontines_exist in
           do! (if ex then st_ret tt else write_tontines []) in
           let! ts := load_tontines read_strict in
           let tontineId := "rlsud_" +:+ n +:+ "_" +:+ rand in
           if name_taken n ts then st_ret (err 400 DuplicateName) else
           let t := new_named_tontine tontineId n cs pw c now in
           do! write_tontines (ts ++ [t]) in
           st_ret (mk_resp 201 (BTontine t))
       | _, _, _, _ => st_ret (err 400 MissingFields)
       end)
      (fun _ => st_ret (err 500 InternalError)).

  (** The record [createWallet] writes, lines 45-58. *)
Definition new_wallet_tontine (tn d sched u : string) (wl : wallet) (now : Z) : tontine :=
    mk_tontine (pretty now) None (Some tn) None None (Some d) (Some sched) (Some u) (Some wl) now
      (Some Active) [u] None None.

  (** [POST /api/createWallet], lines 29-87 *)
Definition createWallet (tontineName destination scheduledTime userId : option string)
             (now : Z) : M response :=
    st_catch
      (match tontineName, destination, scheduledTime, userId with
       | Some tn, Some d, Some sched, Some u =>
           if negb (truthy tontineName && truthy destination && truthy scheduledTime && truthy userId)
           then st_ret (err 400 MissingFields) else
           let! wl := createTemporaryWallet in
           let r := new_wallet_tontine tn d sched u wl now in
           let! ts := load_tontines read_or_empty in
           do! write_tontines (ts ++ [r]) in
           st_ret (mk_resp 200 (BCreated (t_id r) (w_address wl)))
       | _, _, _, _ => st_ret (err 400 MissingFields)
       end)
      (fun _ => st_ret (err 500 InternalError)).

  (** The common part of the two join routes once the record is found and
      the user is not a member: [tontine.members.push(userId)] and the
      write of the whole list. *)
Definition commit_join (tid u : string) (ts : list tontine) (t : tontine) : M response :=
    do! write_tontines (update_first (id_is tid) (push_member u) ts) in
    st_ret (mk_resp 200 (BJoined (push_member u t))).

  (** [POST /api/join-tontine], lines 32-86 *)
Definition join_tontine (tontineId userId : option string) : M response :=
    st_catch
      (match tontineId, userId with
       | Some tid, Some u =>
           if negb (truthy tontineId && truthy userId) then st_ret (err 400 MissingFields) else
           let! ex := tontines_exist in
           if negb ex then st_ret (err 500 DataFileMissing) else
           let! ts := load_tontines read_strict in
           match find (id_is tid) ts with
           | None => st_ret (err 404 NotFound)
           | Some t =>
               if str_includes (t_members t) u then st_ret (err 400 AlreadyMember)
               else commit_join tid u ts t
           end
       | _, _ => st_ret (err 400 MissingFields)
       end)
      (fun _ => st_ret (err 500 InternalError)).

  (** [trustlineResponse.ok] *)
Definition resp_ok (r : response) : bool := ((200 <=? r_status r) && (r_status r <? 300))%Z.

  (** [POST /api/join], lines 25-100 *)
Definition join (tontineId userId : option string) : M response :=
    st_catch
      (match tontineId, userId with
       | Some tid, Some u =>
           if negb (truthy tontineId && truthy userId) then st_ret (err 400 MissingFields) else
           let! ex := tontines_exist in
           if negb ex then st_ret (err 500 DataFileMissing) else
           let! ts := load_tontines read_strict in
           match find (id_is tid) ts with
           | None => st_ret (err 404 NotFound)
           | Some t =>
               if str_includes (t_members t) u then st_ret (err 400 AlreadyMember) else
               match t_wallet t with
               | None => st_throw ETypeError
               | Some wd =>
                   let! tr := trustline_add (Some (w_address wd)) (Some (w_secret wd)) in
                   if negb (resp_ok tr) then st_ret (err 500 TrustlineError)
                   else commit_join tid u ts t
               end
           end
       | _, _ => st_ret (err 400 MissingFields)
       end)
      (fun _ => st_ret (err 500 InternalError)).

Definition summarize (t : tontine) : summary :=
    mk_summary (t_id t) (t_tontineName t) (t_scheduledTime t) (t_status t).

  (** [GET /api/tontines/list?userId=...], lines 26-61 *)
Definition list_tontines (userId : option string) : M response :=
    match userId with
    | Some u =>
        if negb (truthy userId) then st_ret (err 400 MissingFields) else
        st_catch
          (let! ts := load_tontines read_strict in
           st_ret (mk_resp 200 (BSummaries (map summarize
                     (filter (fun t => str_includes (t_members t) u = true) ts)))))
          (fun _ => st_ret (err 500 InternalError))
    | None => st_ret (err 400 MissingFields)
    end.

  (** [GET /api/tontines/details?id=...], lines 20-53 *)
Definition tontine_details (tontineId : option string) : M response :=
    match tontineId with
    | Some tid =>
        if negb (truthy tontineId) then st_ret (err 400 MissingFields) else
        st_catch
          (let! ts := load_tontines read_strict in
           match find (id_is tid) ts with
           | None => st_ret (err 404 NotFound)
           | Some t => st_ret (mk_resp 200 (BDetail t))
           end)
          (fun _ => st_ret (err 500 InternalError))
    | None => st_ret (err 400 MissingFields)
    end.
End Membership.

Section JoinTheorems.
  Context {L : Type} `{Gateway L}.

  (** What [join-tontine] does: on every path but one the world is
      unchanged and the answer is not 200; on the success path it writes the
      list with the user appended to the first record with the id. *)
Lemma join_tontine_cases tid u (w w' : world L) r :
    join_tontine (Some tid) (Some u) w = (w', r) ->
    (w' = w /\ forall resp, r = inr resp -> r_status resp <> 200%Z) \/
    (exists ts t, w_tontines w = FJson ts /\ tid <> "" /\ u <> "" /\
       find (id_is tid) ts = Some t /\ str_includes (t_members t) u = false /\
       w' = mk_world (FJson (update_first (id_is tid) (push_member u) ts)) (w_users w) (w_ledger w)
              (w_log w ++ [EvWriteTontines (update_first (id_is tid) (push_member u) ts)]) /\
       r = inr (mk_resp 200 (BJoined (push_member u t)))).
  Proof.
    unfold join_tontine, commit_join, tontines_exist, load_tontines, write_tontines, read_strict.
    intros Hrun. unfold truthy in Hrun.
    destruct (String.eqb_spec tid ""), (String.eqb_spec u ""); st_run;
      try (left; split; [done | intros ? ?; simplify_eq/=; done]).
    right. eexists _, _. split_and!; eauto.
  Qed.
End JoinTheorems.

(** ** The well-formedness of [tontines.json] *)

(** The [name] fields of the records that have one, in order. *)
Fixpoint names_of (ts : list tontine) : list string :=
  match ts with
  | [] => []
  | t :: ts' => match t_name t with Some n => n :: names_of ts' | None => names_of ts' end
  end.

(** No two records share a [name] (the field [create-tontine] checks). *)
Definition names_unique (ts : list tontine) : Prop := NoDup (names_of ts).
(** No record lists a member twice. *)
Definition members_nodup (ts : list tontine) : Prop := Forall (fun t => NoDup (t_members t)) ts.
Definition wf_tontines (ts : list tontine) : Prop := names_unique ts /\ members_nodup ts.
Definition wf_file (f : file tontine) : Prop :=
  match f with FJson ts => wf_tontines ts | _ => True end.

Lemma names_of_update_first (f : tontine -> tontine) p ts :
  (forall t, t_name (f t) = t_name t) -> names_of (update_first p f ts) = names_of ts.
Proof.
  intros Hf. induction ts as [|t ts IH]; simpl; [done|].
  destruct (p t); simpl; [by rewrite Hf | by rewrite IH].
Qed.

Lemma wf_push_member tid u ts t :
  wf_tontines ts -> find (id_is tid) ts = Some t -> str_includes (t_members t) u = false ->
  wf_tontines (update_first (id_is tid) (push_member u) ts).
Proof.
  intros [Hn Hm] Hf Hu. split.
  - unfold names_unique. by rewrite names_of_update_first.
  - destruct (update_first_split (id_is tid) (push_member u) ts t Hf) as (l1 & l2 & -> & -> & _).
    unfold members_nodup in *. apply Forall_app in Hm as [H1 H2]. inversion H2; subst.
    apply Forall_app. split; [done|]. constructor; [|done]. simpl.
    apply NoDup_app. split_and!; [done| |by apply NoDup_singleton].
    intros x Hx ->%list_elem_of_singleton. apply list_elem_of_In, str_includes_spec in Hx. congruence.
Qed.

Lemma wf_settled now dp ts ts' :
  Forall2 (settled dp now) ts ts' -> wf_tontines ts -> wf_tontines ts'.
Proof.
  intros Hs [Hn Hm]. assert (Hnames : names_of ts' = names_of ts /\
                                     Forall (fun t => NoDup (t_members t)) ts').
  { clear Hn. induction Hs as [|t t' ts ts' Hst Hs IH]; [done|].
    inversion Hm as [|? ? Ht Hm']; subst. destruct (IH Hm') as [IH1 IH2].
    destruct Hst as [->|[_ [r ->]]]; simpl; rewrite IH1; auto. }
  destruct Hnames as [Hn' Hm']. split; [unfold names_unique; by rewrite Hn' | done].
Qed.

Lemma names_of_app ts ts' : names_of (ts ++ ts') = names_of ts ++ names_of ts'.
Proof. induction ts as [|t ts IH]; simpl; [done|]. destruct (t_name t); simpl; by rewrite IH. Qed.

Lemma name_taken_names n ts : name_taken n ts = false -> n ∉ names_of ts.
Proof.
  induction ts as [|t ts IH]; simpl; [intros _; apply not_elem_of_nil|].
  intros [Ht Hr]%orb_false_iff. destruct (t_name t) as [m|] eqn:E; [|by apply IH].
  apply not_elem_of_cons. split; [|by apply IH]. intros ->.
  rewrite bool_decide_eq_true_2 in Ht; [discriminate|done].
Qed.

Lemma wf_append ts t :
  wf_tontines ts -> NoDup (t_members t) -> (forall n, t_name t = Some n -> n ∉ names_of ts) ->
  wf_tontines (ts ++ [t]).
Proof.
  intros [Hn Hm] Ht Hname. split.
  - unfold names_unique. rewrite names_of_app. simpl.
    destruct (t_name t) as [n|] eqn:E; simpl; [|by rewrite app_nil_r].
    apply NoDup_app. split_and!; [done| |by apply NoDup_singleton].
    intros x Hx ->%list_elem_of_singleton. by apply (Hname n).
  - apply Forall_app. split; [done|]. by constructor.
Qed.

Lemma wf_read_or_empty f ts : wf_file f -> read_or_empty f = inr ts -> wf_tontines ts.
Proof.
  destruct f; simpl; intros Hf [= <-]; try done; split; constructor.
Qed.

Section RouteCases.
  Context {L : Type} `{Gateway L}.

  (** Derive, from a finished call of a handler that does not write
      [tontines.json], that the file is the same afterwards. *)
Ltac file_frame :=
    repeat match goal with
    | Hc : trustline_add ?a ?b ?w = (?w1, _) |- _ =>
        let Hf := fresh "Hf" in
        pose proof (trustline_add_tontines a b (w_tontines w) w eq_refl) as Hf;
        rewrite Hc in Hf; unfold tontines_file_is in Hf; simpl in Hf; clear Hc
    | Hc : createTemporaryWallet ?w = (?w1, _) |- _ =>
        let Hf := fresh "Hf" in
        pose proof (createTemporaryWallet_tontines (w_tontines w) w eq_refl) as Hf;
        rewrite Hc in Hf; unfold tontines_file_is in Hf; simpl in Hf; clear Hc
    end.

Lemma create_tontine_cases n cs pw c rand now (w w' : world L) r :
    create_tontine (Some n) (Some cs) (Some pw) (Some c) rand now w = (w', r) ->
    w_tontines w' = w_tontines w \/
    exists ts, (w_tontines w = FJson ts \/ (w_tontines w = FMissing /\ ts = [])) /\
      name_taken n ts = false /\
      w_tontines w' = FJson (ts ++ [new_named_tontine ("rlsud_" +:+ n +:+ "_" +:+ rand) n cs pw c now]).
  Proof.
    unfold create_tontine, tontines_exist, load_tontines, write_tontines, read_strict.
    intros Hrun. st_run; try by left. all: right; eauto 10.
  Qed.

Lemma createWallet_cases tn d sched u now (w w' : world L) r :
    createWallet (Some tn) (Some d) (Some sched) (Some u) now w = (w', r) ->
    w_tontines w' = w_tontines w \/
    exists ts wl, read_or_empty (w_tontines w) = inr ts /\
      w_tontines w' = FJson (ts ++ [new_wallet_tontine tn d sched u wl now]).
  Proof.
    unfold createWallet, load_tontines, write_tontines.
    intros Hrun. st_run; file_frame; try (left; congruence). right. rewrite <- Hf. eauto.
  Qed.

Lemma join_cases tid u (w w' : world L) r :
    join (Some tid) (Some u) w = (w', r) ->
    (w_tontines w' = w_tontines w /\ forall resp, r = inr resp -> r_status resp <> 200%Z) \/
    (exists ts t wd w1 tr, w_tontines w = FJson ts /\
       find (id_is tid) ts = Some t /\ str_includes (t_members t) u = false /\
       t_wallet t = Some wd /\
       trustline_add (Some (w_address wd)) (Some (w_secret wd)) w = (w1, inr tr) /\
       resp_ok tr = true /\
       w' = mk_world (FJson (update_first (id_is tid) (push_member u) ts)) (w_users w1) (w_ledger w1)
              (w_log w1 ++ [EvWriteTontines (update_first (id_is tid) (push_member u) ts)]) /\
       r = inr (mk_resp 200 (BJoined (push_member u t)))).
  Proof.
    unfold join, commit_join, tontines_exist, load_tontines, write_tontines, read_strict.
    intros Hrun. st_run;
      try (left; split; [done | intros ? ?; simplify_eq/=; done]).
    all: repeat match goal with Hn : negb _ = false |- _ => apply negb_false_iff in Hn end.
    all: try (right; eexists _, _, _, _, _; split_and!; eauto; done).
    all: file_frame; left; split; [congruence | intros ? ?; simplify_eq/=; done].
  Qed.
End RouteCases.

Section Invariant.
  Context {L : Type} `{Gateway L}.

Definition wf_world (w : world L) : Prop := wf_file (w_tontines w).

Lemma create_tontine_wf n cs pw c rand now :
    st_preserves wf_world (create_tontine n cs pw c rand now).
  Proof.
    intros w Hw. destruct n as [n|], cs as [cs|], pw as [pw|], c as [c|]; try exact Hw.
    destruct (create_tontine _ _ _ _ rand now w) as [w' r] eqn:E. simpl.
    apply create_tontine_cases in E as [E|(ts & Hf & Hn & E)]; unfold wf_world; rewrite E; [done|].
    apply wf_append.
    - destruct Hf as [Hf|[_ ->]]; [unfold wf_world in Hw; by rewrite Hf in Hw | split; constructor].
    - apply NoDup_singleton.
    - intros m [= <-]. by apply name_taken_names.
  Qed.

Lemma createWallet_wf tn d sched u now : st_preserves wf_world (createWallet tn d sched u now).
  Proof.
    intros w Hw. destruct tn as [tn|], d as [d|], sched as [sched|], u as [u|]; try exact Hw.
    destruct (createWallet _ _ _ _ now w) as [w' r] eqn:E. simpl.
    apply createWallet_cases in E as [E|(ts & wl & Hrd & E)]; unfold wf_world; rewrite E; [done|].
    apply wf_append; [by eapply wf_read_or_empty | apply NoDup_singleton | discriminate].
  Qed.

Lemma join_tontine_wf tid u : st_preserves wf_world (join_tontine tid u).
  Proof.
    intros w Hw. destruct tid as [tid|], u as [u|]; try exact Hw.
    destruct (join_tontine _ _ w) as [w' r] eqn:E. simpl.
    apply join_tontine_cases in E as [[-> _]|(ts & t & Hf & _ & _ & Hfind & Hu & -> & _)]; [done|].
    unfold wf_world in *. rewrite Hf in Hw. simpl. by eapply wf_push_member.
  Qed.

Lemma join_wf tid u : st_preserves wf_world (join tid u).
  Proof.
    intros w Hw. destruct tid as [tid|], u as [u|]; try exact Hw.
    destruct (join _ _ w) as [w' r] eqn:E. simpl.
    apply join_cases in E as [[E _]|(ts & t & wd & w1 & tr & Hf & Hfind & Hu & _ & _ & _ & -> & _)];
      unfold wf_world in *; [by rewrite E|].
    rewrite Hf in Hw. simpl. by eapply wf_push_member.
  Qed.

Lemma triggerTransfer_wf dp now : st_preserves wf_world (triggerTransfer dp now).
  Proof.
    intros w Hw. destruct (triggerTransfer dp now w) as [w' r] eqn:E. simpl.
    apply triggerTransfer_outcome in E as [_ [E|(ts & ts' & Hrd & E & Hs)]];
      unfold wf_world in *; rewrite E; [done|].
    eapply wf_settled; [done|]. by eapply wf_read_or_empty.
  Qed.

  (** C1: [tontines.json] stays well formed under every handler that
      writes it ([create-tontine], [createWallet], [join-tontine], [join],
      [triggerTransfer]), on every path, errors included: no two records
      share a [name], and no record lists a member twice. *)
Theorem handlers_preserve_wf dp now rand n cs pw c tn d sched u tid uid :
    st_preserves wf_world (create_tontine n cs pw c rand now) /\
    st_preserves wf_world (createWallet tn d sched u now) /\
    st_preserves wf_world (join_tontine tid uid) /\
    st_preserves wf_world (join tid uid) /\
    st_preserves wf_world (triggerTransfer dp now).
  Proof.
    split_and!; auto using create_tontine_wf, createWallet_wf, join_tontine_wf, join_wf,
      triggerTransfer_wf.
  Qed.
End Invariant.

(** Events that only talk to the ledger. *)
Definition ledger_event (e : event) : Prop :=
  match e with EvLines _ | EvSubmit _ _ | EvFund _ | EvXrpBalance _ => True | _ => False end.

Section JoinRuns.
  Context {L : Type} `{Gateway L}.

Lemma join_tontine_run_new tid u ts t (w : world L) :
    w_tontines w = FJson ts -> find (id_is tid) ts = Some t -> ~ In u (t_members t) ->
    tid <> "" -> u <> "" ->
    join_tontine (Some tid) (Some u) w =
      (mk_world (FJson (update_first (id_is tid) (push_member u) ts)) (w_users w) (w_ledger w)
         (w_log w ++ [EvWriteTontines (update_first (id_is tid) (push_member u) ts)]),
       inr (mk_resp 200 (BJoined (push_member u t)))).
  Proof.
    intros Hf Hfind Hu Htid Hu'.
    assert (Hn : str_includes (t_members t) u = false).
    { destruct (str_includes _ _) eqn:E; [|done]. by apply str_includes_spec in E. }
    unfold join_tontine, commit_join, tontines_exist, load_tontines, write_tontines.
    rewrite !truthy_some by done.
    unfold st_catch, st_bind, st_ret. cbn -[find str_includes update_first].
    repeat (first [rewrite Hf | rewrite Hfind | rewrite Hn]; cbn -[find str_includes update_first]).
    done.
  Qed.

Lemma join_tontine_run_member tid u ts t (w : world L) :
    w_tontines w = FJson ts -> find (id_is tid) ts = Some t -> In u (t_members t) ->
    tid <> "" -> u <> "" ->
    join_tontine (Some tid) (Some u) w = (w, inr (err 400 AlreadyMember)).
  Proof.
    intros Hf Hfind Hu Htid Hu'. apply str_includes_spec in Hu.
    unfold join_tontine, commit_join, tontines_exist, load_tontines, write_tontines.
    rewrite !truthy_some by done.
    unfold st_catch, st_bind, st_ret. cbn -[find str_includes update_first].
    repeat (first [rewrite Hf | rewrite Hfind | rewrite Hu]; cbn -[find str_includes update_first]).
    done.
  Qed.

  (** C17: Joining twice (scenario B): the first [join-tontine] of a user
      who is not yet a member of an existing record answers 200 and writes
      the record with the user appended, once; the same request repeated
      answers 400 [AlreadyMember] and changes nothing. *)
Theorem join_tontine_twice tid u ts t (w : world L) :
    w_tontines w = FJson ts -> find (id_is tid) ts = Some t -> ~ In u (t_members t) ->
    tid <> "" -> u <> "" ->
    let '(w1, r1) := join_tontine (Some tid) (Some u) w in
    r1 = inr (mk_resp 200 (BJoined (push_member u t))) /\
    (exists ts1, w_tontines w1 = FJson ts1 /\ find (id_is tid) ts1 = Some (push_member u t) /\
                 t_members (push_member u t) = t_members t ++ [u]) /\
    join_tontine (Some tid) (Some u) w1 = (w1, inr (err 400 AlreadyMember)).
  Proof.
    intros Hf Hfind Hu Htid Hu'. rewrite (join_tontine_run_new tid u ts t) by done.
    assert (Hfind' : find (id_is tid) (update_first (id_is tid) (push_member u) ts) = Some (push_member u t)).
    { apply find_update_first; [done|]. apply find_some in Hfind as [_ Hid]. exact Hid. }
    split; [done|]. split; [eexists; split_and!; [reflexivity|done|done]|].
    eapply join_tontine_run_member; [reflexivity|exact Hfind'| |done|done].
    simpl. apply in_or_app. right. by left.
  Qed.
End JoinRuns.

Section Ordering.
  Context {L : Type} `{Gateway L}.

  (** A successful [trustline/add] began with the query of the address it
      was given and only talked to the ledger. *)
Lemma trustline_add_log a s (w w1 : world L) tr :
    trustline_add a s w = (w1, inr tr) -> resp_ok tr = true ->
    exists addr evs, a = Some addr /\ w_log w1 = w_log w ++ EvLines addr :: evs /\
                     Forall ledger_event evs.
  Proof.
    unfold trustline_add, account_lines, from_seed, submit, log. intros Hrun Hok.
    st_run; eexists _, _; rewrite <- ?app_assoc; split_and!; try reflexivity; repeat constructor.
  Qed.

  (** A successful [createTemporaryWallet] funded the wallet first, then
      queried its lines, and only talked to the ledger. *)
Lemma createTemporaryWallet_log_shape (w w1 : world L) wl :
    createTemporaryWallet w = (w1, inr wl) ->
    exists evs, w_log w1 = w_log w ++ EvFund (inr wl) :: EvLines (w_address wl) :: evs /\
                Forall ledger_event evs.
  Proof.
    unfold createTemporaryWallet, generate_fund, account_lines, submit, log. intros Hrun.
    st_run; eexists; rewrite <- ?app_assoc; split; try reflexivity; repeat constructor.
  Qed.

  (** C18: Joining with a trust line (scenario E): when [/api/trustline/add]
      answers with an error for the record's wallet, [join] answers 500
      and [tontines.json] is left as it was: the user is not a member. *)
Theorem join_trustline_failure tid u ts t wd (w w1 : world L) tr :
    w_tontines w = FJson ts -> find (id_is tid) ts = Some t -> ~ In u (t_members t) ->
    tid <> "" -> u <> "" -> t_wallet t = Some wd ->
    trustline_add (Some (w_address wd)) (Some (w_secret wd)) w = (w1, inr tr) ->
    resp_ok tr = false ->
    join (Some tid) (Some u) w = (w1, inr (err 500 TrustlineError)) /\ w_tontines w1 = FJson ts.
  Proof.
    intros Hf Hfind Hu Htid Hu' Hw Htr Hok.
    assert (Hn : str_includes (t_members t) u = false).
    { destruct (str_includes _ _) eqn:E; [|done]. by apply str_includes_spec in E. }
    pose proof (trustline_add_tontines (Some (w_address wd)) (Some (w_secret wd)) (w_tontines w) w eq_refl)
      as Hft. rewrite Htr in Hft. unfold tontines_file_is in Hft. simpl in Hft.
    split; [|congruence].
    unfold join, tontines_exist, load_tontines. rewrite !truthy_some by done.
    unfold st_catch, st_bind, st_ret, st_throw. cbn -[find str_includes update_first trustline_add].
    repeat (first [rewrite Hf | rewrite Hfind | rewrite Hn | rewrite Hw | rewrite Htr | rewrite Hok];
            cbn -[find str_includes update_first trustline_add]).
    done.
  Qed.

  (** C19: A [join] that answers 200 asked the ledger about the record's
      wallet (the trust-line check) before it wrote [tontines.json], and its
      only write is the last event: the membership becomes durable only
      after the trust-line step succeeded. *)
Theorem join_trustline_before_write tid u (w w' : world L) resp :
    join (Some tid) (Some u) w = (w', inr resp) -> r_status resp = 200%Z ->
    exists ts t wd evs ts',
      w_tontines w = FJson ts /\ find (id_is tid) ts = Some t /\ t_wallet t = Some wd /\
      w_log w' = w_log w ++ (EvLines (w_address wd) :: evs) ++ [EvWriteTontines ts'] /\
      Forall ledger_event evs /\ w_tontines w' = FJson ts' /\ In u (t_members (push_member u t)).
  Proof.
    intros Hrun Hst. apply join_cases in Hrun
      as [[_ Hno]|(ts & t & wd & w1 & tr & Hf & Hfind & Hu & Hw & Htr & Hok & -> & _)];
      [by destruct (Hno resp eq_refl)|].
    destruct (trustline_add_log _ _ _ _ _ Htr Hok) as (addr & evs & [= <-] & Hlog & Hevs).
    exists ts, t, wd, evs, (update_first (id_is tid) (push_member u) ts). simpl.
    rewrite Hlog, <- !app_assoc. split_and!; try done.
    apply in_or_app. right. by left.
  Qed.

  (** C20: A [createWallet] that answers 200 funded the new wallet and
      queried its trust lines before writing [tontines.json], and appended
      exactly one record, which holds that wallet, [status: active] and the
      creator as its only member. *)
Theorem createWallet_fund_before_write tn d sched u now (w w' : world L) resp :
    createWallet (Some tn) (Some d) (Some sched) (Some u) now w = (w', inr resp) ->
    r_status resp = 200%Z ->
    exists wl evs ts,
      read_or_empty (w_tontines w) = inr ts /\
      w_log w' = w_log w ++ EvFund (inr wl) :: EvLines (w_address wl) :: evs ++
                 [EvWriteTontines (ts ++ [new_wallet_tontine tn d sched u wl now])] /\
      Forall ledger_event evs /\
      w_tontines w' = FJson (ts ++ [new_wallet_tontine tn d sched u wl now]) /\
      resp = mk_resp 200 (BCreated (pretty now) (w_address wl)).
  Proof.
    unfold createWallet, load_tontines, write_tontines, st_catch, st_bind, st_ret. intros Hrun Hst.
    unfold truthy in Hrun.
    destruct (String.eqb tn ""), (String.eqb d ""), (String.eqb sched ""), (String.eqb u "");
      cbn -[createTemporaryWallet] in Hrun.
    all: simplify_eq.
    destruct (createTemporaryWallet w) as [w1 [e|wl]] eqn:Hc; cbn in Hrun; [by simplify_eq|].
    destruct (read_or_empty (w_tontines w1)) as [e|ts] eqn:Hrd; cbn in Hrun; [by simplify_eq|].
    injection Hrun as <- <-.
    pose proof (createTemporaryWallet_log_shape _ _ _ Hc) as (evs & Hlog & Hevs).
    pose proof (createTemporaryWallet_tontines (w_tontines w) w eq_refl) as Hft.
    rewrite Hc in Hft; unfold tontines_file_is in Hft; cbn in Hft.
    exists wl, evs, ts. rewrite <- Hft. cbn [w_log w_tontines]. rewrite Hlog, <- !app_assoc.
    split_and!; try done.
  Qed.
End Ordering.

Module MembershipScenarios.
  Import SimLedger Fixtures SettlementScenarios.

Definition w_join : world sim := world_of (FJson [pool_rec]) (ledger0 "50").

  (** The pool wallet has no trust line and every submission of it is
      refused: [/api/trustline/add] answers 500. *)
Definition w_refused : world sim :=
    world_of (FJson [pool_rec]) (mk_sim true [("rPool", [])] ["rPool"] []).

Lemma join_tontine_twice_witness :
    let '(w1, r1) := join_tontine (Some "1") (Some "u2") w_join in
    r1 = inr (mk_resp 200 (BJoined (push_member "u2" pool_rec))) /\
    (exists ts1, w_tontines w1 = FJson ts1 /\ find (id_is "1") ts1 = Some (push_member "u2" pool_rec) /\
                 t_members (push_member "u2" pool_rec) = t_members pool_rec ++ ["u2"]) /\
    join_tontine (Some "1") (Some "u2") w1 = (w1, inr (err 400 AlreadyMember)).
  Proof.
    apply (join_tontine_twice "1" "u2" [pool_rec] pool_rec w_join).
    - reflexivity.
    - vm_compute. reflexivity.
    - simpl. intros [H|[]]. discriminate.
    - discriminate.
    - discriminate.
  Defined.

Lemma join_trustline_failure_witness :
    join (Some "1") (Some "u2") w_refused =
      (fst (trustline_add (Some "rPool") (Some "sPool") w_refused), inr (err 500 TrustlineError)) /\
    w_tontines (fst (trustline_add (Some "rPool") (Some "sPool") w_refused)) = FJson [pool_rec].
  Proof.
    apply (join_trustline_failure "1" "u2" [pool_rec] pool_rec pool_wallet w_refused _
             (err 500 TrustlineError)).
    - reflexivity.
    - vm_compute. reflexivity.
    - simpl. intros [H|[]]. discriminate.
    - discriminate.
    - discriminate.
    - reflexivity.
    - vm_compute. reflexivity.
    - vm_compute. reflexivity.
  Defined.

Lemma join_trustline_before_write_witness :
    exists ts t wd evs ts',
      w_tontines w_join = FJson ts /\ find (id_is "1") ts = Some t /\ t_wallet t = Some wd /\
      w_log (fst (join (Some "1") (Some "u2") w_join)) =
        w_log w_join ++ (EvLines (w_address wd) :: evs) ++ [EvWriteTontines ts'] /\
      Forall ledger_event evs /\ w_tontines (fst (join (Some "1") (Some "u2") w_join)) = FJson ts' /\
      In "u2" (t_members (push_member "u2" t)).
  Proof.
    apply (join_trustline_before_write "1" "u2" w_join _
             (mk_resp 200 (BJoined (push_member "u2" pool_rec)))).
    - vm_compute. reflexivity.
    - reflexivity.
  Defined.

Lemma createWallet_fund_before_write_witness :
    let w := world_of FMissing (ledger0 "0") in
    exists wl evs ts,
      read_or_empty (w_tontines w) = inr ts /\
      w_log (fst (createWallet (Some "G") (Some "rDest") (Some "1000") (Some "u1") 1700 w)) =
        w_log w ++ EvFund (inr wl) :: EvLines (w_address wl) :: evs ++
                 [EvWriteTontines (ts ++ [new_wallet_tontine "G" "rDest" "1000" "u1" wl 1700])] /\
      Forall ledger_event evs /\
      w_tontines (fst (createWallet (Some "G") (Some "rDest") (Some "1000") (Some "u1") 1700 w)) =
        FJson (ts ++ [new_wallet_tontine "G" "rDest" "1000" "u1" wl 1700]) /\
      mk_resp 200 (BCreated "1700" "rFresh") = mk_resp 200 (BCreated (pretty 1700%Z) (w_address wl)).
  Proof.
    apply (createWallet_fund_before_write "G" "rDest" "1000" "u1" 1700 _ _
             (mk_resp 200 (BCreated "1700" "rFresh"))).
    - vm_compute. reflexivity.
    - reflexivity.
  Defined.
End MembershipScenarios.
