(* ===== verification/Typing.v ===== *)
(** * Typing: the shapes of the records in [tontines.json]

    [tontines.json] is untyped JSON, and the handlers read fields without
    checking them.  Two record shapes are written: [create-tontine]'s
    [{id, name, cycleSize, password, members, createdAt}] and
    [createWallet]'s [{id, tontineName, destination, scheduledTime,
    tontineMaster, wallet, createdAt, status, members}], the latter with
    [transferredAt] and [txResult] once [triggerTransfer] completes it.
    [shape] names them and [has_shape] is the typing judgement of a record
    (with the rule that [transferredAt] and [txResult] are set exactly when
    the status is [completed]).  The theorems: every handler that writes
    the file keeps every record typed (preservation), and a typed record
    the settlement finds due has the wallet and the destination the loop
    body dereferences (progress); a typed record of the other shape has no
    wallet, and [/api/join] fails on it with a [TypeError]. *)

From stdpp Require Import base list strings.
From Stdlib Require Import ZArith Lia.
From S2P Require Import Prelude JsValue Gateway World XrplService Settlement Membership.

Inductive shape := SWallet | SNamed.

(** [createWallet]'s record, lines 45-58, and what [triggerTransfer] makes
    of it, lines 59-63. *)
Definition wallet_shaped (t : tontine) : bool :=
  match t_name t, t_tontineName t, t_cycleSize t, t_password t, t_destination t, t_scheduledTime t,
        t_tontineMaster t, t_wallet t, t_status t, t_transferredAt t, t_txResult t with
  | None, Some _, None, None, Some _, Some _, Some _, Some _, Some Active, None, None => true
  | None, Some _, None, None, Some _, Some _, Some _, Some _, Some Completed, Some _, Some _ => true
  | _, _, _, _, _, _, _, _, _, _, _ => false
  end.

(** [create-tontine]'s record, lines 44-51; [cycleSize] is [null] when
    [parseInt] gives [NaN]. *)
Definition named_shaped (t : tontine) : bool :=
  match t_name t, t_tontineName t, t_password t, t_destination t, t_scheduledTime t,
        t_tontineMaster t, t_wallet t, t_status t, t_transferredAt t, t_txResult t with
  | Some _, None, Some _, None, None, None, None, None, None, None => true
  | _, _, _, _, _, _, _, _, _, _ => false
  end.

Definition has_shape (t : tontine) (s : shape) : bool :=
  match s with SWallet => wallet_shaped t | SNamed => named_shaped t end.

Definition typed (t : tontine) : Prop := exists s, has_shape t s = true.

Definition typed_file (f : file tontine) : Prop :=
  match f with FJson ts => Forall typed ts | _ => True end.

#[export] Instance shape_eq_dec : EqDecision shape.
Proof. solve_decision. Defined.

(** Typing is decidable: the two shapes are checked. *)
#[export] Instance typed_dec t : Decision (typed t).
Proof.
  destruct (wallet_shaped t) eqn:Hw; [left; by exists SWallet|].
  destruct (named_shaped t) eqn:Hn; [left; by exists SNamed|].
  right. intros [[|] Hs]; simpl in Hs; congruence.
Defined.

(** ** The rules *)

Lemma typed_push_member u t : typed t -> typed (push_member u t).
Proof. intros [s Hs]. exists s. by destruct t. Qed.

Lemma typed_new_named id n cs pw c now : typed (new_named_tontine id n cs pw c now).
Proof. by exists SNamed. Qed.

Lemma typed_new_wallet tn d sched u wl now : typed (new_wallet_tontine tn d sched u wl now).
Proof. by exists SWallet. Qed.

(** Only a record of [createWallet]'s shape can be due. *)
Lemma due_wallet_shaped dp now t : is_due dp now t = true -> typed t -> wallet_shaped t = true.
Proof.
  intros Hd [[|] Hs]; [done|]. apply is_due_active in Hd. simpl in Hs. unfold named_shaped in Hs.
  rewrite Hd in Hs. by repeat case_match.
Qed.

Lemma typed_mark_completed dp now r t : is_due dp now t = true -> typed t -> typed (mark_completed now r t).
Proof.
  intros Hd Ht. pose proof (due_wallet_shaped _ _ _ Hd Ht) as Hw. exists SWallet. simpl.
  unfold wallet_shaped in *. destruct t; simpl in *. by repeat case_match.
Qed.

(** Progress: a typed record the settlement finds due has the wallet and
    the destination the loop body reads. *)
Lemma typed_due_progress dp now t :
  typed t -> is_due dp now t = true -> exists wd dest, t_wallet t = Some wd /\ t_destination t = Some dest.
Proof.
  intros Ht Hd. pose proof (due_wallet_shaped _ _ _ Hd Ht) as Hw. unfold wallet_shaped in Hw.
  repeat case_match; simplify_eq; eauto.
Qed.

Lemma typed_settled dp now ts ts' :
  Forall2 (settled dp now) ts ts' -> Forall typed ts -> Forall typed ts'.
Proof.
  induction 1 as [|t t' ts ts' Hs _ IH]; intros Hts; [constructor|].
  apply Forall_cons in Hts as [Ht Hts]. constructor; [|by apply IH].
  destruct Hs as [->|[Hd [r ->]]]; [done|]. by eapply typed_mark_completed.
Qed.

Lemma typed_read_or_empty f ts : typed_file f -> read_or_empty f = inr ts -> Forall typed ts.
Proof. destruct f; simpl; intros Hf [= <-]; by try constructor. Qed.

Lemma typed_append ts t : Forall typed ts -> typed t -> typed_file (FJson (ts ++ [t])).
Proof. intros Hts Ht. simpl. apply Forall_app. split; [done|]. by constructor. Qed.

Lemma typed_join tid u ts : Forall typed ts -> typed_file (FJson (update_first (id_is tid) (push_member u) ts)).
Proof. intros Hts. apply update_first_map; [done|]. intros t Ht _. by apply typed_push_member. Qed.

#[export] Hint Resolve typed_new_named typed_new_wallet typed_append typed_join : tontine.

Section Preservation.
  Context {L : Type} `{Gateway L}.

Definition typed_world (w : world L) : Prop := typed_file (w_tontines w).

  (** C22: Type preservation for [tontines.json]: every handler that writes
      it ([create-tontine], [createWallet], [join-tontine], [join],
      [triggerTransfer]) keeps every record of one of the two shapes, on
      every path: it appends a record of its own shape, or changes a record
      into one of the same shape ([members] grown, or [status] completed
      with [transferredAt] and [txResult] set together). *)
Theorem handlers_preserve_typed dp now rand n cs pw c tn d sched u tid uid :
    st_preserves typed_world (create_tontine n cs pw c rand now) /\
    st_preserves typed_world (createWallet tn d sched u now) /\
    st_preserves typed_world (join_tontine tid uid) /\
    st_preserves typed_world (join tid uid) /\
    st_preserves typed_world (triggerTransfer dp now).
  Proof.
    unfold typed_world. split_and!; intros w Hw.
    - destruct n, cs, pw, c; try exact Hw. destruct (create_tontine _ _ _ _ _ _ w) as [w' r] eqn:E.
      apply create_tontine_cases in E as [E|(ts & Hf & _ & E)]; simpl; rewrite E; [done|].
      apply typed_append; [|apply typed_new_named].
      destruct Hf as [Hf|[_ ->]]; [by rewrite Hf in Hw|constructor].
    - destruct tn, d, sched, u; try exact Hw. destruct (createWallet _ _ _ _ _ w) as [w' r] eqn:E.
      apply createWallet_cases in E as [E|(ts & wl & Hrd & E)]; simpl; rewrite E; [done|].
      apply typed_append; [by eapply typed_read_or_empty|apply typed_new_wallet].
    - destruct tid, uid; try exact Hw. destruct (join_tontine _ _ w) as [w' r] eqn:E.
      apply join_tontine_cases in E as [[-> _]|(ts & t & Hf & _ & _ & _ & _ & -> & _)]; [done|].
      rewrite Hf in Hw. by apply typed_join.
    - destruct tid, uid; try exact Hw. destruct (join _ _ w) as [w' r] eqn:E.
      apply join_cases in E as [[E _]|(ts & t & wd & w1 & tr & Hf & _ & _ & _ & _ & _ & -> & _)];
        simpl; [by rewrite E|]. rewrite Hf in Hw. by apply typed_join.
    - destruct (triggerTransfer dp now w) as [w' r] eqn:E. simpl.
      apply triggerTransfer_outcome in E as [_ [E|(ts & ts' & Hrd & E & Hs)]]; rewrite E; [done|].
      eapply typed_settled; [exact Hs|]. by eapply typed_read_or_empty.
  Qed.
End Preservation.

Module TypingScenarios.
  Import SimLedger Fixtures.

  (** A record of [create-tontine]'s shape: typed, without a wallet. *)
Definition named_rec : tontine := new_named_tontine "rlsud_G1_x" "G1" "3" "pw" "u1" 0.
Definition w_named : world sim := world_of (FJson [named_rec]) (ledger0 "50").

  (** [/api/join] on a record [create-tontine] wrote: the record is
      found and the user is not a member, then [tontine.wallet.address]
      throws a [TypeError] and the route answers 500 without a write; the
      user cannot join a tontine created through [create-tontine] by this
      route, while [join-tontine] accepts it. *)
Example join_named_record_fails :
    typed named_rec /\ t_wallet named_rec = None /\
    join (Some "rlsud_G1_x") (Some "u2") w_named = (w_named, inr (err 500 InternalError)) /\
    snd (join_tontine (Some "rlsud_G1_x") (Some "u2") w_named) =
      inr (mk_resp 200 (BJoined (push_member "u2" named_rec))).
  Proof. split_and!; [by exists SNamed|reflexivity|vm_compute; reflexivity|vm_compute; reflexivity]. Qed.
End TypingScenarios.
