(* ===== verification/Concurrency.v ===== *)
(** * Concurrency: requests interleaved at their [await]s

    Next.js runs route handlers concurrently in one event loop; a handler
    yields at every [await].  [join-tontine] ([src/BCI/src/app/api/join-tontine/route.js])
    reads [tontines.json] (lines 42-49), decides, and writes the whole list
    back (line 65); [create-tontine] ([src/BCI/src/app/api/create-tontine/route.js])
    reads (lines 29-34), checks the name, and writes (line 53); [join]
    reads, awaits [/api/trustline/add], and writes its snapshot;
    [createWallet] awaits the ledger, then reads and writes synchronously;
    [triggerTransfer] reads synchronously, awaits the ledger for every due
    record, and writes its snapshot at the end.  Another request can run
    between a read and the write that follows it.

    A request in flight is a [proc]: finished with its answer, or suspended
    with the step it runs when resumed.  A handler is cut into a read phase
    and a commit phase; each phase is atomic here, which is coarser than the
    code (where [fs.access], [fs.readFile] and [fs.writeFile] are separate
    awaits, and the settlement loop awaits the ledger for each record):
    every schedule of [sched] is a schedule the code can take, so what a
    schedule shows happens, but not every schedule of the code is covered.
    [sched] runs the step of the request a schedule names.

    The theorems: run alone, each [proc] does what the sequential handler
    does (refinement); two joins of one record whose reads both come before
    the writes lose the first member although both answer 200 (lost
    update); a join whose read comes before a settlement pass's write
    reverts the completion the pass wrote, after the payment (so statuses
    are not monotone under concurrency); and, whatever the schedule of any
    number of requests of the five kinds, [tontines.json] stays well
    formed, because each commit writes a list computed from a well-formed
    snapshot or from the file as it is. *)

From stdpp Require Import base list strings pretty.
From Stdlib Require Import ZArith Lia.
From S2P Require Import Prelude JsValue Gateway World XrplService Settlement Membership.

Local Open Scope st_scope.
#[local] Set Warnings "-register-all".

(** ** Suspended requests *)

Inductive proc (W R : Type) :=
  | Done (r : R)
  | Step (k : W -> W * proc W R).
Arguments Done {W R}. Arguments Step {W R}.

Section Sched.
  Context {W R : Type}.

  (** Resume request [i]; a finished request or an index out of range is
      skipped. *)
Definition resume (i : nat) (ps : list (proc W R)) (w : W) : W * list (proc W R) :=
    match ps !! i with
    | Some (Step k) => let '(w', p') := k w in (w', <[i := p']> ps)
    | _ => (w, ps)
    end.

Fixpoint sched (s : list nat) (ps : list (proc W R)) (w : W) : W * list (proc W R) :=
    match s with
    | [] => (w, ps)
    | i :: s' => let '(w', ps') := resume i ps w in sched s' ps' w'
    end.

  (** A read phase [c] that ends the request ([inl r]) or hands a snapshot
      [x] to the commit phase [k], which runs at the next resume; an
      exception in either ends the request with [h e] (the route's
      [catch]). *)
Definition two_phase {X} (c : st W (R + X)) (k : X -> st W R) (h : exn -> R) : proc W R :=
    Step (fun w =>
      match c w with
      | (w', inl e) => (w', Done (h e))
      | (w', inr (inl r)) => (w', Done r)
      | (w', inr (inr x)) =>
          (w', Step (fun w2 => match k x w2 with
                               | (w3, inl e) => (w3, Done (h e))
                               | (w3, inr r) => (w3, Done r)
                               end))
      end).

  (** A request every step of which keeps [P], whatever the world it
      resumes in. *)
Inductive safe (P : W -> Prop) : proc W R -> Prop :=
    | safe_done r : safe P (Done r)
    | safe_step k : (forall w, P w -> P (k w).1 /\ safe P (k w).2) -> safe P (Step k).
End Sched.

(** ** The two handlers cut at their awaits *)

Section Handlers.
  Context {L : Type} `{Gateway L}.

Abbreviation M := (st (world L)).

  (** [join-tontine], lines 42-63: up to the decision to push. *)
Definition join_tontine_read (tid u : string) : M (response + (list tontine * tontine)) :=
    let! ex := tontines_exist in
    if negb ex then st_ret (inl (err 500 DataFileMissing)) else
    let! ts := load_tontines read_strict in
    match find (id_is tid) ts with
    | None => st_ret (inl (err 404 NotFound))
    | Some t => if str_includes (t_members t) u then st_ret (inl (err 400 AlreadyMember))
                else st_ret (inr (ts, t))
    end.

Definition join_tontine_proc (tontineId userId : option string) : proc (world L) response :=
    match tontineId, userId with
    | Some tid, Some u =>
        if negb (truthy tontineId && truthy userId) then Done (err 400 MissingFields) else
        two_phase (join_tontine_read tid u) (fun '(ts, t) => commit_join tid u ts t)
                  (fun _ => err 500 InternalError)
    | _, _ => Done (err 400 MissingFields)
    end.

  (** [create-tontine], lines 28-43: up to the name check. *)
Definition create_tontine_read (n : string) : M (response + list tontine) :=
    let! ex := tontines_exist in
    do! (if ex then st_ret tt else write_tontines []) in
    let! ts := load_tontines read_strict in
    if name_taken n ts then st_ret (inl (err 400 DuplicateName)) else st_ret (inr ts).

  (** [create-tontine], lines 44-57. *)
Definition create_tontine_commit (t : tontine) (ts : list tontine) : M response :=
    do! write_tontines (ts ++ [t]) in st_ret (mk_resp 201 (BTontine t)).

Definition create_tontine_proc (name cycleSize password creatorId : option string)
             (rand : string) (now : Z) : proc (world L) response :=
    match name, cycleSize, password, creatorId with
    | Some n, Some cs, Some pw, Some c =>
        if negb (truthy name && truthy cycleSize && truthy password && truthy creatorId)
        then Done (err 400 MissingFields) else
        two_phase (create_tontine_read n)
                  (create_tontine_commit (new_named_tontine ("rlsud_" +:+ n +:+ "_" +:+ rand) n cs pw c now))
                  (fun _ => err 500 InternalError)
    | _, _, _, _ => Done (err 400 MissingFields)
    end.
End Handlers.

(** ** The handlers that call the ledger, cut at their awaits *)

Section LedgerHandlers.
  Context {L : Type} `{Gateway L}.
  Variable date_parse : string -> option Z.

Abbreviation M := (st (world L)).

  (** [join], lines 34-57: up to the trust-line call; the record's wallet
      is read here ([tontine.wallet.address] throws without one). *)
Definition join_read (tid u : string) : M (response + (list tontine * tontine * wallet)) :=
    let! ex := tontines_exist in
    if negb ex then st_ret (inl (err 500 DataFileMissing)) else
    let! ts := load_tontines read_strict in
    match find (id_is tid) ts with
    | None => st_ret (inl (err 404 NotFound))
    | Some t =>
        if str_includes (t_members t) u then st_ret (inl (err 400 AlreadyMember)) else
        match t_wallet t with
        | None => st_throw ETypeError
        | Some wd => st_ret (inr (ts, t, wd))
        end
    end.

  (** [join], lines 60-78: the trust line, then the write of the snapshot. *)
Definition join_commit (tid u : string) (ts : list tontine) (t : tontine) (wd : wallet) : M response :=
    let! tr := trustline_add (Some (w_address wd)) (Some (w_secret wd)) in
    if negb (resp_ok tr) then st_ret (err 500 TrustlineError) else commit_join tid u ts t.

Definition join_proc (tontineId userId : option string) : proc (world L) response :=
    match tontineId, userId with
    | Some tid, Some u =>
        if negb (truthy tontineId && truthy userId) then Done (err 400 MissingFields) else
        two_phase (join_read tid u) (fun '(ts, t, wd) => join_commit tid u ts t wd)
                  (fun _ => err 500 InternalError)
    | _, _ => Done (err 400 MissingFields)
    end.

  (** [createWallet], line 43: [await createTemporaryWallet()]. *)
Definition createWallet_fund : M (response + wallet) :=
    let! wl := createTemporaryWallet in st_ret (inr wl).

  (** [createWallet], lines 45-78: the read, the append and the write are
      synchronous, one step. *)
Definition createWallet_commit (tn d sched u : string) (now : Z) (wl : wallet) : M response :=
    let r := new_wallet_tontine tn d sched u wl now in
    let! ts := load_tontines read_or_empty in
    do! write_tontines (ts ++ [r]) in
    st_ret (mk_resp 200 (BCreated (t_id r) (w_address wl))).

Definition createWallet_proc (tontineName destination scheduledTime userId : option string)
    (now : Z) : proc (world L) response :=
    match tontineName, destination, scheduledTime, userId with
    | Some tn, Some d, Some sched, Some u =>
        if negb (truthy tontineName && truthy destination && truthy scheduledTime && truthy userId)
        then Done (err 400 MissingFields) else
        two_phase createWallet_fund (createWallet_commit tn d sched u now)
                  (fun _ => err 500 InternalError)
    | _, _, _, _ => Done (err 400 MissingFields)
    end.

  (** [triggerTransfer], lines 31-35: the synchronous read. *)
Definition trigger_read : M (response + list tontine) :=
    let! ts := load_tontines read_or_empty in st_ret (inr ts).

  (** [triggerTransfer], lines 37-82: the loop (its ledger awaits are not
      cut) and the synchronous write of the snapshot. *)
Definition trigger_commit (now : Z) (ts : list tontine) : M response :=
    let! '(ts', updated, results) := settle_loop date_parse now ts in
    do! (if updated then write_tontines ts' else st_ret tt) in
    st_ret (mk_resp 200 (BTransfers results)).

Definition trigger_proc (now : Z) : proc (world L) response :=
    two_phase trigger_read (trigger_commit now) (fun _ => err 500 InternalError).
End LedgerHandlers.

(** The requests a client can send, and the [proc] each starts as. *)
Inductive request :=
  | RJoin (tontineId userId : option string)
  | RCreate (name cycleSize password creatorId : option string) (rand : string) (now : Z)
  | RJoinTrust (tontineId userId : option string)
  | RCreateWallet (tontineName destination scheduledTime userId : option string) (now : Z)
  | RTrigger (now : Z).

Definition start {L} `{Gateway L} (date_parse : string -> option Z) (q : request) : proc (world L) response :=
  match q with
  | RJoin tid u => join_tontine_proc tid u
  | RCreate n cs pw c rand now => create_tontine_proc n cs pw c rand now
  | RJoinTrust tid u => join_proc tid u
  | RCreateWallet tn d s u now => createWallet_proc tn d s u now
  | RTrigger now => trigger_proc date_parse now
  end.

(** ** Scheduling lemmas *)

Section SchedLemmas.
  Context {W R : Type} (P : W -> Prop).

Lemma resume_safe i (ps : list (proc W R)) w :
    P w -> Forall (safe P) ps -> P (resume i ps w).1 /\ Forall (safe P) (resume i ps w).2.
  Proof.
    intros Hw Hps. unfold resume. destruct (ps !! i) as [[r|k]|] eqn:Hi; try done.
    pose proof (Forall_lookup_1 _ _ _ _ Hps Hi) as Hk. inversion Hk as [|k' Hk']; subst.
    destruct (Hk' w Hw) as [Hw' Hp']. destruct (k w) as [w' p'] eqn:E. simpl in *.
    split; [done|]. by apply Forall_insert.
  Qed.

Lemma sched_safe s (ps : list (proc W R)) w :
    P w -> Forall (safe P) ps -> P (sched s ps w).1 /\ Forall (safe P) (sched s ps w).2.
  Proof.
    revert ps w. induction s as [|i s IH]; intros ps w Hw Hps; simpl; [done|].
    destruct (resume_safe i ps w Hw Hps) as [Hw' Hps']. destruct (resume i ps w). by apply IH.
  Qed.

  (** A two-phase request is safe when its read phase keeps [P] and every
      snapshot it hands over, read in a [P] world, gives a commit that keeps
      [P] in whatever world it runs. *)
Lemma two_phase_safe {X} (c : st W (R + X)) k h :
    st_preserves P c ->
    (forall w w' x, P w -> c w = (w', inr (inr x)) -> st_preserves P (k x)) ->
    safe P (two_phase c k h).
  Proof.
    intros Hc Hk. constructor. intros w Hw. pose proof (Hc w Hw) as Hw'.
    destruct (c w) as [w' [e|[r|x]]] eqn:E; simpl in *; split; try done; try constructor.
    intros w2 Hw2. pose proof (Hk w w' x Hw E w2 Hw2) as Hw3.
    destruct (k x w2) as [w3 [e|r]]; simpl in *; split; try done; constructor.
  Qed.
End SchedLemmas.

Section HandlerLemmas.
  Context {L : Type} `{Gateway L}.

Lemma frame_wf_tontines {A} (c : st (world L) A) :
    (forall ft, st_preserves (tontines_file_is ft) c) -> st_preserves wf_world c.
  Proof. intros Hc w Hw. unfold wf_world. by rewrite (Hc _ w eq_refl). Qed.

Lemma join_tontine_read_pure tid u (w w' : world L) r :
    join_tontine_read tid u w = (w', r) -> w' = w.
  Proof. unfold join_tontine_read, tontines_exist, load_tontines. intros Hrun. by st_run. Qed.

Lemma join_tontine_read_snapshot tid u (w w' : world L) ts t :
    join_tontine_read tid u w = (w', inr (inr (ts, t))) ->
    w_tontines w = FJson ts /\ find (id_is tid) ts = Some t /\ str_includes (t_members t) u = false.
  Proof.
    unfold join_tontine_read, tontines_exist, load_tontines, read_strict. intros Hrun. by st_run.
  Qed.

Lemma create_tontine_read_snapshot n (w w' : world L) ts :
    create_tontine_read n w = (w', inr (inr ts)) ->
    (w_tontines w = FJson ts \/ (w_tontines w = FMissing /\ ts = [])) /\ name_taken n ts = false.
  Proof.
    unfold create_tontine_read, tontines_exist, load_tontines, write_tontines, read_strict.
    intros Hrun. st_run; eauto.
  Qed.

Lemma create_tontine_read_wf n : st_preserves (wf_world (L:=L)) (create_tontine_read n).
  Proof.
    intros w Hw. unfold create_tontine_read, tontines_exist, load_tontines, write_tontines.
    st_simpl. destruct (w_tontines w) eqn:E; simpl; repeat case_match; simpl; try done;
      unfold wf_world; simpl; try rewrite E; try done; split; constructor.
  Qed.

Lemma join_tontine_proc_safe tid u : safe wf_world (join_tontine_proc (L:=L) tid u).
  Proof.
    destruct tid as [tid|], u as [u|]; simpl; try constructor. case_match; [constructor|].
    apply two_phase_safe.
    - intros w Hw. destruct (join_tontine_read tid u w) eqn:E. simpl.
      by rewrite (join_tontine_read_pure _ _ _ _ _ E).
    - intros w w' [ts t] Hw (Hf & Hfind & Hu)%join_tontine_read_snapshot w2 _.
      unfold wf_world in *. rewrite Hf in Hw. simpl. by eapply wf_push_member.
  Qed.

Lemma create_tontine_proc_safe n cs pw c rand now :
    safe wf_world (create_tontine_proc (L:=L) n cs pw c rand now).
  Proof.
    destruct n as [n|], cs as [cs|], pw as [pw|], c as [c|]; simpl; try constructor.
    case_match; [constructor|]. apply two_phase_safe; [apply create_tontine_read_wf|].
    intros w w' ts Hw ([Hf|[_ ->]] & Hn)%create_tontine_read_snapshot w2 _; unfold wf_world in *; simpl.
    - rewrite Hf in Hw. apply wf_append; [done|apply NoDup_singleton|].
      intros m [= <-]. by apply name_taken_names.
    - apply (wf_append []); [split; constructor|apply NoDup_singleton|]. intros m _. apply not_elem_of_nil.
  Qed.

Lemma join_tontine_read_run tid u ts t (w : world L) :
    w_tontines w = FJson ts -> find (id_is tid) ts = Some t -> ~ In u (t_members t) ->
    join_tontine_read tid u w = (w, inr (inr (ts, t))).
  Proof.
    intros Hf Hfind Hu.
    assert (Hn : str_includes (t_members t) u = false).
    { destruct (str_includes _ _) eqn:E; [|done]. by apply str_includes_spec in E. }
    unfold join_tontine_read, tontines_exist, load_tontines, st_bind, st_ret. cbn -[find str_includes].
    repeat (first [rewrite Hf | rewrite Hfind | rewrite Hn]; cbn -[find str_includes]). done.
  Qed.

Lemma join_tontine_proc_some tid u :
    tid <> "" -> u <> "" ->
    join_tontine_proc (L:=L) (Some tid) (Some u) =
      two_phase (join_tontine_read tid u) (fun '(ts, t) => commit_join tid u ts t)
                (fun _ => err 500 InternalError).
  Proof. intros Ht Hu. unfold join_tontine_proc. by rewrite !truthy_some. Qed.
  (** A commit that writes a member pushed into a well-formed snapshot
      keeps the file well formed, whatever the world it runs in. *)
Lemma commit_join_wf tid u ts t :
    wf_tontines ts -> find (id_is tid) ts = Some t -> str_includes (t_members t) u = false ->
    st_preserves (wf_world (L:=L)) (commit_join tid u ts t).
  Proof. intros Hwf Hf Hu w2 _. unfold wf_world. simpl. by eapply wf_push_member. Qed.

Lemma join_read_pure tid u (w w' : world L) r : join_read tid u w = (w', r) -> w' = w.
  Proof. unfold join_read, tontines_exist, load_tontines. intros Hrun. by st_run. Qed.

Lemma join_read_snapshot tid u (w w' : world L) ts t wd :
    join_read tid u w = (w', inr (inr (ts, t, wd))) ->
    w_tontines w = FJson ts /\ find (id_is tid) ts = Some t /\ str_includes (t_members t) u = false.
  Proof. unfold join_read, tontines_exist, load_tontines, read_strict. intros Hrun. by st_run. Qed.

Lemma join_proc_safe tid u : safe wf_world (join_proc (L:=L) tid u).
  Proof.
    destruct tid as [tid|], u as [u|]; simpl; try constructor. case_match; [constructor|].
    apply two_phase_safe.
    - intros w Hw. destruct (join_read tid u w) eqn:E. simpl. by rewrite (join_read_pure _ _ _ _ _ E).
    - intros w w' [[ts t] wd] Hw (Hf & Hfind & Hu)%join_read_snapshot.
      unfold wf_world in Hw. rewrite Hf in Hw. unfold join_commit.
      apply st_preserves_bind; [apply frame_wf_tontines; intros ft; apply trustline_add_tontines|].
      intros tr. case_match; [apply st_preserves_ret|by apply commit_join_wf].
  Qed.

Lemma createWallet_proc_safe tn d sched u now : safe wf_world (createWallet_proc (L:=L) tn d sched u now).
  Proof.
    destruct tn as [tn|], d as [d|], sched as [sched|], u as [u|]; simpl; try constructor.
    case_match; [constructor|]. apply two_phase_safe.
    - unfold createWallet_fund. apply st_preserves_bind; [|intros; apply st_preserves_ret].
      apply frame_wf_tontines. intros ft. apply createTemporaryWallet_tontines.
    - intros w w' wl _ _ w2 Hw2. unfold createWallet_commit, load_tontines, write_tontines. st_simpl.
      destruct (read_or_empty (w_tontines w2)) as [e|ts] eqn:Hrd; simpl; [exact Hw2|].
      unfold wf_world. simpl. apply wf_append; [by eapply wf_read_or_empty|apply NoDup_singleton|discriminate].
  Qed.

Lemma trigger_proc_safe dp now : safe wf_world (trigger_proc (L:=L) dp now).
  Proof.
    apply two_phase_safe; [intros w Hw; unfold trigger_read, load_tontines; st_simpl; by case_match|].
    intros w w' ts Hw Hr w2 Hw2. unfold trigger_read, load_tontines in Hr. st_simpl.
    destruct (read_or_empty (w_tontines w)) as [e|ts0] eqn:Hrd; simplify_eq/=.
    unfold trigger_commit. destruct (settle_loop dp now ts w2) as [w3 [e|[[ts' upd] rs]]] eqn:Hl;
      unfold st_bind; rewrite Hl; simpl.
    - pose proof (settle_loop_tontines dp now ts (w_tontines w2) w2 eq_refl) as Ht.
      rewrite Hl in Ht. unfold wf_world. simpl in Ht. unfold tontines_file_is in Ht. by rewrite Ht.
    - destruct upd; simpl; unfold wf_world; simpl.
      + eapply wf_settled; [eapply settle_loop_settled; exact Hl|]. eapply wf_read_or_empty; [exact Hw|exact Hrd].
      + pose proof (settle_loop_tontines dp now ts (w_tontines w2) w2 eq_refl) as Ht.
        rewrite Hl in Ht. unfold tontines_file_is in Ht. simpl in Ht. by rewrite Ht.
  Qed.
End HandlerLemmas.

Section LedgerRefinement.
  Context {L : Type} `{Gateway L}.
  Variable date_parse : string -> option Z.

Lemma join_proc_refines tid u (w : world L) :
    exists w' r, join tid u w = (w', inr r) /\ sched [0; 0] [join_proc tid u] w = (w', [Done r]).
  Proof.
    destruct tid as [tid|], u as [u|]; [|eauto..].
    unfold join, join_proc, two_phase, join_read, join_commit, tontines_exist, load_tontines, truthy,
      st_catch, st_bind, st_ret, st_throw.
    destruct (String.eqb tid ""), (String.eqb u ""); cbn -[trustline_add commit_join]; [eauto..|].
    destruct (w_tontines w) as [| | |ts] eqn:Ef; cbn -[trustline_add commit_join]; rewrite ?Ef;
      cbn -[trustline_add commit_join]; [eauto..|].
    destruct (find (id_is tid) ts) as [t|]; cbn -[trustline_add commit_join]; [|eauto].
    destruct (str_includes _ u); cbn -[trustline_add commit_join]; [eauto|].
    destruct (t_wallet t) as [wd|]; cbn -[trustline_add commit_join]; [|eauto].
    destruct (trustline_add _ _ w) as [w1 [e|tr]]; cbn -[commit_join]; [eauto|].
    destruct (resp_ok tr); cbn -[commit_join]; [|eauto].
    unfold commit_join, write_tontines. cbn. eauto.
  Qed.

Lemma createWallet_proc_refines tn d sc u now (w : world L) :
    exists w' r, createWallet tn d sc u now w = (w', inr r) /\
                 sched [0; 0] [createWallet_proc tn d sc u now] w = (w', [Done r]).
  Proof.
    destruct tn as [tn|], d as [d|], sc as [sc|], u as [u|]; try by eauto.
    unfold createWallet, createWallet_proc, two_phase, createWallet_fund, createWallet_commit,
      load_tontines, write_tontines, truthy, st_catch, st_bind, st_ret.
    destruct (String.eqb tn ""), (String.eqb d ""), (String.eqb sc ""), (String.eqb u "");
      cbn -[createTemporaryWallet new_wallet_tontine]; [eauto..|].
    destruct (createTemporaryWallet w) as [w1 [e|wl]]; cbn -[new_wallet_tontine]; [eauto|].
    destruct (read_or_empty (w_tontines w1)); cbn; eauto.
  Qed.

Lemma trigger_proc_refines now (w : world L) :
    exists w' r, triggerTransfer date_parse now w = (w', inr r) /\
                 sched [0; 0] [trigger_proc date_parse now] w = (w', [Done r]).
  Proof.
    unfold triggerTransfer, trigger_proc, two_phase, trigger_read, trigger_commit, load_tontines,
      st_catch, st_bind, st_ret. cbn -[settle_loop].
    destruct (read_or_empty (w_tontines w)) as [e|ts]; cbn -[settle_loop]; [eauto|].
    destruct (settle_loop date_parse now ts w) as [w1 [e|[[ts' upd] rs]]]; cbn; [eauto|].
    destruct upd; cbn; eauto.
  Qed.
End LedgerRefinement.

Section ConcurrencyTheorems.
  Context {L : Type} `{Gateway L}.

  (** Run alone, the two phases of [join-tontine] do what the sequential
      handler [join_tontine] does: same world, same answer. *)
Lemma join_tontine_proc_refines tid u (w : world L) :
    exists w' r, join_tontine tid u w = (w', inr r) /\
                 sched [0; 0] [join_tontine_proc tid u] w = (w', [Done r]).
  Proof.
    destruct tid as [tid|], u as [u|]; [|eauto..].
    unfold join_tontine, join_tontine_proc, two_phase, join_tontine_read, commit_join,
      tontines_exist, load_tontines, write_tontines, truthy, st_catch, st_bind, st_ret.
    destruct (String.eqb tid ""), (String.eqb u ""); cbn; [eauto..|].
    destruct (w_tontines w) as [| | |ts] eqn:Ef; cbn; rewrite ?Ef; cbn; [eauto..|].
    destruct (find (id_is tid) ts); cbn; [|eauto]. destruct (str_includes _ u); cbn; eauto.
  Qed.

  (** Run alone, the two phases of [create-tontine] do what the sequential
      handler [create_tontine] does. *)
Lemma create_tontine_proc_refines n cs pw c rand now (w : world L) :
    exists w' r, create_tontine n cs pw c rand now w = (w', inr r) /\
                 sched [0; 0] [create_tontine_proc n cs pw c rand now] w = (w', [Done r]).
  Proof.
    destruct n as [n|], cs as [cs|], pw as [pw|], c as [c|]; try by eauto.
    unfold create_tontine, create_tontine_proc, two_phase, create_tontine_read, create_tontine_commit,
      tontines_exist, load_tontines, write_tontines, truthy, st_catch, st_bind, st_ret.
    destruct (String.eqb n ""), (String.eqb cs ""), (String.eqb pw ""), (String.eqb c "");
      cbn -[new_named_tontine]; [eauto..|].
    destruct (w_tontines w) as [| | |ts] eqn:Ef; cbn -[new_named_tontine]; rewrite ?Ef; cbn -[new_named_tontine];
      try destruct (name_taken n _); cbn -[new_named_tontine]; eauto.
  Qed.

  (** C5: Lost update (scenario D of the spec): two [join-tontine]
      requests for the same record by different users, both reading
      [tontines.json] before either writes, both answer 200 with their user
      in the record, but the file ends with the second user only: the first
      membership is lost. *)
Theorem join_tontine_lost_update tid u1 u2 ts t (w : world L) :
    w_tontines w = FJson ts -> find (id_is tid) ts = Some t ->
    ~ In u1 (t_members t) -> ~ In u2 (t_members t) -> u1 <> u2 ->
    tid <> "" -> u1 <> "" -> u2 <> "" ->
    let '(w', ps) := sched [0; 1; 0; 1] [join_tontine_proc (Some tid) (Some u1);
                                          join_tontine_proc (Some tid) (Some u2)] w in
    ps = [Done (mk_resp 200 (BJoined (push_member u1 t)));
          Done (mk_resp 200 (BJoined (push_member u2 t)))] /\
    w_tontines w' = FJson (update_first (id_is tid) (push_member u2) ts) /\
    find (id_is tid) (update_first (id_is tid) (push_member u2) ts) = Some (push_member u2 t) /\
    ~ In u1 (t_members (push_member u2 t)).
  Proof.
    intros Hf Hfind Hu1 Hu2 Hne Ht Hn1 Hn2.
    rewrite !join_tontine_proc_some by done.
    unfold sched, resume, two_phase. cbn -[join_tontine_read commit_join].
    rewrite (join_tontine_read_run tid u1 ts t) by done. cbn -[join_tontine_read commit_join].
    rewrite (join_tontine_read_run tid u2 ts t) by done.
    unfold commit_join, write_tontines, st_bind, st_ret. cbn -[update_first push_member].
    split_and!; try done.
    - apply find_update_first; [done|]. apply find_some in Hfind as [_ Hid]. exact Hid.
    - simpl. intros [Hin|[Hin|[]]]%in_app_or; [done|congruence].
  Qed.

  (** C3: Whatever the interleaving of any number of [join-tontine] and
      [create-tontine] requests, [tontines.json] stays well formed: every
      commit writes a list computed from a well-formed snapshot, so no
      schedule produces two records with one [name] or a member listed
      twice (members can be lost, C3, but not duplicated). *)
Theorem interleavings_preserve_wf dp (s : list nat) (rs : list request) (w : world L) :
    wf_world w -> wf_world (sched s (map (start dp) rs) w).1.
  Proof.
    intros Hw. apply sched_safe; [done|]. apply Forall_map, Forall_forall.
    intros [tid u|n cs pw c rand now|tid u|tn d sc u now|now] _; simpl;
      auto using join_tontine_proc_safe, create_tontine_proc_safe, join_proc_safe,
        createWallet_proc_safe, trigger_proc_safe.
  Qed.
End ConcurrencyTheorems.

Section Interference.
  Context {L : Type} `{Gateway L}.
  Variable date_parse : string -> option Z.

  (** Refinement of the sequential handlers by their cut versions: run
      alone, each of the five requests that write [tontines.json]
      ([join-tontine], [create-tontine], [join], [createWallet],
      [triggerTransfer]) cut at its awaits ends in the world and with the
      answer of the sequential handler, on every input. *)
Theorem procs_refine_handlers (q : request) (w : world L) :
    exists w' r, sched [0; 0] [start date_parse q] w = (w', [Done r]) /\
      match q with
      | RJoin tid u => join_tontine tid u w = (w', inr r)
      | RCreate n cs pw c rand now => create_tontine n cs pw c rand now w = (w', inr r)
      | RJoinTrust tid u => join tid u w = (w', inr r)
      | RCreateWallet tn d sc u now => createWallet tn d sc u now w = (w', inr r)
      | RTrigger now => triggerTransfer date_parse now w = (w', inr r)
      end.
  Proof.
    destruct q as [tid u|n cs pw c rand now|tid u|tn d sc u now|now]; simpl;
      [ destruct (join_tontine_proc_refines tid u w) as (w' & r & ? & ?)
      | destruct (create_tontine_proc_refines n cs pw c rand now w) as (w' & r & ? & ?)
      | destruct (join_proc_refines tid u w) as (w' & r & ? & ?)
      | destruct (createWallet_proc_refines tn d sc u now w) as (w' & r & ? & ?)
      | destruct (trigger_proc_refines date_parse now w) as (w' & r & ? & ?) ]; eauto.
  Qed.

  (** C23: A join interleaved with a settlement pass reverts the pass's
      completion (the spec's P3 does not hold under concurrency): the pass
      reads [tontines.json], a [join-tontine] reads it too, the pass pays
      the due record and writes it [completed], then the join writes its
      snapshot with the new member, in which the record is [active] again.
      Both answer 200; the pass reports the payment. *)
Theorem completion_reverted_by_join now (w : world L) pre t post wd ls classic dest l' rcpt tid u :
    w_tontines w = FJson (pre ++ t :: post) ->
    Forall (fun x => is_due date_parse now x = false) (pre ++ post) ->
    is_due date_parse now t = true -> t_wallet t = Some wd -> t_destination t = Some dest ->
    gw_account_lines (w_ledger w) (w_address wd) = inr ls ->
    js_le0 (parseFloat (balance_of rlusd_line_service ls)) = false ->
    gw_from_seed (w_secret wd) = inr classic ->
    gw_submit (w_ledger w) (w_secret wd) (rlusd_payment classic dest (balance_of rlusd_line_service ls)) =
      (l', inr rcpt) ->
    tr_result rcpt = tesSUCCESS ->
    find (id_is tid) (pre ++ t :: post) = Some t -> ~ In u (t_members t) -> tid <> "" -> u <> "" ->
    let '(w', ps) := sched [0; 1; 0; 1] [trigger_proc date_parse now; join_tontine_proc (Some tid) (Some u)] w in
    ps = [Done (mk_resp 200 (BTransfers [mk_result (t_id t) Completed rcpt]));
          Done (mk_resp 200 (BJoined (push_member u t)))] /\
    w_tontines w' = FJson (update_first (id_is tid) (push_member u) (pre ++ t :: post)) /\
    find (id_is tid) (update_first (id_is tid) (push_member u) (pre ++ t :: post)) = Some (push_member u t) /\
    t_status (push_member u t) = Some Active.
  Proof.
    intros Hf Hnd Hd Hw Hdest Hls Hpos Hseed Hsub Hok Hfind Hu Ht Hn.
    destruct (process_tontine_funded_run date_parse now t wd w ls classic dest l' rcpt Hd Hw Hls Hpos
                Hseed Hdest Hsub Hok) as [w1 Hp].
    rewrite join_tontine_proc_some by done.
    unfold sched, resume, two_phase. cbn -[join_tontine_read commit_join trigger_read trigger_commit].
    assert (Hr : trigger_read (L:=L) w = (w, inr (inr (pre ++ t :: post)))).
    { unfold trigger_read, load_tontines. st_simpl. by rewrite Hf. }
    rewrite Hr. cbn -[join_tontine_read commit_join trigger_commit].
    rewrite (join_tontine_read_run tid u (pre ++ t :: post) t) by done.
    cbn -[commit_join trigger_commit].
    unfold trigger_commit, st_bind at 1. rewrite (settle_loop_single_due date_parse now pre t post w w1 _ Hnd Hp).
    unfold commit_join, write_tontines, st_bind, st_ret. cbn -[update_first push_member].
    split_and!; try done.
    - apply find_update_first; [done|]. apply find_some in Hfind as [_ Hid]. exact Hid.
    - simpl. by apply (is_due_active date_parse now).
  Qed.
End Interference.

Module ConcurrencyScenarios.
  Import SimLedger Fixtures SettlementScenarios MembershipScenarios.

Lemma join_tontine_lost_update_witness :
    let '(w', ps) := sched [0; 1; 0; 1] [join_tontine_proc (Some "1") (Some "u2");
                                          join_tontine_proc (Some "1") (Some "u3")] w_join in
    ps = [Done (mk_resp 200 (BJoined (push_member "u2" pool_rec)));
          Done (mk_resp 200 (BJoined (push_member "u3" pool_rec)))] /\
    w_tontines w' = FJson (update_first (id_is "1") (push_member "u3") [pool_rec]) /\
    find (id_is "1") (update_first (id_is "1") (push_member "u3") [pool_rec]) =
      Some (push_member "u3" pool_rec) /\
    ~ In "u2" (t_members (push_member "u3" pool_rec)).
  Proof.
    apply (join_tontine_lost_update "1" "u2" "u3" [pool_rec] pool_rec w_join);
      try (vm_compute; reflexivity); try discriminate; simpl; intros [H|[]]; discriminate.
  Defined.

Lemma interleavings_preserve_wf_witness :
    wf_world (sched [0; 1; 2; 3; 4; 1; 0; 4; 2; 3]
                    (map (start dp) [RJoin (Some "1") (Some "u2");
                                     RCreate (Some "G") (Some "3") (Some "pw") (Some "u1") "ab" 7;
                                     RJoinTrust (Some "1") (Some "u3");
                                     RCreateWallet (Some "G2") (Some "rDest") (Some "2000") (Some "u4") 9;
                                     RTrigger 5000])
                    w_join).1.
  Proof.
    apply interleavings_preserve_wf. unfold wf_world, wf_file, wf_tontines, names_unique, members_nodup.
    vm_compute. split; repeat constructor; intros ?%list_elem_of_In; simpl in *; intuition discriminate.
  Defined.
  (** A pass at time 2000 pays the record ["1"] of [w_join] (50 RLUSD)
      while ["u2"] joins it. *)
Lemma completion_reverted_by_join_witness :
    let '(w', ps) := sched [0; 1; 0; 1] [trigger_proc dp 2000; join_tontine_proc (Some "1") (Some "u2")] w_join in
    ps = [Done (mk_resp 200 (BTransfers [mk_result (t_id pool_rec) Completed rcpt_pool]));
          Done (mk_resp 200 (BJoined (push_member "u2" pool_rec)))] /\
    w_tontines w' = FJson (update_first (id_is "1") (push_member "u2") ([] ++ pool_rec :: [])) /\
    find (id_is "1") (update_first (id_is "1") (push_member "u2") ([] ++ pool_rec :: [])) =
      Some (push_member "u2" pool_rec) /\
    t_status (push_member "u2" pool_rec) = Some Active.
  Proof.
    apply (completion_reverted_by_join dp 2000 w_join [] pool_rec [] pool_wallet [rlusd_line "50"] "rPool"
             "rDest" (fst (gw_submit (ledger0 "50") "sPool" (rlusd_payment "rPool" "rDest" "50")))
             rcpt_pool "1" "u2").
    all: first [constructor | vm_compute; reflexivity | discriminate | simpl; intros [Hx|[]]; discriminate].
  Defined.
End ConcurrencyScenarios.
