(* ===== verification/Auth.v ===== *)
(** * Auth: first-seen login by wallet address

    [POST /api/auth] ([src/src/app/api/auth/route.js]) looks the wallet
    address up in [data/users.json]; a known address gets its stored user
    back, an unknown one gets a new user [{userId: "user_" + Date.now(),
    walletAddress, sessionToken: "session_" + random}] appended to the file.
    The clock is the parameter [now], the base-36 random suffix the parameter
    [rand].  The theorems: the handler's outcome on every path, that a login
    repeated returns the same user and changes nothing, that the users file
    keeps one user per wallet address, and (a finding) that two first logins
    in the same millisecond get the same [userId]. *)

From stdpp Require Import base list strings pretty.
From Stdlib Require Import ZArith Lia.
From S2P Require Import Prelude JsValue Gateway World.

Local Open Scope st_scope.

Section Auth.
  Context {L : Type} `{Gateway L}.

Abbreviation M := (st (world L)).

  (** [users.find((u) => u.walletAddress === walletAddress)] *)
Definition wallet_is (a : string) (u : user) : bool := String.eqb (u_walletAddress u) a.

  (** The user created at lines 39-43. *)
Definition new_user (a : string) (now : Z) (rand : string) : user :=
    mk_user ("user_" +:+ pretty now) a ("session_" +:+ rand).

  (** [POST /api/auth], lines 23-65 *)
Definition auth (walletAddress : option string) (now : Z) (rand : string) : M response :=
    st_catch
      (match walletAddress with
       | Some a =>
           if negb (truthy walletAddress) then st_ret (err 400 MissingFields) else
           let! users := load_users in
           match find (wallet_is a) users with
           | Some u => st_ret (mk_resp 200 (BUser u))
           | None =>
               let u := new_user a now rand in
               do! write_users (users ++ [u]) in
               st_ret (mk_resp 200 (BUser u))
           end
       | None => st_ret (err 400 MissingFields)
       end)
      (fun _ => st_ret (err 500 InternalError)).
End Auth.

(** ** The users-file invariant *)

(** No two users share a wallet address. *)
Definition wallets_unique (us : list user) : Prop := NoDup (map u_walletAddress us).

Definition users_wf (f : file user) : Prop :=
  match f with FJson us => wallets_unique us | _ => True end.

Lemma find_wallet_none a us : find (wallet_is a) us = None -> a ∉ map u_walletAddress us.
Proof.
  intros Hf Hin. apply list_elem_of_In, in_map_iff in Hin as (u & Ha & Hu).
  apply (find_none _ _ Hf) in Hu. unfold wallet_is in Hu. rewrite Ha, String.eqb_refl in Hu.
  discriminate.
Qed.

Lemma wallets_unique_snoc us u :
  wallets_unique us -> u_walletAddress u ∉ map u_walletAddress us -> wallets_unique (us ++ [u]).
Proof.
  unfold wallets_unique. intros Hu Hn. rewrite map_app. simpl.
  apply NoDup_app. split_and!; [done| |by apply NoDup_singleton].
  intros x Hx ->%list_elem_of_singleton. contradiction.
Qed.

Section AuthTheorems.
  Context {L : Type} `{Gateway L}.

  (** Every outcome of a login with a non-empty address. *)
Lemma auth_cases a now rand (w w' : world L) r :
    a <> "" -> auth (Some a) now rand w = (w', r) ->
    (w' = w /\ r = inr (err 500 InternalError) /\ read_users (w_users w) = inl ESyntax) \/
    (exists us u, read_users (w_users w) = inr us /\ find (wallet_is a) us = Some u /\
                  w' = w /\ r = inr (mk_resp 200 (BUser u))) \/
    (exists us, read_users (w_users w) = inr us /\ find (wallet_is a) us = None /\
                w' = mk_world (w_tontines w) (FJson (us ++ [new_user a now rand])) (w_ledger w)
                       (w_log w ++ [EvWriteUsers (us ++ [new_user a now rand])]) /\
                r = inr (mk_resp 200 (BUser (new_user a now rand)))).
  Proof.
    intros Ha. unfold auth, load_users, write_users. rewrite truthy_some by done.
    unfold st_catch, st_bind, st_ret. cbn -[find new_user].
    destruct (read_users (w_users w)) as [e|us] eqn:Hr; cbn -[find new_user].
    - intros [= <- <-]. left. destruct (w_users w); simplify_eq/=; auto.
    - destruct (find (wallet_is a) us) eqn:Hf; intros [= <- <-]; right; [left|right]; eauto 10.
  Qed.

  (** C30: A login is idempotent: once [auth] has answered 200 with a user
      for an address, the same request answers with the same user and
      changes nothing, whatever the clock and the random suffix are then. *)
Theorem auth_idempotent a now rand now' rand' (w w1 : world L) u :
    auth (Some a) now rand w = (w1, inr (mk_resp 200 (BUser u))) ->
    auth (Some a) now' rand' w1 = (w1, inr (mk_resp 200 (BUser u))).
  Proof.
    intros Hrun. destruct (String.eqb_spec a "") as [->|Ha].
    { revert Hrun. unfold auth, truthy. cbn. congruence. }
    apply (auth_cases _ _ _ _ _ _ Ha) in Hrun as [(_ & Hr & _)|[(us & u' & Hr & Hf & -> & [= ->])|
                                               (us & Hr & Hf & -> & [= Hu])]]; [discriminate| |].
    - unfold auth, load_users. rewrite truthy_some by done.
      unfold st_catch, st_bind, st_ret. cbn -[find]. rewrite Hr. cbn -[find]. by rewrite Hf.
    - unfold auth, load_users. rewrite truthy_some by done.
      unfold st_catch, st_bind, st_ret. cbn -[find new_user].
      subst u. rewrite find_app, Hf. unfold find, wallet_is, new_user, u_walletAddress. by rewrite String.eqb_refl.
  Qed.

  (** C31: [users.json] keeps at most one user per wallet address under
      [auth], on every path: a new user is only appended for an address no
      user has. *)
Theorem auth_preserves_wallets_unique wa now rand :
    st_preserves (fun w : world L => users_wf (w_users w)) (auth wa now rand).
  Proof.
    intros w Hw. destruct (auth wa now rand w) as [w' r] eqn:E. simpl.
    destruct wa as [a|]; [|revert E; unfold auth; st_simpl; congruence].
    destruct (String.eqb_spec a "") as [->|Ha].
    { revert E. unfold auth, truthy. st_simpl. congruence. }
    apply (auth_cases _ _ _ _ _ _ Ha) in E as [(-> & _)|[(_ & _ & _ & _ & -> & _)|(us & Hr & Hf & -> & _)]]; [done|done|].
    simpl. apply wallets_unique_snoc; [|by apply find_wallet_none].
    destruct (w_users w); simplify_eq/=; try done; constructor.
  Qed.
End AuthTheorems.

Module AuthScenarios.
  Import SimLedger Fixtures.

Definition w_auth : world sim := world_of FMissing (ledger0 "0").

Definition after_first : world sim := fst (auth (Some "rAlice") 1700 "k3x" w_auth).

Lemma auth_idempotent_witness :
    auth (Some "rAlice") 1800 "zz9" after_first =
      (after_first, inr (mk_resp 200 (BUser (new_user "rAlice" 1700 "k3x")))).
  Proof.
    apply (auth_idempotent "rAlice" 1700 "k3x" 1800 "zz9" w_auth after_first).
    vm_compute. reflexivity.
  Defined.

  (** The [userId] is not unique: two first logins of different
      wallets in the same millisecond are both stored, under the same
      [userId] ["user_1700"]. *)
Example auth_userId_collision :
    let w2 := fst (auth (Some "rBob") 1700 "q7" after_first) in
    w_users w2 = FJson [new_user "rAlice" 1700 "k3x"; new_user "rBob" 1700 "q7"] /\
    u_userId (new_user "rAlice" 1700 "k3x") = u_userId (new_user "rBob" 1700 "q7") /\
    "rAlice" <> "rBob".
  Proof. split_and!; [vm_compute; reflexivity | reflexivity | discriminate]. Qed.
End AuthScenarios.
