(* ===== verification/Bounds.v ===== *)
(** * Bounds: how many ledger calls a handler makes

    With the cost calculus of [Cost]: the handlers that only read or write
    the files ([create-tontine], [join-tontine], [auth], [tontines/list],
    [tontines/details]) never call the ledger; [createWallet] submits at
    most one transaction in at most four calls; [join] at most one in two.
    The settlement's bound, one payment and three calls per due record, is
    proved in [Settlement].  The scenarios show that the bounds are
    reached. *)

From stdpp Require Import base list strings.
From Stdlib Require Import ZArith Lia.
From S2P Require Import Prelude JsValue Gateway World XrplService Cost Settlement Membership Auth.

Local Open Scope st_scope.

Section HandlerBounds.
  Context {L : Type} `{Gateway L}.

  (** C21: The ledger calls of the other handlers, on every path: the
      routes that only read or write the files ([create-tontine],
      [join-tontine], [auth], [tontines/list], [tontines/details]) never
      call the ledger; [createWallet] submits at most one transaction (the
      TrustSet of the fresh wallet) in at most four calls (funding, two
      line queries, the TrustSet); [join] submits at most one transaction
      in at most two calls (the line query and the TrustSet of
      [trustline/add]). *)
Theorem handlers_ledger_bounds n cs pw c rand now tn d sched u tid uid a :
    within (L:=L) 0 0 (create_tontine n cs pw c rand now) /\
    within (L:=L) 0 0 (join_tontine tid uid) /\
    within (L:=L) 0 0 (auth a now rand) /\
    within (L:=L) 0 0 (list_tontines uid) /\
    within (L:=L) 0 0 (tontine_details tid) /\
    within (L:=L) 1 4 (createWallet tn d sched u now) /\
    within (L:=L) 1 2 (join tid uid).
  Proof.
    split_and!;
      unfold create_tontine, join_tontine, auth, list_tontines, tontine_details, createWallet, join, commit_join;
      cost.
  Qed.
End HandlerBounds.

Module BoundScenarios.
  Import SimLedger Fixtures SettlementScenarios.

  (** The bounds are reached: a pass over two due records, the second of
      which the ledger refuses, makes two payments and six ledger calls
      before it answers 500. *)
Example settlement_bound_reached :
    let w' := (triggerTransfer dp 2000 w_two).1 in
    n_submits (w_log w') = 2 /\ n_calls (w_log w') = 6 /\
    due_count dp 2000 [pool_rec; rec_of "2" (mk_wallet "rPool2" "sPool2") "rNoLine" "1000"] = 2.
  Proof. vm_compute. split_and!; reflexivity. Qed.

  (** [createWallet] on a ledger that funds a fresh wallet: the funding,
      the line query, the TrustSet and the second query. *)
Example createWallet_bound_reached :
    let w' := (createWallet (Some "G") (Some "rDest") (Some "1000") (Some "u1") 0 fund_world).1 in
    n_submits (w_log w') = 1 /\ n_calls (w_log w') = 4.
  Proof. vm_compute. split; reflexivity. Qed.
End BoundScenarios.
