(* ===== verification/TontineLib.v ===== *)
(** * The in-memory classes [Tontine], [TontineUser] and [TontineMaster]

    [src/src/lib/tontine.js], [src/src/lib/tontineUser.js] and
    [src/BCI/src/lib/tontineMaster.js] keep their state in JavaScript objects
    used as maps: [this.members = {}] keyed by user id, [this.tontines = {}]
    keyed by tontine id.  They are modelled as stdpp [gmap]s of the object's
    own properties.  A read [obj[k]] of such an object also finds the
    properties every object inherits from [Object.prototype]
    ([obj["constructor"]], [obj["toString"]], ...), which are truthy
    functions (or, for ["__proto__"], the prototype object itself):
    [js_present] is the source's test [if (this.members[userId])], with the
    inherited names written out in [inherited].

    A method that throws returns [inl] of the error it throws; one that
    mutates [this] returns the new object.  The amount a member pledges is
    stored and never read: its type is a parameter [A].  [atmCycle] is a
    JavaScript number incremented by one; it is kept as [Z] (it stays exact
    below 2^53 increments). *)

From stdpp Require Import base gmap list strings pretty.
From Stdlib Require Import ZArith Lia.
From S2P Require Import Prelude.

(** The own-or-inherited property names of an empty object literal that
    [obj[k]] finds in [Object.prototype]. *)
Definition inherited_names : list string :=
  ["constructor"; "hasOwnProperty"; "isPrototypeOf"; "propertyIsEnumerable";
   "toLocaleString"; "toString"; "valueOf"; "__proto__"; "__defineGetter__";
   "__defineSetter__"; "__lookupGetter__"; "__lookupSetter__"].

Definition inherited (k : string) : bool := str_includes inherited_names k.

(** [if (obj[k])] for an object whose own values are all objects. *)
Definition js_present {V} (m : gmap string V) (k : string) : bool :=
  bool_decide (is_Some (m !! k)) || inherited k.

(** The errors the classes throw. *)
Inductive lib_err :=
  | ErrAlreadyMember      (** "L'utilisateur est deja membre." *)
  | ErrNotMember          (** "L'utilisateur n'est pas membre." *)
  | ErrNotFound           (** "Tontine introuvable." *)
  | ErrTypeError.         (** calling a method an inherited value lacks *)

#[export] Instance lib_err_eq_dec : EqDecision lib_err.
Proof. solve_decision. Defined.

(** ** [class Tontine] *)

Module Tontine.
Section Tontine.
  Context {A : Type}.

  (** [{ amount, hasPaid }] *)
Record member := mk_member { m_amount : A; m_hasPaid : bool }.

Record t := mk {
    id : option string;
    name : option string;
    masterId : option string;
    members : gmap string member;
    cycleState : string;
    atmCycle : Z;
  }.

  (** [constructor(id, name, masterId)], lines 2-9 *)
Definition new (i n mid : option string) : t := mk i n mid ∅ "active" 0.

Definition with_members (x : t) (ms : gmap string member) : t :=
    mk (id x) (name x) (masterId x) ms (cycleState x) (atmCycle x).

  (** [addMember(userId, amount)], lines 11-16 *)
Definition addMember (x : t) (userId : string) (amount : A) : lib_err + t :=
    if js_present (members x) userId then inl ErrAlreadyMember
    else inr (with_members x (<[userId := mk_member amount false]> (members x))).

  (** [removeMember(userId)], lines 18-23: [delete] of a name that is only
      inherited removes nothing. *)
Definition removeMember (x : t) (userId : string) : lib_err + t :=
    if negb (js_present (members x) userId) then inl ErrNotMember
    else inr (with_members x (delete userId (members x))).

  (** [markPayment(userId)], lines 25-30: for an inherited name the write
      [hasPaid = true] lands on the shared built-in, not on this tontine. *)
Definition markPayment (x : t) (userId : string) : lib_err + t :=
    if negb (js_present (members x) userId) then inl ErrNotMember
    else match members x !! userId with
         | Some m => inr (with_members x (<[userId := mk_member (m_amount m) true]> (members x)))
         | None => inr x
         end.

  (** [checkAllPaid()], lines 32-34 *)
Definition checkAllPaid (x : t) : bool :=
    forallb (fun km => m_hasPaid km.2) (map_to_list (members x)).

  (** [resetCycle()], lines 36-41 *)
Definition resetCycle (x : t) : t :=
    mk (id x) (name x) (masterId x) ((fun m => mk_member (m_amount m) false) <$> members x)
       (cycleState x) (atmCycle x + 1).

  (** No own member key is an inherited name: the only keys [addMember]
      ever inserts. *)
Definition wf (x : t) : Prop := map_Forall (fun k _ => inherited k = false) (members x).
End Tontine.
Arguments member : clear implicits.
Arguments t : clear implicits.
End Tontine.

(** ** [class TontineUser] *)

Module TontineUser.
Record t := mk {
    userId : string;
    name : string;
    email : string;
    walletAddress : string;
    tontines : list string;
  }.

  (** [constructor(userId, name, email, walletAddress)], lines 2-8 *)
Definition new (u n e a : string) : t := mk u n e a [].

Definition with_tontines (x : t) (l : list string) : t :=
    mk (userId x) (name x) (email x) (walletAddress x) l.

  (** [joinTontine(tontineId)], lines 11-16 *)
Definition joinTontine (x : t) (tontineId : string) : lib_err + t :=
    if str_includes (tontines x) tontineId then inl ErrAlreadyMember
    else inr (with_tontines x (tontines x ++ [tontineId])).

  (** [leaveTontine(tontineId)], lines 19-21 *)
Definition leaveTontine (x : t) (tontineId : string) : t :=
    with_tontines x (filter (fun i => i <> tontineId) (tontines x)).

  (** [listTontines()], lines 24-26 *)
Definition listTontines (x : t) : list string := tontines x.
End TontineUser.

(** ** [class TontineMaster] *)

Module TontineMaster.
Section TontineMaster.
  Context {A : Type}.

Abbreviation tontine := (Tontine.t A).

Record t := mk {
    masterId : string;
    tontines : gmap string tontine;
  }.

  (** [constructor(masterId)], lines 4-7 *)
Definition new (mid : string) : t := mk mid ∅.

  (** [createTontine(name)], lines 9-14; [Date.now()] is [now]. *)
Definition createTontine (x : t) (name : string) (now : Z) : t * tontine :=
    let tontineId := "tontine_" +:+ pretty now in
    let tn := Tontine.new (Some tontineId) (Some name) (Some (masterId x)) in
    (mk (masterId x) (<[tontineId := tn]> (tontines x)), tn).

  (** The guard [if (!this.tontines[tontineId]) throw] and the lookup that
      follows it: an inherited name passes the guard and the method call on
      the built-in then throws a [TypeError]. *)
Definition find_tontine (x : t) (tontineId : string) : lib_err + tontine :=
    match tontines x !! tontineId with
    | Some tn => inr tn
    | None => if inherited tontineId then inl ErrTypeError else inl ErrNotFound
    end.

Definition store (x : t) (tontineId : string) (tn : tontine) : t :=
    mk (masterId x) (<[tontineId := tn]> (tontines x)).

  (** [addUserToTontine(tontineId, userId, amount)], lines 16-21 *)
Definition addUserToTontine (x : t) (tontineId userId : string) (amount : A) : lib_err + t :=
    match find_tontine x tontineId with
    | inl e => inl e
    | inr tn =>
        match Tontine.addMember tn userId amount with
        | inl e => inl e
        | inr tn' => inr (store x tontineId tn')
        end
    end.

  (** [removeUserFromTontine(tontineId, userId)], lines 23-28 *)
Definition removeUserFromTontine (x : t) (tontineId userId : string) : lib_err + t :=
    match find_tontine x tontineId with
    | inl e => inl e
    | inr tn =>
        match Tontine.removeMember tn userId with
        | inl e => inl e
        | inr tn' => inr (store x tontineId tn')
        end
    end.

  (** The two messages [validatePayments] returns. *)
Inductive outcome := CycleRestarted | NotAllPaid.

  (** [validatePayments(tontineId)], lines 30-40 *)
Definition validatePayments (x : t) (tontineId : string) : lib_err + (t * outcome) :=
    match find_tontine x tontineId with
    | inl e => inl e
    | inr tn =>
        if Tontine.checkAllPaid tn
        then inr (store x tontineId (Tontine.resetCycle tn), CycleRestarted)
        else inr (x, NotAllPaid)
    end.

  (** Every tontine is stored under its own id, belongs to this master,
      and has no inherited name among its member keys. *)
Definition wf (x : t) : Prop :=
    map_Forall (fun k tn => Tontine.id tn = Some k /\ Tontine.masterId tn = Some (masterId x) /\
                            Tontine.wf tn) (tontines x).
End TontineMaster.
Arguments t : clear implicits.
End TontineMaster.

(** [POST /api/add-member] ([src/BCI/src/app/api/add-member/route.js],
    lines 9-18): a fresh [new Tontine()] gets the member; [tontineId] is read
    and not used, and nothing is stored. *)
Definition add_member_route {A} (tontineId : option string) (userId : string) (amount : A)
  : lib_err + Tontine.t A :=
  Tontine.addMember (Tontine.new None None None) userId amount.

(** ** Lemmas *)

Lemma js_present_false {V} (m : gmap string V) k :
  js_present m k = false <-> m !! k = None /\ inherited k = false.
Proof.
  unfold js_present. rewrite orb_false_iff, bool_decide_eq_false, <- eq_None_not_Some. done.
Qed.

Lemma js_present_insert {V} (m : gmap string V) k v : js_present (<[k := v]> m) k = true.
Proof. unfold js_present. rewrite bool_decide_eq_true_2; [done|]. by rewrite lookup_insert_eq. Qed.

Section TontineLemmas.
  Context {A : Type}.
  Implicit Types x : Tontine.t A.

Lemma with_members_id x : Tontine.with_members x (Tontine.members x) = x.
  Proof. by destruct x. Qed.

Lemma wf_with_members x ms :
    map_Forall (fun k _ => inherited k = false) ms -> Tontine.wf (Tontine.with_members x ms).
  Proof. done. Qed.

Lemma checkAllPaid_spec x :
    Tontine.checkAllPaid x = true <-> map_Forall (fun _ m => Tontine.m_hasPaid m = true) (Tontine.members x).
  Proof.
    unfold Tontine.checkAllPaid. rewrite forallb_forall, map_Forall_to_list, Forall_forall.
    split; intros Hm [k m] Hin; [apply (Hm (k, m)), list_elem_of_In, Hin|].
    apply (Hm (k, m)), list_elem_of_In, Hin.
  Qed.

Lemma addMember_ok x u a x' :
    Tontine.addMember x u a = inr x' ->
    Tontine.members x !! u = None /\ inherited u = false /\
    x' = Tontine.with_members x (<[u := Tontine.mk_member a false]> (Tontine.members x)).
  Proof.
    unfold Tontine.addMember. destruct (js_present _ u) eqn:E; [discriminate|].
    apply js_present_false in E as [? ?]. intros [= <-]. done.
  Qed.

Lemma addMember_wf x u a x' : Tontine.wf x -> Tontine.addMember x u a = inr x' -> Tontine.wf x'.
  Proof.
    intros Hw (_ & Hu & ->)%addMember_ok. by apply wf_with_members, map_Forall_insert_2.
  Qed.

Lemma removeMember_wf x u x' : Tontine.wf x -> Tontine.removeMember x u = inr x' -> Tontine.wf x'.
  Proof.
    unfold Tontine.removeMember. destruct (negb _); [discriminate|]. intros Hw [= <-].
    by apply wf_with_members, map_Forall_delete.
  Qed.

Lemma markPayment_wf x u x' : Tontine.wf x -> Tontine.markPayment x u = inr x' -> Tontine.wf x'.
  Proof.
    unfold Tontine.markPayment. destruct (negb _); [discriminate|].
    destruct (Tontine.members x !! u) eqn:E; intros Hw [= <-]; [|done].
    apply wf_with_members, map_Forall_insert_2; [|done]. exact (Hw u _ E).
  Qed.

Lemma resetCycle_wf x : Tontine.wf x -> Tontine.wf (Tontine.resetCycle x).
  Proof. intros Hw. unfold Tontine.wf. simpl. by apply map_Forall_fmap. Qed.
End TontineLemmas.

#[export] Hint Resolve addMember_wf removeMember_wf markPayment_wf resetCycle_wf : tontine.

Section MasterLemmas.
  Context {A : Type}.
  Implicit Types x : TontineMaster.t A.

Lemma with_members_twice (tn : Tontine.t A) ms1 ms2 :
    Tontine.with_members (Tontine.with_members tn ms1) ms2 = Tontine.with_members tn ms2.
  Proof. done. Qed.

Lemma find_tontine_ok x k tn :
    TontineMaster.find_tontine x k = inr tn -> TontineMaster.tontines x !! k = Some tn.
  Proof.
    unfold TontineMaster.find_tontine.
    destruct (_ !! k); [congruence|]. by destruct (inherited k).
  Qed.

  (** Storing back a tontine with the same id and master keeps the
      master well formed. *)
Lemma store_wf x k tn tn' :
    TontineMaster.wf x -> TontineMaster.tontines x !! k = Some tn ->
    Tontine.id tn' = Tontine.id tn -> Tontine.masterId tn' = Tontine.masterId tn -> Tontine.wf tn' ->
    TontineMaster.wf (TontineMaster.store x k tn').
  Proof.
    intros Hw Hk Hid Hm Hwf. apply map_Forall_insert_2; [|done].
    destruct (Hw k tn Hk) as (? & ? & _). rewrite Hid, Hm. done.
  Qed.

Lemma createTontine_wf x n now : TontineMaster.wf x -> TontineMaster.wf (TontineMaster.createTontine x n now).1.
  Proof.
    intros Hw. apply map_Forall_insert_2; [|done]. split_and!; [done|done|apply map_Forall_empty].
  Qed.

Lemma addUserToTontine_wf x k u a x' :
    TontineMaster.wf x -> TontineMaster.addUserToTontine x k u a = inr x' -> TontineMaster.wf x'.
  Proof.
    unfold TontineMaster.addUserToTontine. intros Hw.
    destruct (TontineMaster.find_tontine x k) as [e|tn] eqn:Hf; [discriminate|].
    apply find_tontine_ok in Hf. destruct (Tontine.addMember tn u a) as [e|tn'] eqn:Ha; [discriminate|].
    intros [= <-]. pose proof Ha as (_ & _ & ->)%addMember_ok.
    eapply store_wf; [done|done|done|done|]. eapply addMember_wf; [|exact Ha]. apply (Hw k tn Hf).
  Qed.

Lemma removeUserFromTontine_wf x k u x' :
    TontineMaster.wf x -> TontineMaster.removeUserFromTontine x k u = inr x' -> TontineMaster.wf x'.
  Proof.
    unfold TontineMaster.removeUserFromTontine. intros Hw.
    destruct (TontineMaster.find_tontine x k) as [e|tn] eqn:Hf; [discriminate|].
    apply find_tontine_ok in Hf. destruct (Tontine.removeMember tn u) as [e|tn'] eqn:Hr; [discriminate|].
    intros [= <-]. eapply store_wf; [done|done| | |eapply removeMember_wf; [apply (Hw k tn Hf)|exact Hr]];
      revert Hr; unfold Tontine.removeMember; destruct (negb _); intros [= <-]; done.
  Qed.

Lemma validatePayments_wf x k x' o :
    TontineMaster.wf x -> TontineMaster.validatePayments x k = inr (x', o) -> TontineMaster.wf x'.
  Proof.
    unfold TontineMaster.validatePayments. intros Hw.
    destruct (TontineMaster.find_tontine x k) as [e|tn] eqn:Hf; [discriminate|].
    apply find_tontine_ok in Hf. destruct (Tontine.checkAllPaid tn); intros [= <- <-]; [|done].
    eapply store_wf; [done|done|done|done|]. apply resetCycle_wf, (Hw k tn Hf).
  Qed.
End MasterLemmas.

#[export] Hint Resolve createTontine_wf addUserToTontine_wf removeUserFromTontine_wf
  validatePayments_wf : tontine.

Lemma filter_neq_notin (i : string) (l : list string) : i ∉ l -> filter (fun j => j <> i) l = l.
Proof.
  induction l as [|j l IH]; intros Hi; [done|]. apply not_elem_of_cons in Hi as [Hj Hl].
  rewrite filter_cons_True by congruence. by rewrite IH.
Qed.

(** ** Theorems *)

Section LibTheorems.
  Context {A : Type}.

  (** C36: [removeMember] undoes [addMember]: a member just added and then
      removed leaves the tontine exactly as it was. *)
Theorem addMember_removeMember (x x' : Tontine.t A) u a :
    Tontine.addMember x u a = inr x' -> Tontine.removeMember x' u = inr x.
  Proof.
    intros Ha. pose proof Ha as (Hn & _ & ->)%addMember_ok.
    unfold Tontine.removeMember. simpl. rewrite js_present_insert. simpl.
    rewrite with_members_twice, delete_insert_eq, delete_id by done. by rewrite with_members_id.
  Qed.

  (** C34: Every method of [TontineMaster] keeps the master well formed:
      each tontine is stored under its own id, carries this master's id,
      and has no inherited property name among its member keys. *)
Theorem master_ops_preserve_wf (x : TontineMaster.t A) n now k u a :
    TontineMaster.wf x ->
    TontineMaster.wf (TontineMaster.createTontine x n now).1 /\
    (forall x', TontineMaster.addUserToTontine x k u a = inr x' -> TontineMaster.wf x') /\
    (forall x', TontineMaster.removeUserFromTontine x k u = inr x' -> TontineMaster.wf x') /\
    (forall x' o, TontineMaster.validatePayments x k = inr (x', o) -> TontineMaster.wf x').
  Proof. intros Hw. split_and!; eauto with tontine. Qed.

  (** C35: [validatePayments] on a stored tontine either finds every member
      paid, and then starts a new cycle: the counter goes up by one, the same
      members keep their amounts, every [hasPaid] is reset and no other
      tontine changes; or finds a member who has not paid and changes
      nothing. *)
Theorem validatePayments_outcome (x x' : TontineMaster.t A) k tn o :
    TontineMaster.tontines x !! k = Some tn -> TontineMaster.validatePayments x k = inr (x', o) ->
    (o = TontineMaster.CycleRestarted /\
     map_Forall (fun _ m => Tontine.m_hasPaid m = true) (Tontine.members tn) /\
     exists tn', TontineMaster.tontines x' !! k = Some tn' /\
       Tontine.atmCycle tn' = (Tontine.atmCycle tn + 1)%Z /\
       (forall u, Tontine.m_amount <$> Tontine.members tn' !! u = Tontine.m_amount <$> Tontine.members tn !! u) /\
       map_Forall (fun _ m => Tontine.m_hasPaid m = false) (Tontine.members tn') /\
       (forall k', k' <> k -> TontineMaster.tontines x' !! k' = TontineMaster.tontines x !! k')) \/
    (o = TontineMaster.NotAllPaid /\ x' = x /\
     exists u m, Tontine.members tn !! u = Some m /\ Tontine.m_hasPaid m = false).
  Proof.
    intros Hk. unfold TontineMaster.validatePayments, TontineMaster.find_tontine. rewrite Hk.
    destruct (Tontine.checkAllPaid tn) eqn:Hc; intros [= <- <-].
    - left. split_and!; [done|by apply checkAllPaid_spec|].
      simpl. eexists. split_and!; [by rewrite lookup_insert_eq|done| |apply map_Forall_fmap; by intros ? ?|].
      + intros u. simpl. rewrite lookup_fmap. by destruct (_ !! u).
      + intros k' Hk'. by rewrite lookup_insert_ne.
    - right. split_and!; [done|done|].
      apply not_true_iff_false in Hc. rewrite checkAllPaid_spec in Hc.
      apply map_not_Forall in Hc as (u & m & Hu & Hp); [|intros ? ?; apply _].
      exists u, m. split; [done|]. by apply not_true_iff_false.
  Qed.

  (** C37: [leaveTontine] undoes [joinTontine]: after a successful join,
      leaving the same tontine gives back the user as they were. *)
Theorem joinTontine_leaveTontine (x x' : TontineUser.t) i :
    TontineUser.joinTontine x i = inr x' -> TontineUser.leaveTontine x' i = x.
  Proof.
    unfold TontineUser.joinTontine. destruct (str_includes _ i) eqn:Hi; [discriminate|].
    intros [= <-]. unfold TontineUser.leaveTontine. simpl.
    rewrite filter_app, filter_cons_False, filter_nil, app_nil_r by congruence.
    rewrite filter_neq_notin; [by destruct x|].
    intros Hj. apply list_elem_of_In, str_includes_spec in Hj. congruence.
  Qed.
End LibTheorems.

Module LibScenarios.
Definition t0 : Tontine.t nat := Tontine.new (Some "t1") (Some "Family") (Some "m1").

Definition m0 : TontineMaster.t nat := (TontineMaster.createTontine (TontineMaster.new "m1") "Family" 5).1.

  (** The tontine [createTontine] stored at time 5, with two members who
      both paid. *)
Definition m_paid : TontineMaster.t nat :=
    match TontineMaster.addUserToTontine m0 "tontine_5" "u1" 10 with
    | inr m =>
        match TontineMaster.addUserToTontine m "tontine_5" "u2" 20 with
        | inr m' =>
            match TontineMaster.find_tontine m' "tontine_5" with
            | inr tn =>
                match Tontine.markPayment tn "u1" with
                | inr tn1 =>
                    match Tontine.markPayment tn1 "u2" with
                    | inr tn2 => TontineMaster.store m' "tontine_5" tn2
                    | inl _ => m'
                    end
                | inl _ => m'
                end
            | inl _ => m'
            end
        | inl _ => m
        end
    | inl _ => m0
    end.

Lemma addMember_removeMember_witness :
    Tontine.removeMember (Tontine.with_members t0 {[ "u1" := Tontine.mk_member 10 false ]}) "u1" = inr t0.
  Proof.
    apply (addMember_removeMember t0 _ "u1" 10). vm_compute. reflexivity.
  Defined.

Lemma master_ops_preserve_wf_witness :
    let x := TontineMaster.new "m1" : TontineMaster.t nat in
    TontineMaster.wf (TontineMaster.createTontine x "Family" 5).1 /\
    (forall x', TontineMaster.addUserToTontine x "tontine_5" "u1" 10 = inr x' -> TontineMaster.wf x') /\
    (forall x', TontineMaster.removeUserFromTontine x "tontine_5" "u1" = inr x' -> TontineMaster.wf x') /\
    (forall x' o, TontineMaster.validatePayments x "tontine_5" = inr (x', o) -> TontineMaster.wf x').
  Proof. apply master_ops_preserve_wf. apply map_Forall_empty. Defined.

Lemma validatePayments_outcome_witness :
    let r := TontineMaster.validatePayments m_paid "tontine_5" in
    match r, TontineMaster.tontines m_paid !! "tontine_5" with
    | inr (x', o), Some tn =>
        (o = TontineMaster.CycleRestarted /\
         map_Forall (fun _ m => Tontine.m_hasPaid m = true) (Tontine.members tn) /\
         exists tn', TontineMaster.tontines x' !! "tontine_5" = Some tn' /\
           Tontine.atmCycle tn' = (Tontine.atmCycle tn + 1)%Z /\
           (forall u, Tontine.m_amount <$> Tontine.members tn' !! u =
                      Tontine.m_amount <$> Tontine.members tn !! u) /\
           map_Forall (fun _ m => Tontine.m_hasPaid m = false) (Tontine.members tn') /\
           (forall k', k' <> "tontine_5" -> TontineMaster.tontines x' !! k' =
                                            TontineMaster.tontines m_paid !! k')) \/
        (o = TontineMaster.NotAllPaid /\ x' = m_paid /\
         exists u m, Tontine.members tn !! u = Some m /\ Tontine.m_hasPaid m = false)
    | _, _ => False
    end.
  Proof.
    simpl. destruct (TontineMaster.validatePayments m_paid "tontine_5") as [e|[x' o]] eqn:E;
      [vm_compute in E; discriminate|].
    destruct (TontineMaster.tontines m_paid !! "tontine_5") as [tn|] eqn:Hk;
      [|vm_compute in Hk; discriminate].
    exact (validatePayments_outcome m_paid x' "tontine_5" tn o Hk E).
  Defined.

Lemma joinTontine_leaveTontine_witness :
    TontineUser.leaveTontine (TontineUser.with_tontines (TontineUser.new "u1" "Ana" "a@b" "rAna") ["t1"]) "t1" =
      TontineUser.new "u1" "Ana" "a@b" "rAna".
  Proof. apply joinTontine_leaveTontine. vm_compute. reflexivity. Defined.

  (** A user id that names a property of [Object.prototype] can never
      join: [addMember("constructor", ...)] on a tontine without members
      throws "already member", and [addUserToTontine] of the tontine id
      ["toString"] throws a [TypeError] rather than "Tontine introuvable". *)
Example inherited_names_misread :
    Tontine.addMember t0 "constructor" 1 = inl ErrAlreadyMember /\
    Tontine.members t0 = ∅ /\
    TontineMaster.addUserToTontine m0 "toString" "u1" 1 = inl ErrTypeError /\
    TontineMaster.addUserToTontine m0 "nope" "u1" 1 = inl ErrNotFound.
  Proof. split_and!; vm_compute; reflexivity. Qed.

  (** Two [createTontine] calls in the same millisecond get the same
      id, and the second replaces the first in the master's map, members
      included. *)
Example createTontine_same_ms_overwrites :
    match TontineMaster.addUserToTontine m0 "tontine_5" "u1" 10 with
    | inr m1 =>
        let '(m2, tn2) := TontineMaster.createTontine m1 "Other" 5 in
        (exists tn1, TontineMaster.tontines m1 !! "tontine_5" = Some tn1 /\
                     is_Some (Tontine.members tn1 !! "u1")) /\
        TontineMaster.tontines m2 !! "tontine_5" = Some tn2 /\ Tontine.members tn2 = ∅
    | inl _ => False
    end.
  Proof.
    vm_compute. split; [|split; reflexivity].
    eexists. split; [reflexivity|]. vm_compute. eexists. reflexivity.
  Qed.

  (** [POST /api/add-member] adds the member to a fresh [new Tontine()]
      and stores nothing: two requests for the same [tontineId] each answer
      with a tontine whose only member is the one just sent. *)
Example add_member_route_not_persisted :
    add_member_route (Some "t1") "u1" 10 = inr (Tontine.with_members (Tontine.new None None None)
                                                 {[ "u1" := Tontine.mk_member 10 false ]}) /\
    add_member_route (Some "t1") "u2" 20 = inr (Tontine.with_members (Tontine.new None None None)
                                                 {[ "u2" := Tontine.mk_member 20 false ]}).
  Proof. split; vm_compute; reflexivity. Qed.
End LibScenarios.
