(* ===== verification/WalletRoutes.v ===== *)
(** * Wallet routes: balances, trust lines and payments on request

    The routes that only talk to the ledger:
    - [GET /api/wallet?address=] ([src/BCI/src/app/api/wallet/route.js]):
      XRP balance and the RLUSD balance found with the search of
      [xrplService.js] (plain ["RLUSD"] or its hex code);
    - [POST /api/wallet/balance] ([src/src/app/api/wallet/balance/route.js]):
      the same two balances, but the RLUSD line is searched by the hex code
      only, and an address must start with ["r"];
    - [POST /api/getWalletBalance] ([src/BCI/src/app/api/getWalletBalance/route.js]):
      [getRLUSDBalance];
    - [GET /api/wallet-balance] ([src/BCI/src/app/api/wallet-balance/route.js]):
      a constant;
    - [createTrustLine] and [sendRLUSD] of [src/BCI/src/lib/xrpClient.js] and
      the routes that call them, [create-trustline], [send-rlsud] and
      [record-payment];
    - the stubs [get-tontine] and [list-tontines].
    [send-rlsud], [record-payment] and [get-tontine] are written as
    [handler(req, res)] with a method check; the method is a parameter.
    The module-level [client] of [xrpClient.js], shared by concurrent
    requests, is folded into the ledger calls like everywhere else. *)

From stdpp Require Import base list strings.
From Stdlib Require Import ZArith Lia.
From S2P Require Import Prelude JsValue Currency Gateway World XrplService.

Local Open Scope st_scope.

(** The search of [GET /api/wallet], lines 94-98: the plain code or the
    route's own [RLUSD_HEX]. *)
Definition rlusd_line_wallet (ln : line) : bool :=
  (String.eqb (ln_currency ln) "RLUSD" || String.eqb (ln_currency ln) wallet_route_RLUSD_HEX) &&
  String.eqb (to_upper (ln_account ln)) (to_upper ISSUER_ADDRESS).

Section WalletRoutes.
  Context {L : Type} `{Gateway L}.

Abbreviation M := (st (world L)).

  (** [GET /api/wallet], lines 67-127 *)
Definition wallet_get (address : option string) : M response :=
    match address with
    | Some a =>
        if negb (truthy address) then st_ret (err 400 MissingFields) else
        st_catch
          (let! xrp := xrp_balance a in
           let! ls := account_lines a in
           st_ret (mk_resp 200 (BBalances xrp (balance_of rlusd_line_wallet ls))))
          (fun _ => st_ret (err 500 BalanceError))
    | None => st_ret (err 400 MissingFields)
    end.

  (** [POST /api/wallet/balance], lines 44-98 *)
Definition wallet_balance_post (address : option string) : M response :=
    match address with
    | Some a =>
        if negb (truthy address) || negb (String.prefix "r" a) then st_ret (err 400 InvalidAddress) else
        st_catch
          (let! xrp := xrp_balance a in
           let! ls := account_lines a in
           let! hex := st_lift (balance_toHexCurrency "RLUSD") in
           st_ret (mk_resp 200 (BBalances xrp
                    (balance_of (fun ln => String.eqb (ln_currency ln) hex &&
                                           String.eqb (to_upper (ln_account ln)) (to_upper ISSUER_ADDRESS)) ls))))
          (fun _ => st_ret (err 500 BalanceError))
    | None => st_ret (err 400 InvalidAddress)
    end.

  (** [POST /api/getWalletBalance], lines 9-30 *)
Definition getWalletBalance_post (walletAddress : option string) : M response :=
    st_catch
      (match walletAddress with
       | Some a =>
           if negb (truthy walletAddress) then st_ret (err 400 MissingFields) else
           let! b := getRLUSDBalance a in
           st_ret (mk_resp 200 (BBalance b))
       | None => st_ret (err 400 MissingFields)
       end)
      (fun _ => st_ret (err 500 BalanceError)).

  (** [GET /api/wallet-balance], lines 8-25 *)
Definition wallet_balance_get : M response := st_ret (mk_resp 200 (BBalance "250.75")).

  (** [createTrustLine(account, secret, limit = "1000000")], [xrpClient.js]
      lines 22-44: [submitAndWait] answers with the ledger's result, which is
      returned whatever it is. *)
Definition createTrustLine (account secret : string) (limit : option string) : M tx_response :=
    let! _ := from_seed secret in
    submit secret (TrustSet account (mk_amount "RLUSD" ISSUER_ADDRESS (default "1000000" limit))).

  (** [sendRLUSD(account, secret, destination, amount)], lines 47-70; a
      payment without [Destination] fails the library's validation. *)
Definition sendRLUSD (account secret : string) (destination : option string) (amount : string)
    : M tx_response :=
    let! _ := from_seed secret in
    match destination with
    | None => st_throw EValidation
    | Some d => submit secret (Payment account d (mk_amount "RLUSD" ISSUER_ADDRESS amount))
    end.

  (** [POST /api/create-trustline], lines 13-22: the call passes [issuer]
      in the position of [limit]; [currency] and [limit] are dropped. *)
Definition create_trustline (account secret : string) (issuer currency limit : option string)
    : M response :=
    st_catch
      (let! r := createTrustLine account secret issuer in st_ret (mk_resp 200 (BResult r)))
      (fun e => st_ret (err 500 (LedgerError e))).

  (** [handler(req, res)] of [send-rlsud] (lines 17-30) and of
      [record-payment] (lines 18-32): [record-payment] pays the
      [tontineMaster] field. *)
Definition pay_route (method : string) (account secret : string) (destination : option string)
             (amount : string) : M response :=
    if String.eqb method "POST" then
      st_catch
        (let! r := sendRLUSD account secret destination amount in st_ret (mk_resp 200 (BResult r)))
        (fun e => st_ret (err 500 (LedgerError e)))
    else st_ret (mk_resp 405 BEmpty).

Definition send_rlsud (method account secret : string) (destination : option string) (amount : string)
    : M response := pay_route method account secret destination amount.

Definition record_payment (method payer secret : string) (tontineMaster : option string) (amount : string)
    : M response := pay_route method payer secret tontineMaster amount.

  (** [GET /api/get-tontine], lines 11-27: [const tontine = null]. *)
Definition get_tontine (method : string) (tontineId : option string) : M response :=
    if String.eqb method "GET" then st_ret (err 404 TontineNotFound) else st_ret (mk_resp 405 BEmpty).

  (** [GET /api/list-tontines], lines 8-19 *)
Definition list_tontines_stub : M response :=
    st_ret (mk_resp 200 (BStubTontines [("xrpl_001", "Tontine Entrepreneurs", 30%Z);
                                        ("rlsud_002", "Tontine Investisseurs", 15%Z)])).

  (** The first case of [src/src/app/api/list-tontines/route.test.js], lines
      5-12: [GET()] answers, [response.status] is 200, and [data.balance] is
      defined and is ['250.75'].  The second case replaces the global
      [Response] with a Jest mock and is not modelled. *)
Definition get_balance_test (get : M response) (w : world L) : bool :=
    match (get w).2 with
    | inr r => (r_status r =? 200)%Z && match r_body r with BBalance b => String.eqb b "250.75" | _ => false end
    | inl _ => false
    end.

  (** [generateTestWallet()] of [src/BCI/src/lib/xrplHelpers.js], lines
      17-22 *)
Definition generateTestWallet : M wallet := generate_fund.

  (** [createEscrow(seed, amount, finishAfter)], lines 27-45: an escrow
      from the seed's address to itself. *)
Definition createEscrow (seed amount : string) (finishAfter : Z) : M tx_response :=
    let! addr := from_seed seed in
    submit seed (EscrowCreate addr addr amount finishAfter).

  (** [finishEscrow(seed, owner, escrowSequence)], lines 50-67 *)
Definition finishEscrow (seed owner : string) (escrowSequence : Z) : M tx_response :=
    let! addr := from_seed seed in
    submit seed (EscrowFinish addr owner escrowSequence).
End WalletRoutes.

(** ** Lemmas *)

Lemma balance_toHexCurrency_RLUSD : balance_toHexCurrency "RLUSD" = inr RLUSD_HEX.
Proof. vm_compute. reflexivity. Qed.

(** The route's search is the service's. *)
Lemma rlusd_line_wallet_service : rlusd_line_wallet = rlusd_line_service.
Proof. done. Qed.

Lemma find_ext {A} (p q : A -> bool) l :
  Forall (fun x => p x = q x) l -> find p l = find q l.
Proof. induction 1 as [|x l Hx _ IH]; simpl; [done|]. by rewrite Hx, IH. Qed.

(** The two searches for the RLUSD line agree on lines whose currency is
    not the plain code ["RLUSD"]. *)
Lemma balance_hex_service ls :
  Forall (fun ln => ln_currency ln <> "RLUSD") ls ->
  balance_of rlusd_line_hex ls = balance_of rlusd_line_service ls.
Proof.
  intros Hls. unfold balance_of. rewrite (find_ext rlusd_line_hex rlusd_line_service); [done|].
  eapply Forall_impl; [exact Hls|]. intros ln Hc. unfold rlusd_line_hex, rlusd_line_service.
  by rewrite (proj2 (String.eqb_neq _ _) Hc).
Qed.

Lemma prefix_r_nonempty a : String.prefix "r" a = true -> a <> "".
Proof. by intros Hp ->. Qed.

Section WalletTheorems.
  Context {L : Type} `{Gateway L}.

  (** C38: On an address starting with ["r"] whose XRP balance and trust
      lines the ledger returns, and no line of which uses the plain code
      ["RLUSD"], the three balance routes report the same RLUSD balance:
      [GET /api/wallet] and [POST /api/wallet/balance] give the same answer,
      and [POST /api/getWalletBalance] the same RLUSD figure. *)
Theorem balance_routes_agree a (w : world L) xrp ls :
    String.prefix "r" a = true ->
    gw_xrp_balance (w_ledger w) a = inr xrp -> gw_account_lines (w_ledger w) a = inr ls ->
    Forall (fun ln => ln_currency ln <> "RLUSD") ls ->
    (wallet_get (Some a) w).2 = inr (mk_resp 200 (BBalances xrp (balance_of rlusd_line_service ls))) /\
    (wallet_balance_post (Some a) w).2 = (wallet_get (Some a) w).2 /\
    (getWalletBalance_post (Some a) w).2 = inr (mk_resp 200 (BBalance (balance_of rlusd_line_service ls))).
  Proof.
    intros Hp Hx Hl Hls. pose proof (prefix_r_nonempty a Hp) as Ha.
    unfold wallet_get, wallet_balance_post, getWalletBalance_post, getRLUSDBalance,
      xrp_balance, account_lines. rewrite truthy_some, Hp, balance_toHexCurrency_RLUSD, rlusd_line_wallet_service by done.
    unfold st_catch, st_bind, st_ret, st_lift. cbn -[RLUSD_HEX to_upper balance_of].
    rewrite Hx, Hl. cbn -[RLUSD_HEX to_upper balance_of].
    split_and!; try done. by rewrite <- balance_hex_service.
  Qed.

  (** [POST /api/create-trustline] submits at most one transaction, a
      TrustSet of the plain code ["RLUSD"] whose limit is the request's
      [issuer] field ("1000000" when absent), whatever [currency] and
      [limit] say; and it answers 200 with the ledger's result even when
      that result is not [tesSUCCESS]. *)
Theorem create_trustline_submits account secret issuer currency limit (w w' : world L) resp :
    create_trustline account secret issuer currency limit w = (w', inr resp) ->
    (exists r, resp = mk_resp 200 (BResult r) /\
       w_log w' = w_log w ++ [EvSubmit (TrustSet account
                    (mk_amount "RLUSD" ISSUER_ADDRESS (default "1000000" issuer))) (inr r)]) \/
    (exists e, resp = err 500 (LedgerError e) /\
       (w_log w' = w_log w \/
        w_log w' = w_log w ++ [EvSubmit (TrustSet account
                     (mk_amount "RLUSD" ISSUER_ADDRESS (default "1000000" issuer))) (inl e)])).
  Proof.
    unfold create_trustline, createTrustLine, from_seed, submit. intros Hrun.
    st_run; first [left; eexists; split; done | right; eexists; split; [done | first [by left | by right]]].
  Qed.

End WalletTheorems.

Module WalletScenarios.
  Import SimLedger Fixtures.

Definition w_pool : world sim := world_of FMissing (ledger0 "50").

  (** [rAlt] holds a line under the plain code ["RLUSD"]. *)
Definition w_alt : world sim :=
    world_of FMissing (mk_sim true [("rAlt", [mk_line ISSUER_ADDRESS "RLUSD" "75" "1000"])] [] []).

  (** Submissions signed for [rPool] are refused by the ledger. *)
Definition w_refusing : world sim :=
    world_of FMissing (mk_sim true [("rPool", [rlusd_line "50"])] ["rPool"] []).

Lemma balance_routes_agree_witness :
    (wallet_get (Some "rPool") w_pool).2 = inr (mk_resp 200 (BBalances "10" (balance_of rlusd_line_service [rlusd_line "50"]))) /\
    (wallet_balance_post (Some "rPool") w_pool).2 = (wallet_get (Some "rPool") w_pool).2 /\
    (getWalletBalance_post (Some "rPool") w_pool).2 =
      inr (mk_resp 200 (BBalance (balance_of rlusd_line_service [rlusd_line "50"]))).
  Proof.
    apply balance_routes_agree; try reflexivity.
    repeat constructor. vm_compute. discriminate.
  Defined.

  (** The two wallet routes disagree on a line under the plain code
      ["RLUSD"]: [GET /api/wallet] reports its balance, [POST
      /api/wallet/balance] reports ["0"]. *)
Example balance_routes_disagree :
    (wallet_get (Some "rAlt") w_alt).2 = inr (mk_resp 200 (BBalances "10" "75")) /\
    (wallet_balance_post (Some "rAlt") w_alt).2 = inr (mk_resp 200 (BBalances "10" "0")).
  Proof. split; vm_compute; reflexivity. Qed.

Lemma create_trustline_submits_witness :
    let '(w', r) := create_trustline "rPool" "sPool" (Some "rIssuerField") (Some "USD") (Some "5") w_refusing in
    match r with
    | inr resp =>
        (exists r, resp = mk_resp 200 (BResult r) /\
           w_log w' = w_log w_refusing ++ [EvSubmit (TrustSet "rPool"
                        (mk_amount "RLUSD" ISSUER_ADDRESS (default "1000000" (Some "rIssuerField")))) (inr r)]) \/
        (exists e, resp = err 500 (LedgerError e) /\
           (w_log w' = w_log w_refusing \/
            w_log w' = w_log w_refusing ++ [EvSubmit (TrustSet "rPool"
                         (mk_amount "RLUSD" ISSUER_ADDRESS (default "1000000" (Some "rIssuerField")))) (inl e)]))
    | inl _ => False
    end.
  Proof.
    destruct (create_trustline "rPool" "sPool" (Some "rIssuerField") (Some "USD") (Some "5") w_refusing)
      as [w' [e|resp]] eqn:E; [vm_compute in E; discriminate|].
    exact (create_trustline_submits _ _ _ _ _ _ _ _ E).
  Defined.

  (** [create-trustline] answers 200 for a TrustSet the ledger refused
      ([tecNO_PERMISSION]), and the limit it asked for is the [issuer] field
      of the request. *)
Example create_trustline_refused_is_200 :
    (create_trustline "rPool" "sPool" (Some "rIssuerField") (Some "USD") (Some "5") w_refusing).2 =
      inr (mk_resp 200 (BResult (mk_txr "tecNO_PERMISSION" ""))) /\
    w_log (create_trustline "rPool" "sPool" (Some "rIssuerField") (Some "USD") (Some "5") w_refusing).1 =
      [EvSubmit (TrustSet "rPool" (mk_amount "RLUSD" ISSUER_ADDRESS "rIssuerField"))
                (inr (mk_txr "tecNO_PERMISSION" ""))].
  Proof. split; vm_compute; reflexivity. Qed.


  (** The test [list-tontines/route.test.js] expects [GET
      /api/list-tontines] to answer [{balance: "250.75"}]; the route answers
      a fixed list of two tontines, so its first case fails, in every world;
      it is [GET /api/wallet-balance] that passes it. *)
Example list_tontines_test_mismatch :
    (forall w : world sim, get_balance_test list_tontines_stub w = false) /\
    (forall w : world sim, get_balance_test wallet_balance_get w = true).
  Proof. split; intros w; reflexivity. Qed.
End WalletScenarios.
