(* ===== verification/XrpClient.v ===== *)
(** * XrpClient: the client [xrpClient.js] shares between requests

    [src/BCI/src/lib/xrpClient.js] creates one [Client] at module level
    (line 5); every call of [createTrustLine] and [sendRLUSD] connects it
    when it is closed ([connectXRPL]), submits on it, and closes it in its
    [finally] ([disconnectXRPL]).  The routes [create-trustline],
    [send-rlsud] and [record-payment] call them; concurrent requests share
    the one client.

    The state is the world of [World] with the connection flag of the
    shared client ([xstate]).  Each call is a [proc] of [Concurrency] cut at
    its awaits: [Wallet.fromSeed] and [connectXRPL]; sending the
    transaction ([submit_request]); waiting for its outcome
    ([await_outcome]); the [finally].  A failed [client.connect()] is not
    modelled apart: a network failure is the failure of the submission, as
    in [Gateway].  [holding] gives the stage of a request in flight (it
    holds the client or not) and [conn_inv] says the client is open only
    while some request holds it.

    The theorems: run alone on a closed client, each route's request does
    what the sequential route of [WalletRoutes] does and leaves the client
    closed (refinement); a payment sent while another request holds the
    client is applied by the ledger, but when the other's [finally] closes
    the client before the outcome arrives, the wait is rejected and the
    route answers 500 (a paid request reported as failed); and whatever
    the schedule of any number of requests, once every request has
    answered the client is closed (no connection is leaked), by rule
    induction over the resumes with [conn_inv].

    The helpers of [src/BCI/src/lib/xrplHelpers.js] open a client of their
    own each; [hstate] counts the open ones, and [helpers_leak_on_error]
    shows that each helper closes its client exactly when it returns
    normally. *)

From stdpp Require Import base list strings.
From Stdlib Require Import ZArith Lia.
From S2P Require Import Prelude JsValue Gateway World WalletRoutes Concurrency.

Local Open Scope st_scope.
#[local] Set Warnings "-register-all".

(** The world and the module-level [client] of [xrpClient.js], line 5. *)
Record xstate (L : Type) := mk_xstate {
  xs_world : world L;
  xs_connected : bool;
}.
Arguments mk_xstate {L}. Arguments xs_world {L}. Arguments xs_connected {L}.

Section SharedClient.
  Context {L : Type} `{Gateway L}.

Abbreviation X := (xstate L).

  (** A step on the world that leaves the client alone. *)
Definition on_world {A} (c : st (world L) A) : st X A :=
    fun s => let '(w', r) := c (xs_world s) in (mk_xstate w' (xs_connected s), r).

  (** [client.isConnected()] *)
Definition isConnected : st X bool := fun s => (s, inr (xs_connected s)).

Definition set_connected (b : bool) : st X unit := fun s => (mk_xstate (xs_world s) b, inr tt).

  (** [connectXRPL], lines 8-13 *)
Definition connectXRPL : st X unit :=
    let! c := isConnected in if negb c then set_connected true else st_ret tt.

  (** [disconnectXRPL], lines 15-19 *)
Definition disconnectXRPL : st X unit :=
    let! c := isConnected in if c then set_connected false else st_ret tt.

  (** [client.submitAndWait(tx, { wallet })] on the shared client, in its
      two parts.  Sending: the library asks the server to autofill the
      transaction before it signs, validates and submits it, so a closed
      client fails first ([NotConnectedError]); a payment without
      [Destination] ([None]) fails the validation; otherwise the ledger
      gets the transaction. *)
Definition submit_request (secret : string) (t : option tx) : st X tx_response :=
    let! c := isConnected in
    if negb c then st_throw ENotConnected else
    match t with
    | None => st_throw EValidation
    | Some t => on_world (submit secret t)
    end.

  (** Waiting for the outcome: the library waits on the connection for the
      validated result, and a client closed meanwhile rejects the wait with
      a [DisconnectedError], whatever the ledger did. *)
Definition await_outcome (r : exn + tx_response) : st X tx_response :=
    match r with
    | inl e => st_throw e
    | inr v => let! c := isConnected in if c then st_ret v else st_throw EDisconnected
    end.

  (** The body of [createTrustLine] (lines 22-44) and of [sendRLUSD] (lines
      47-70), cut at its awaits, with the route's [try]/[catch] as [k]:
      [Wallet.fromSeed(secret)] throws before anything else; then
      [await connectXRPL()]; then [await client.submitAndWait(...)], sent
      and then awaited; then the [finally]'s [await disconnectXRPL()], after
      which the result (or the error the [catch] rethrows) reaches the
      route. *)
Definition xrp_call (secret : string) (t : option tx) (k : exn + tx_response -> response)
    : proc X response :=
    Step (fun s =>
      match on_world (from_seed secret) s with
      | (s1, inl e) => (s1, Done (k (inl e)))
      | (s1, inr _) =>
          ((connectXRPL s1).1,
           Step (fun s2 =>
             let '(s3, r) := submit_request secret t s2 in
             (s3, Step (fun s4 =>
               let '(s5, r') := await_outcome r s4 in
               (s5, Step (fun s6 => ((disconnectXRPL s6).1, Done (k r'))))))))
      end).

  (** The route's [try { ... Response.json({ result }) } catch (error)
      { ... status: 500 }]. *)
Definition route_answer (r : exn + tx_response) : response :=
    match r with inl e => err 500 (LedgerError e) | inr r => mk_resp 200 (BResult r) end.

  (** The TrustSet of [createTrustLine], lines 24-32. *)
Definition trustSetTx (account : string) (limit : option string) : tx :=
    TrustSet account (mk_amount "RLUSD" ISSUER_ADDRESS (default "1000000" limit)).

  (** The payment of [sendRLUSD], lines 49-58. *)
Definition paymentTx (account : string) (destination : option string) (amount : string) : option tx :=
    (fun d => Payment account d (mk_amount "RLUSD" ISSUER_ADDRESS amount)) <$> destination.

  (** [POST /api/create-trustline], lines 13-22: [issuer] is passed where
      [createTrustLine] takes [limit]. *)
Definition create_trustline_proc (account secret : string) (issuer currency limit : option string)
    : proc X response :=
    xrp_call secret (Some (trustSetTx account issuer)) route_answer.

  (** [handler(req, res)] of [send-rlsud] (lines 17-30) and of
      [record-payment] (lines 18-32). *)
Definition pay_route_proc (method account secret : string) (destination : option string) (amount : string)
    : proc X response :=
    if String.eqb method "POST" then xrp_call secret (paymentTx account destination amount) route_answer
    else Done (mk_resp 405 BEmpty).

  (** The requests that go through the shared client. *)
Inductive x_request :=
    | XCreateTrustline (account secret : string) (issuer currency limit : option string)
    | XSendRlsud (method account secret : string) (destination : option string) (amount : string)
    | XRecordPayment (method payer secret : string) (tontineMaster : option string) (amount : string).

Definition x_start (q : x_request) : proc X response :=
    match q with
    | XCreateTrustline a s i c l => create_trustline_proc a s i c l
    | XSendRlsud m a s d v => pay_route_proc m a s d v
    | XRecordPayment m p s tm v => pay_route_proc m p s tm v
    end.

  (** The same requests as the sequential routes of [WalletRoutes]. *)
Definition x_route (q : x_request) : st (world L) response :=
    match q with
    | XCreateTrustline a s i c l => create_trustline a s i c l
    | XSendRlsud m a s d v => send_rlsud m a s d v
    | XRecordPayment m p s tm v => record_payment m p s tm v
    end.
End SharedClient.

(** ** The helpers' own clients

    [src/BCI/src/lib/xrplHelpers.js] opens a fresh client in every helper
    ([getClient]) and closes it with [client.disconnect()] as the last
    statement, not in a [finally]: an exception in between leaves it open.
    [hstate] counts the clients the helpers have opened and not closed. *)
Record hstate (L : Type) := mk_hstate {
  hs_world : world L;
  hs_open : nat;
}.
Arguments mk_hstate {L}. Arguments hs_world {L}. Arguments hs_open {L}.

Section OwnClients.
  Context {L : Type} `{Gateway L}.

Abbreviation HS := (hstate L).

Definition on_world_h {A} (c : st (world L) A) : st HS A :=
    fun s => let '(w', r) := c (hs_world s) in (mk_hstate w' (hs_open s), r).

  (** [getClient()], lines 8-12: a new client, connected. *)
Definition getClient : st HS unit := fun s => (mk_hstate (hs_world s) (S (hs_open s)), inr tt).

  (** [await client.disconnect()] of the helper's own client. *)
Definition client_disconnect : st HS unit := fun s => (mk_hstate (hs_world s) (pred (hs_open s)), inr tt).

  (** [generateTestWallet()], lines 17-22 *)
Definition generateTestWallet_h : st HS wallet :=
    do! getClient in
    let! wl := on_world_h generate_fund in
    do! client_disconnect in
    st_ret wl.

  (** [createEscrow(seed, amount, finishAfter)], lines 27-45: [autofill],
      [sign] and [submitAndWait] are the one submission of [Gateway]. *)
Definition createEscrow_h (seed amount : string) (finishAfter : Z) : st HS tx_response :=
    do! getClient in
    let! addr := on_world_h (from_seed seed) in
    let! r := on_world_h (submit seed (EscrowCreate addr addr amount finishAfter)) in
    do! client_disconnect in
    st_ret r.

  (** [finishEscrow(seed, owner, escrowSequence)], lines 50-67 *)
Definition finishEscrow_h (seed owner : string) (escrowSequence : Z) : st HS tx_response :=
    do! getClient in
    let! addr := on_world_h (from_seed seed) in
    let! r := on_world_h (submit seed (EscrowFinish addr owner escrowSequence)) in
    do! client_disconnect in
    st_ret r.

  (** [c] does on the world what [c0] does, and leaves one more client open
      exactly when it throws. *)
Definition leaks_on_error {A} (c : st HS A) (c0 : st (world L) A) : Prop :=
    forall s, hs_world (c s).1 = (c0 (hs_world s)).1 /\ (c s).2 = (c0 (hs_world s)).2 /\
              hs_open (c s).1 = hs_open s + match (c s).2 with inl _ => 1 | inr _ => 0 end.
End OwnClients.

(** ** Who holds the connection

    The stage of a request in flight: [1] while it holds the shared client
    between its connect and its [finally], [0] before it connects and once
    it has answered.  A resume connects (stage [0] to [1], the client open
    after it), runs the [finally] (stage [1] to [0], the client closed
    after it), or keeps the stage and the client as they are. *)
Definition stage_step {L} (h h' : nat) (s s' : xstate L) : Prop :=
  (h' = h /\ xs_connected s' = xs_connected s) \/
  (h = 0 /\ h' = 1 /\ xs_connected s' = true) \/
  (h = 1 /\ h' = 0 /\ xs_connected s' = false).

Inductive holding {L} : nat -> proc (xstate L) response -> Prop :=
  | holding_done r : holding 0 (Done r)
  | holding_step h k :
      (forall s, exists h', holding h' (k s).2 /\ stage_step h h' s (k s).1) -> holding h (Step k).

(** The client is open only while some request holds it. *)
Definition conn_inv {L} (hs : list nat) (s : xstate L) : Prop :=
  xs_connected s = true -> 0 < sum_list hs.

(** ** Lemmas *)

Section Alone.
  Context {L : Type} `{Gateway L}.

  (** A call run alone on a closed client: four resumes do what the
      sequential call does, and close the client again. *)
Lemma xrp_call_alone secret t k (s : xstate L) :
    xs_connected s = false ->
    sched [0; 0; 0; 0] [xrp_call secret t k] s =
      let '(w', r) := (let! _ := from_seed secret in
                       match t with None => st_throw EValidation | Some t => submit secret t end)
                        (xs_world s) in
      (mk_xstate w' false, [Done (k r)]).
  Proof.
    destruct s as [w c]; simpl; intros ->.
    unfold from_seed, st_lift, st_bind. cbn. destruct (gw_from_seed secret); [done|].
    destruct t as [t|]; [|done]. cbn. unfold on_world, submit. cbn.
    destruct (gw_submit _ _ _) as [l' [e|v]]; done.
  Qed.

  (** The routes' [try]/[catch] around a call is [route_answer] of its
      outcome. *)
Lemma route_answer_catch (c : st (world L) tx_response) w :
    st_catch (let! r := c in st_ret (mk_resp 200 (BResult r))) (fun e => st_ret (err 500 (LedgerError e))) w =
    let '(w', r) := c w in (w', inr (route_answer r)).
  Proof. unfold st_catch, st_bind, st_ret. by destruct (c w) as [w' [e|v]]. Qed.


Lemma connectXRPL_open (s : xstate L) : xs_connected (connectXRPL s).1 = true.
  Proof. destruct s as [w []]; done. Qed.

Lemma disconnectXRPL_closed (s : xstate L) : xs_connected (disconnectXRPL s).1 = false.
  Proof. destruct s as [w []]; done. Qed.

Lemma submit_request_conn secret t (s : xstate L) :
    xs_connected (submit_request secret t s).1 = xs_connected s.
  Proof.
    destruct s as [w []]; [|done]. destruct t as [t|]; [|done]. unfold submit_request, on_world. cbn -[submit].
    by destruct (submit secret t w).
  Qed.

Lemma await_outcome_conn r (s : xstate L) : xs_connected (await_outcome r s).1 = xs_connected s.
  Proof. destruct r; [done|]. destruct s as [w []]; done. Qed.

Lemma from_seed_state secret (s : xstate L) : (on_world (from_seed secret) s).1 = s.
  Proof. destruct s. unfold on_world, from_seed, st_lift. by destruct (gw_from_seed secret). Qed.

  (** Every call holds the client exactly from its connect to its
      [finally]. *)
Lemma xrp_call_holding secret t k : holding 0 (xrp_call secret t k).
  Proof.
    constructor. intros s. pose proof (from_seed_state secret s) as Hs.
    destruct (on_world (from_seed secret) s) as [s1 [e|a]] eqn:E; simpl in *; subst s1.
    { exists 0. split; [constructor|by left]. }
    exists 1. split; [|right; left; split_and!; [done|done|apply connectXRPL_open]].
    constructor. intros s2. pose proof (submit_request_conn secret t s2) as Hc2.
    destruct (submit_request secret t s2) as [s3 r] eqn:E2; simpl in *.
    exists 1. split; [|by left]. constructor. intros s4. pose proof (await_outcome_conn r s4) as Hc4.
    destruct (await_outcome r s4) as [s5 r'] eqn:E4; simpl in *.
    exists 1. split; [|by left]. constructor. intros s6.
    exists 0. split; [constructor|right; right; split_and!; [done|done|apply disconnectXRPL_closed]].
  Qed.

Lemma x_start_holding (q : x_request) : holding 0 (x_start (L:=L) q).
  Proof.
    destruct q; cbn [x_start]; unfold create_trustline_proc, pay_route_proc;
      [|case_match..]; first [apply xrp_call_holding | constructor].
  Qed.
End Alone.

Lemma sum_list_insert (hs : list nat) i h h0 :
  hs !! i = Some h0 -> sum_list (<[i:=h]> hs) + h0 = sum_list hs + h.
Proof.
  revert i. induction hs as [|x hs IH]; intros [|i]; simpl; try done.
  - intros [= ->]. lia.
  - intros Hi. specialize (IH i Hi). lia.
Qed.

Section Holding.
  Context {L : Type} `{Gateway L}.

  (** One resume keeps [conn_inv], with the stage of the resumed request
      updated. *)
Lemma resume_conn_inv i (ps : list (proc (xstate L) response)) hs s :
    Forall2 holding hs ps -> conn_inv hs s ->
    exists hs', Forall2 holding hs' (resume i ps s).2 /\ conn_inv hs' (resume i ps s).1.
  Proof.
    intros Hf Hi. unfold resume. destruct (ps !! i) as [[r|k]|] eqn:E; try by exists hs.
    destruct (Forall2_lookup_r _ _ _ _ _ Hf E) as (h & Eh & Hh).
    inversion Hh as [|? ? Hk]; subst. destruct (Hk s) as (h' & Hh' & Hst).
    destruct (k s) as [s' p'] eqn:Ek; simpl in *.
    exists (<[i:=h']> hs). split; [by apply Forall2_insert|].
    pose proof (sum_list_insert hs i h' h Eh). unfold conn_inv in *.
    destruct Hst as [[-> Hc]|[(-> & -> & Hc)|(-> & -> & Hc)]]; intros Hs.
    - rewrite Hs in Hc. specialize (Hi (eq_sym Hc)). lia.
    - lia.
    - congruence.
  Qed.

Lemma sched_conn_inv sch (ps : list (proc (xstate L) response)) hs s :
    Forall2 holding hs ps -> conn_inv hs s ->
    exists hs', Forall2 holding hs' (sched sch ps s).2 /\ conn_inv hs' (sched sch ps s).1.
  Proof.
    revert ps hs s. induction sch as [|i sch IH]; intros ps hs s Hf Hi; [by exists hs|].
    simpl. destruct (resume_conn_inv i ps hs s Hf Hi) as (hs' & Hf' & Hi').
    destruct (resume i ps s) as [s' ps']. by apply (IH ps' hs' s').
  Qed.

Lemma holding_all_done hs (ps : list (proc (xstate L) response)) :
    Forall2 holding hs ps -> Forall (fun p => exists r, p = Done r) ps -> sum_list hs = 0.
  Proof.
    induction 1 as [|h p hs ps Hh _ IH]; intros Hd; [done|].
    apply Forall_cons in Hd as [[r ->] Hd]. inversion Hh; subst. simpl. by rewrite IH.
  Qed.

Lemma x_start_all_holding (qs : list x_request) :
    Forall2 holding (repeat 0 (length qs)) (map (x_start (L:=L)) qs).
  Proof. induction qs; simpl; constructor; auto using x_start_holding. Qed.
End Holding.

Section Theorems.
  Context {L : Type} `{Gateway L}.

  (** Run alone on a closed client, each request of [create-trustline],
      [send-rlsud] and [record-payment] gives the answer and the world of
      the sequential route of [WalletRoutes], and leaves the client closed:
      the shared client is invisible to a request that has it to itself. *)
Theorem x_procs_refine_routes (q : x_request) (s : xstate L) w' r :
    xs_connected s = false -> x_route q (xs_world s) = (w', inr r) ->
    sched [0; 0; 0; 0] [x_start q] s = (mk_xstate w' false, [Done r]).
  Proof.
    intros Hc Hq.
    destruct q as [a sec i cu li|m a sec d v|m a sec d v]; cbn [x_start x_route] in *;
      unfold create_trustline_proc, create_trustline, send_rlsud, record_payment, pay_route, pay_route_proc in *;
      [|destruct (String.eqb m "POST")..];
      [| | destruct s; unfold st_ret in Hq; cbn in *; simplify_eq; subst; reflexivity
       | | destruct s; unfold st_ret in Hq; cbn in *; simplify_eq; subst; reflexivity];
      rewrite xrp_call_alone by done; rewrite route_answer_catch in Hq;
      unfold createTrustLine, sendRLUSD, trustSetTx, paymentTx in *; cbn in *;
      destruct (gw_from_seed sec); cbn in *; [by simplify_eq| |by simplify_eq| |by simplify_eq|];
      try destruct d; cbn in *; try (by simplify_eq);
      destruct (submit _ _ _) as [w1 r1]; by simplify_eq.
  Qed.

  (** C4: Whatever the schedule of any number of requests of the three
      routes, once every request has answered the shared client is closed:
      no request leaves the connection open behind it. *)
Theorem no_leaked_connection (qs : list x_request) sch (s : xstate L) :
    xs_connected s = false ->
    Forall (fun p => exists r, p = Done r) (sched sch (map x_start qs) s).2 ->
    xs_connected (sched sch (map x_start qs) s).1 = false.
  Proof.
    intros Hc Hd.
    destruct (sched_conn_inv sch _ _ s (x_start_all_holding qs)) as (hs & Hf & Hi); [congruence|].
    pose proof (holding_all_done _ _ Hf Hd).
    destruct (xs_connected (sched sch (map x_start qs) s).1) eqn:E; [|done].
    specialize (Hi E). lia.
  Qed.

  (** C24: Two payments through [send-rlsud]: the second request arrives while
      the first holds the client, finds it open and submits; the first is
      validated and its [finally] closes the client; the second's wait is
      then rejected.  Both payments are on the ledger, in this order, but
      the second request answers 500 ([DisconnectedError]). *)
Theorem concurrent_payment_disconnected a1 sec1 d1 v1 a2 sec2 d2 v2 (s : xstate L) x1 x2 l1 l2 t1 t2 :
    xs_connected s = false ->
    gw_from_seed sec1 = inr x1 -> gw_from_seed sec2 = inr x2 ->
    gw_submit (w_ledger (xs_world s)) sec1 (Payment a1 d1 (mk_amount "RLUSD" ISSUER_ADDRESS v1)) = (l1, inr t1) ->
    gw_submit l1 sec2 (Payment a2 d2 (mk_amount "RLUSD" ISSUER_ADDRESS v2)) = (l2, inr t2) ->
    sched [0; 0; 1; 1; 0; 0; 1; 1]
      [x_start (XSendRlsud "POST" a1 sec1 (Some d1) v1); x_start (XSendRlsud "POST" a2 sec2 (Some d2) v2)] s =
    (mk_xstate (mk_world (w_tontines (xs_world s)) (w_users (xs_world s)) l2
                  (w_log (xs_world s) ++ [EvSubmit (Payment a1 d1 (mk_amount "RLUSD" ISSUER_ADDRESS v1)) (inr t1);
                                          EvSubmit (Payment a2 d2 (mk_amount "RLUSD" ISSUER_ADDRESS v2)) (inr t2)]))
               false,
     [Done (mk_resp 200 (BResult t1)); Done (err 500 (LedgerError EDisconnected))]).
  Proof.
    destruct s as [w c]; simpl; intros -> Hs1 Hs2 Hp1 Hp2.
    unfold x_start, pay_route_proc, xrp_call, submit_request, on_world, submit, from_seed, st_lift.
    cbn -[gw_from_seed gw_submit]. rewrite Hs1. cbn -[gw_from_seed gw_submit]. rewrite Hp1.
    cbn -[gw_from_seed gw_submit]. rewrite Hs2. cbn -[gw_from_seed gw_submit]. rewrite Hp2.
    cbn. by rewrite <- app_assoc.
  Qed.

  (** C25: The helpers of [xrplHelpers.js], with their clients counted, do on
      the world what the helpers of [WalletRoutes] do, and close the client
      they opened exactly when they return normally: every exception (an
      invalid seed, a failed funding or submission) leaves one more client
      open, because [client.disconnect()] is not in a [finally]. *)
Theorem helpers_leak_on_error seed amount fa owner sq :
    leaks_on_error (L:=L) generateTestWallet_h generateTestWallet /\
    leaks_on_error (L:=L) (createEscrow_h seed amount fa) (createEscrow seed amount fa) /\
    leaks_on_error (L:=L) (finishEscrow_h seed owner sq) (finishEscrow seed owner sq).
  Proof.
    split_and!; intros [w n];
      unfold generateTestWallet_h, createEscrow_h, finishEscrow_h, generateTestWallet, createEscrow, finishEscrow,
        getClient, client_disconnect, on_world_h, from_seed, st_lift, generate_fund, submit, st_bind, st_ret; cbn;
      repeat (case_match; simplify_eq/=); split_and!; try done; lia.
  Qed.
End Theorems.

Module XrpClientScenarios.
  Import SimLedger Fixtures.

  (** A trust line of the plain code ["RLUSD"], the currency [xrpClient.js]
      pays in. *)
Definition plain_line (bal : string) : line := mk_line ISSUER_ADDRESS "RLUSD" bal "1000000".
Definition ledger_x : sim :=
    mk_sim true [("rA", [plain_line "50"]); ("rB", [plain_line "50"]); ("rC", [plain_line "0"])] [] [].
Definition w_x : world sim := world_of FMissing ledger_x.
Definition s_x : xstate sim := mk_xstate w_x false.

Definition pay (a d v : string) : tx := Payment a d (mk_amount "RLUSD" ISSUER_ADDRESS v).
Definition q1 : x_request := XSendRlsud "POST" "rA" "sA" (Some "rC") "5".
Definition q2 : x_request := XSendRlsud "POST" "rB" "sB" (Some "rC") "7".
Definition l1 : sim := fst (gw_submit ledger_x "sA" (pay "rA" "rC" "5")).
Definition l2 : sim := fst (gw_submit l1 "sB" (pay "rB" "rC" "7")).
Definition race : list nat := [0; 0; 1; 1; 0; 0; 1; 1].

Lemma x_procs_refine_routes_witness :
    sched [0; 0; 0; 0] [x_start q1] s_x =
      (mk_xstate (fst (x_route q1 w_x)) false, [Done (mk_resp 200 (BResult (mk_txr tesSUCCESS "sA")))]).
  Proof. apply x_procs_refine_routes; vm_compute; reflexivity. Defined.

Lemma concurrent_payment_disconnected_witness :
    sched race [x_start q1; x_start q2] s_x =
    (mk_xstate (mk_world (w_tontines w_x) (w_users w_x) l2
                  (w_log w_x ++ [EvSubmit (pay "rA" "rC" "5") (inr (mk_txr tesSUCCESS "sA"));
                                 EvSubmit (pay "rB" "rC" "7") (inr (mk_txr tesSUCCESS "sB"))]))
               false,
     [Done (mk_resp 200 (BResult (mk_txr tesSUCCESS "sA"))); Done (err 500 (LedgerError EDisconnected))]).
  Proof.
    apply (concurrent_payment_disconnected "rA" "sA" "rC" "5" "rB" "sB" "rC" "7" s_x "rA" "rB" l1 l2
             (mk_txr tesSUCCESS "sA") (mk_txr tesSUCCESS "sB"));
      vm_compute; reflexivity.
  Defined.

Lemma no_leaked_connection_witness :
    xs_connected (sched race (map x_start [q1; q2]) s_x).1 = false.
  Proof.
    apply no_leaked_connection; [reflexivity|].
    vm_compute. repeat constructor; eexists; reflexivity.
  Defined.

  (** After the race, [rC] holds both payments (12 RLUSD): the request that
      answered 500 did pay. *)
Example disconnected_payment_on_ledger : gw_account_lines l2 "rC" = inr [plain_line "12"].
  Proof. vm_compute. reflexivity. Qed.

  (** [createEscrow] with a seed the library rejects: the client it opened
      stays open. *)
Example escrow_bad_seed_leaks :
    createEscrow_h "xBad" "10" 0 (mk_hstate w_x 0) = (mk_hstate w_x 1, inl EBadSeed).
  Proof. reflexivity. Qed.
End XrpClientScenarios.
