(* ===== verification/Client.v ===== *)
(** * Client: the pages of the app and their calls to the routes

    The pages ([src/src/app/page.js], [login/page.js], [join/page.js],
    [create-tontine/page.js], [triggerTransfer/page.js] and
    [BCI/src/app/viewTontines/page.js]) are React client components.  What
    they do besides rendering is: read and write [localStorage.user], call
    [router.push], [fetch] a route and turn its answer into component state.
    Here the browser is the record [client] (the stored user and the current
    location), each page's state is a record of the fields its handlers set,
    and each handler is a computation of the world's monad that returns the
    new page (and client) state, calling the route model through [fetch].
    [fetch r] runs the route [r] on the world; a route that throws past its
    own [catch] makes [response.json()] throw in the page (the server then
    answers with an HTML error page), which is the [inl] case.

    The transient states a page shows while its request is pending
    ([setLoading(true)], ["⏳ ..."]) are overwritten by the handler's end
    state and are not kept; a handler's result is its state once the
    awaited request has answered.  [router.push] targets are kept as the
    structured [loc], [`/viewTontines?id=${id}`] as [LViewTontines id]: the
    ids the routes hand out (["user_" + digits], [Date.now()] digits) hold
    no character the query string would decode. *)

From stdpp Require Import base list strings pretty relations.
From Stdlib Require Import ZArith Lia.
From S2P Require Import Prelude JsValue Gateway World XrplService Settlement Membership Auth WalletRoutes.

Local Open Scope st_scope.

(** ** The browser *)

(** The object [JSON.parse(localStorage.getItem("user"))]: the login page
    stores [{userId, walletAddress, sessionToken}] from the response, a
    field the response did not carry is absent. *)
Record stored := mk_stored {
  su_userId : option string;
  su_walletAddress : option string;
  su_sessionToken : option string;
}.

Definition stored_of (u : user) : stored :=
  mk_stored (Some (u_userId u)) (Some (u_walletAddress u)) (Some (u_sessionToken u)).

(** The paths the pages push. *)
Inductive loc :=
  | LHome | LLogin | LJoin | LCreateTontine | LViewTontines (id : string) | LTriggerTransfer.

Record client := mk_client {
  c_storage : option stored;   (** [localStorage.user] *)
  c_location : loc;            (** the page the router shows *)
}.

#[export] Instance stored_eq_dec : EqDecision stored.
Proof. solve_decision. Defined.
#[export] Instance loc_eq_dec : EqDecision loc.
Proof. solve_decision. Defined.

(** [router.push(l)] *)
Definition push (l : loc) (c : client) : client := mk_client (c_storage c) l.

(** [localStorage.setItem("user", ...)] and [removeItem("user")] *)
Definition set_storage (s : option stored) (c : client) : client := mk_client s (c_location c).

(** [`${x}`] of a value that may be [undefined]. *)
Definition js_string (x : option string) : string :=
  match x with Some s => s | None => "undefined" end.

(** [x || d] on a string field *)
Definition or_default (x : option string) (d : string) : string :=
  if truthy x then js_string x else d.

(** [data.error] of a response body *)
Definition body_error (b : body) : option err_msg :=
  match b with BError m => Some m | _ => None end.

Section Pages.
  Context {L : Type} `{Gateway L}.
  Variable date_parse : string -> option Z.

Abbreviation M := (st (world L)).

  (** [const r = await fetch(route); const data = await r.json()]: an
      exception the route did not catch reaches the page's [catch]. *)
Definition fetch {A} (route : M A) : M (exn + A) :=
    fun w => let '(w', r) := route w in (w', inr r).

  (** ** [login/page.js] *)

Inductive login_error := LoginEmpty | LoginServer (e : option err_msg) | LoginNetwork.

  (** [userData], lines 53-57 *)
Definition userData (b : body) : stored :=
    match b with BUser u => stored_of u | _ => mk_stored None None None end.

  (** [useEffect], lines 19-28: a stored user is sent to the dashboard. *)
Definition login_mount (c : client) : client :=
    match c_storage c with Some _ => push LHome c | None => c end.

  (** [handleLogin], lines 32-70: the new client and [error]. *)
Definition handleLogin (walletAddress : string) (now : Z) (rand : string) (c : client)
    : M (client * option login_error) :=
    if negb (truthy (Some walletAddress)) then st_ret (c, Some LoginEmpty) else
    let! r := fetch (auth (Some walletAddress) now rand) in
    st_ret (match r with
            | inr resp =>
                if resp_ok resp then (push LHome (set_storage (Some (userData (r_body resp))) c), None)
                else (c, Some (LoginServer (body_error (r_body resp))))
            | inl _ => (c, Some LoginNetwork)
            end).

  (** ** [page.js]: the dashboard *)

Inductive balance_view := BalPending | BalShown (xrp rlusd : string) | BalError | BalErreur.

Record dashboard := mk_dash {
  d_user : option stored;
  d_balance : balance_view;
  d_tontines : option (list summary);   (** [None]: [setTontines(undefined)] *)
  d_mounted : bool;
}.

Definition dash0 : dashboard := mk_dash None BalPending (Some []) false.

  (** [{xrp: data.xrpBalance || "0.00", rlusd: data.rlusdBalance || "0.00"}] *)
Definition balances_of (b : body) : balance_view :=
    match b with
    | BBalances x y => BalShown (or_default (Some x) "0.00") (or_default (Some y) "0.00")
    | _ => BalShown "0.00" "0.00"
    end.

  (** [fetchWalletBalance], lines 101-129 *)
Definition fetchWalletBalance (walletAddress : option string) : M balance_view :=
    match walletAddress with
    | Some a =>
        if negb (truthy walletAddress) || negb (String.prefix "r" a) then st_ret BalError else
        let! r := fetch (wallet_balance_post (Some a)) in
        st_ret (match r with
                | inr resp => if resp_ok resp then balances_of (r_body resp) else BalError
                | inl _ => BalError
                end)
    | None => st_ret BalError
    end.

  (** [data.tontines] *)
Definition summaries_of (b : body) : option (list summary) :=
    match b with BSummaries l => Some l | _ => None end.

  (** [fetchUserTontines], lines 84-99; [`?userId=${userId}`]. *)
Definition fetchUserTontines (userId : option string) (d : dashboard) : M dashboard :=
    let! r := fetch (list_tontines (Some (js_string userId))) in
    st_ret (match r with
            | inr resp =>
                if resp_ok resp
                then mk_dash (d_user d) (d_balance d) (summaries_of (r_body resp)) (d_mounted d)
                else d
            | inl _ => d
            end).

  (** [useEffect], lines 69-82: without a stored user, to the login page;
      with one, both fetches, then [setMounted(true)].  The two requests
      read only, so the order they are served in changes nothing but the
      order of the ledger calls in the log. *)
Definition dashboard_mount (c : client) : M (client * dashboard) :=
    match c_storage c with
    | None => st_ret (push LLogin c, dash0)
    | Some su =>
        let! b := fetchWalletBalance (su_walletAddress su) in
        let! d := fetchUserTontines (su_userId su) (mk_dash (Some su) b (Some []) true) in
        st_ret (c, d)
    end.

  (** [handleLogout], lines 133-136 *)
Definition handleLogout (c : client) : client := push LLogin (set_storage None c).

  (** [TontineCard]'s [handleViewDetails], lines 23-29 *)
Definition handleViewDetails (id : string) (c : client) : client :=
    if truthy (Some id) then push (LViewTontines id) c else c.

  (** [checkAuth(router)], [src/src/utils/auth.js] lines 1-7 (no page calls
      it): the stored user, and to the login page without one. *)
Definition checkAuth (c : client) : client * option stored :=
    match c_storage c with
    | Some su => (c, Some su)
    | None => (push LLogin c, None)
    end.

  (** The [useEffect] of the BCI [RootLayout], [BCI/src/app/layout.js]
      lines 17-22, run on every page of that app. *)
Definition layout_guard (c : client) : client :=
    match c_storage c with
    | None => if decide (c_location c = LLogin) then c else push LLogin c
    | Some _ => c
    end.

  (** ** [join/page.js] *)

Inductive join_msg := JoinEmpty | JoinSuccess | JoinError (e : option err_msg) | JoinNetwork.

Record join_page := mk_join { jp_message : option join_msg; jp_loading : bool }.

  (** [handleJoinTontine], lines 19-50: [tontineId] and [userId] are the
      form's fields, typed by the user. *)
Definition handleJoinTontine (tontineId userId : string) (p : join_page) : M join_page :=
    if negb (truthy (Some tontineId)) || negb (truthy (Some userId))
    then st_ret (mk_join (Some JoinEmpty) (jp_loading p)) else
    let! r := fetch (join (Some tontineId) (Some userId)) in
    st_ret (mk_join (Some (match r with
                           | inr resp =>
                               if resp_ok resp then JoinSuccess else JoinError (body_error (r_body resp))
                           | inl _ => JoinNetwork
                           end)) false).

  (** ** [create-tontine/page.js] *)

Inductive create_msg :=
  | CreateLoginAgain | CreateEmpty | CreateSuccess | CreateError (e : option err_msg) | CreateNetwork.

Record create_page := mk_create {
  cp_userId : string;
  cp_message : option create_msg;
  cp_loading : bool;
  cp_timer : option loc;      (** the [setTimeout] push, not yet fired *)
}.

Definition create0 : create_page := mk_create "" None false None.

  (** [useEffect], lines 24-32 *)
Definition create_mount (c : client) : create_page :=
    match c_storage c with
    | Some su =>
        if truthy (su_userId su) then mk_create (js_string (su_userId su)) None false None
        else mk_create "" (Some CreateLoginAgain) false None
    | None => mk_create "" (Some CreateLoginAgain) false None
    end.

  (** [data.tontineId] *)
Definition created_id (b : body) : option string :=
    match b with BCreated id _ => Some id | _ => None end.

  (** [handleCreateWallet], lines 34-75: [tontineName], [destination],
      [scheduledTime] are the form's fields, [now] the server's clock. *)
Definition handleCreateWallet (tontineName destination scheduledTime : string) (now : Z)
    (p : create_page) : M create_page :=
    if negb (truthy (Some tontineName) && truthy (Some destination) &&
             truthy (Some scheduledTime) && truthy (Some (cp_userId p)))
    then st_ret (mk_create (cp_userId p) (Some CreateEmpty) (cp_loading p) (cp_timer p)) else
    let! r := fetch (createWallet (Some tontineName) (Some destination) (Some scheduledTime)
                                  (Some (cp_userId p)) now) in
    st_ret (match r with
            | inr resp =>
                if negb (resp_ok resp)
                then mk_create (cp_userId p) (Some (CreateError (body_error (r_body resp)))) false (cp_timer p)
                else mk_create (cp_userId p) (Some CreateSuccess) false
                       (Some (LViewTontines (js_string (created_id (r_body resp)))))
            | inl _ => mk_create (cp_userId p) (Some CreateNetwork) false (cp_timer p)
            end).

  (** The [setTimeout] callback, lines 66-68, two seconds later. *)
Definition fire_timer (p : create_page) (c : client) : create_page * client :=
    match cp_timer p with
    | Some l => (mk_create (cp_userId p) (cp_message p) (cp_loading p) None, push l c)
    | None => (p, c)
    end.

  (** ** [BCI/src/app/viewTontines/page.js] *)

Inductive view_error := ViewMissingId | ViewServer (e : option err_msg) | ViewNetwork.

Inductive trust_msg := TrustEmpty | TrustExisting | TrustAdded | TrustError (e : option err_msg) | TrustFailed.

Record view_page := mk_view {
  vp_details : option tontine;
  vp_balance : balance_view;
  vp_error : option view_error;
  vp_trustline : option line;
  vp_message : option trust_msg;    (** [None]: [setTrustlineMessage(undefined)] or not set *)
  vp_loading : bool;
}.

Definition view0 : view_page := mk_view None BalPending None None None false.

  (** This page's [fetchWalletBalance], lines 54-86: no [!walletAddress]
      test, and ["Erreur"] on an answer that is not ok. *)
Definition view_fetchWalletBalance (walletAddress : string) : M balance_view :=
    if negb (String.prefix "r" walletAddress) then st_ret BalError else
    let! r := fetch (wallet_balance_post (Some walletAddress)) in
    st_ret (match r with
            | inr resp => if resp_ok resp then balances_of (r_body resp) else BalErreur
            | inl _ => BalError
            end).

  (** [fetchTontineDetails], lines 38-52: [data.wallet.address] throws a
      [TypeError] on a record without a wallet, after [setTontineDetails]. *)
Definition fetchTontineDetails (id : string) (p : view_page) : M view_page :=
    let! r := fetch (tontine_details (Some id)) in
    match r with
    | inr resp =>
        if resp_ok resp then
          match r_body resp with
          | BDetail t =>
              match t_wallet t with
              | Some wd =>
                  let! b := view_fetchWalletBalance (w_address wd) in
                  st_ret (mk_view (Some t) b (vp_error p) (vp_trustline p) (vp_message p) (vp_loading p))
              | None => st_ret (mk_view (Some t) (vp_balance p) (Some ViewNetwork) (vp_trustline p)
                                        (vp_message p) (vp_loading p))
              end
          | _ => st_ret (mk_view (vp_details p) (vp_balance p) (Some ViewNetwork) (vp_trustline p)
                                 (vp_message p) (vp_loading p))
          end
        else st_ret (mk_view (vp_details p) (vp_balance p) (Some (ViewServer (body_error (r_body resp))))
                             (vp_trustline p) (vp_message p) (vp_loading p))
    | inl _ => st_ret (mk_view (vp_details p) (vp_balance p) (Some ViewNetwork) (vp_trustline p)
                               (vp_message p) (vp_loading p))
    end.

  (** [useEffect], lines 28-36, with [searchParams.get("id")]. *)
Definition view_mount (tontineId : option string) : M view_page :=
    match tontineId with
    | Some id => if truthy tontineId then fetchTontineDetails id view0
                 else st_ret (mk_view None BalPending (Some ViewMissingId) None None false)
    | None => st_ret (mk_view None BalPending (Some ViewMissingId) None None false)
    end.

  (** [handleAddTrustline], lines 88-123: the tontine's wallet address and
      secret are sent; [recipientAddress] is sent too and not read by the
      route.  [tontineDetails.wallet] throws when the details are missing
      or have no wallet. *)
Definition handleAddTrustline (recipientAddress : string) (p : view_page) : M view_page :=
    if negb (truthy (Some recipientAddress))
    then st_ret (mk_view (vp_details p) (vp_balance p) (vp_error p) (vp_trustline p)
                         (Some TrustEmpty) (vp_loading p)) else
    let fail := mk_view (vp_details p) (vp_balance p) (vp_error p) (vp_trustline p)
                        (Some TrustFailed) false in
    match vp_details p with
    | Some t =>
        match t_wallet t with
        | Some wd =>
            let! r := fetch (trustline_add (Some (w_address wd)) (Some (w_secret wd))) in
            st_ret (match r with
                    | inr resp =>
                        if resp_ok resp then
                          match r_body resp with
                          | BTrustline (Some ln) => mk_view (vp_details p) (vp_balance p) (vp_error p)
                                                      (Some ln) (Some TrustExisting) false
                          | BTrustline None => mk_view (vp_details p) (vp_balance p) (vp_error p)
                                                 (vp_trustline p) (Some TrustAdded) false
                          | _ => mk_view (vp_details p) (vp_balance p) (vp_error p) (vp_trustline p) None false
                          end
                        else mk_view (vp_details p) (vp_balance p) (vp_error p) (vp_trustline p)
                               (Some (TrustError (body_error (r_body resp)))) false
                    | inl _ => fail
                    end)
        | None => st_ret fail
        end
    | None => st_ret fail
    end.

  (** ** [triggerTransfer/page.js] *)

Inductive trigger_msg :=
  | TrigInit | TrigServer | TrigDefault | TrigError (e : option err_msg) | TrigFailed.

Record trigger_page := mk_trig {
  tp_message : trigger_msg;
  tp_results : list transfer_result;
  tp_loading : bool;
}.

Definition trigger0 : trigger_page := mk_trig TrigInit [] true.

  (** [handleTriggerTransfer], lines 24-43, run by the [useEffect] of
      lines 20-22.  The route's 200 answer carries the message
      ["Transferts effectués."] with its results ([TrigServer]). *)
Definition handleTriggerTransfer (now : Z) (p : trigger_page) : M trigger_page :=
    let! r := fetch (triggerTransfer date_parse now) in
    st_ret (match r with
            | inr resp =>
                if resp_ok resp then
                  match r_body resp with
                  | BTransfers rs => mk_trig TrigServer rs false
                  | _ => mk_trig TrigDefault [] false
                  end
                else mk_trig (TrigError (body_error (r_body resp))) (tp_results p) false
            | inl _ => mk_trig TrigFailed (tp_results p) false
            end).
End Pages.

(** ** What the routes leave alone: [users.json]

    Only [auth] writes [users.json]; every other route, and every page
    handler but the login's, leaves it as it is. *)

Section UsersFrame.
  Context {L : Type} `{Gateway L}.
  Variable date_parse : string -> option Z.

Definition users_is (fu : file user) (w : world L) : Prop := w_users w = fu.

Lemma fetch_preserves {A} P (r : st (world L) A) : st_preserves P r -> st_preserves P (fetch r).
  Proof. intros Hr w Hw. unfold fetch. specialize (Hr w Hw). by destruct (r w). Qed.

Lemma load_tontines_users rd fu : st_preserves (users_is fu) (load_tontines rd).
  Proof. intros w Hw. exact Hw. Qed.
Lemma load_users_users fu : st_preserves (users_is fu) load_users.
  Proof. intros w Hw. exact Hw. Qed.
Lemma tontines_exist_users fu : st_preserves (users_is fu) tontines_exist.
  Proof. intros w Hw. exact Hw. Qed.
Lemma write_tontines_users l fu : st_preserves (users_is fu) (write_tontines l).
  Proof. intros w Hw. exact Hw. Qed.
Lemma account_lines_users a fu : st_preserves (users_is fu) (account_lines a).
  Proof. intros w Hw. exact Hw. Qed.
Lemma xrp_balance_users a fu : st_preserves (users_is fu) (xrp_balance a).
  Proof. intros w Hw. exact Hw. Qed.
Lemma from_seed_users s fu : st_preserves (users_is fu) (from_seed s).
  Proof. intros w Hw. exact Hw. Qed.
Lemma submit_users s t fu : st_preserves (users_is fu) (submit s t).
  Proof. intros w Hw. unfold submit. by destruct (gw_submit _ _ _). Qed.
Lemma generate_fund_users fu : st_preserves (users_is fu) generate_fund.
  Proof. intros w Hw. unfold generate_fund. by destruct (gw_generate_fund _). Qed.

#[local] Hint Resolve fetch_preserves load_tontines_users load_users_users tontines_exist_users
  write_tontines_users account_lines_users xrp_balance_users from_seed_users submit_users
  generate_fund_users : tontine.

Lemma getRLUSDBalance_users a fu : st_preserves (users_is fu) (getRLUSDBalance a).
  Proof. unfold getRLUSDBalance. st_preserve. Qed.
Lemma transferFunds_users wd d fu : st_preserves (users_is fu) (transferFunds wd d).
  Proof. unfold transferFunds. st_preserve; auto using getRLUSDBalance_users. Qed.
Lemma createTemporaryWallet_users fu : st_preserves (users_is fu) createTemporaryWallet.
  Proof. unfold createTemporaryWallet. st_preserve. Qed.
Lemma trustline_add_users a s fu : st_preserves (users_is fu) (trustline_add a s).
  Proof. unfold trustline_add. st_preserve. Qed.
#[local] Hint Resolve getRLUSDBalance_users transferFunds_users createTemporaryWallet_users
  trustline_add_users : tontine.

Lemma process_tontine_users now t fu : st_preserves (users_is fu) (process_tontine date_parse now t).
  Proof. unfold process_tontine. st_preserve. Qed.
#[local] Hint Resolve process_tontine_users : tontine.
Lemma settle_loop_users now ts fu : st_preserves (users_is fu) (settle_loop date_parse now ts).
  Proof. induction ts; simpl; st_preserve. Qed.
#[local] Hint Resolve settle_loop_users : tontine.

Lemma triggerTransfer_users now fu : st_preserves (users_is fu) (triggerTransfer date_parse now).
  Proof. unfold triggerTransfer. st_preserve. Qed.
Lemma create_tontine_users n cs pw c rand now fu :
    st_preserves (users_is fu) (create_tontine n cs pw c rand now).
  Proof. unfold create_tontine. st_preserve. Qed.
Lemma createWallet_users tn d s u now fu : st_preserves (users_is fu) (createWallet tn d s u now).
  Proof. unfold createWallet. st_preserve. Qed.
Lemma join_tontine_users tid u fu : st_preserves (users_is fu) (join_tontine tid u).
  Proof. unfold join_tontine, commit_join. st_preserve. Qed.
Lemma join_users tid u fu : st_preserves (users_is fu) (join tid u).
  Proof. unfold join, commit_join. st_preserve. Qed.
Lemma list_tontines_users u fu : st_preserves (users_is fu) (list_tontines u).
  Proof. unfold list_tontines. st_preserve. Qed.
Lemma tontine_details_users id fu : st_preserves (users_is fu) (tontine_details id).
  Proof. unfold tontine_details. st_preserve. Qed.
Lemma wallet_balance_post_users a fu : st_preserves (users_is fu) (wallet_balance_post a).
  Proof. unfold wallet_balance_post. st_preserve. Qed.
End UsersFrame.

#[export] Hint Resolve fetch_preserves load_tontines_users load_users_users tontines_exist_users
  write_tontines_users account_lines_users xrp_balance_users from_seed_users submit_users
  generate_fund_users getRLUSDBalance_users transferFunds_users createTemporaryWallet_users
  trustline_add_users process_tontine_users settle_loop_users triggerTransfer_users
  create_tontine_users createWallet_users join_tontine_users join_users list_tontines_users
  tontine_details_users wallet_balance_post_users : tontine.

Section PagesFrame.
  Context {L : Type} `{Gateway L}.
  Variable date_parse : string -> option Z.

Lemma fetchWalletBalance_users a fu : st_preserves (users_is (L:=L) fu) (fetchWalletBalance a).
  Proof. unfold fetchWalletBalance. st_preserve. Qed.
Lemma fetchUserTontines_users u d fu : st_preserves (users_is (L:=L) fu) (fetchUserTontines u d).
  Proof. unfold fetchUserTontines. st_preserve. Qed.
Lemma view_fetchWalletBalance_users a fu : st_preserves (users_is (L:=L) fu) (view_fetchWalletBalance a).
  Proof. unfold view_fetchWalletBalance. st_preserve. Qed.
#[local] Hint Resolve fetchWalletBalance_users fetchUserTontines_users
  view_fetchWalletBalance_users : tontine.

Lemma dashboard_mount_users c fu : st_preserves (users_is (L:=L) fu) (dashboard_mount c).
  Proof. unfold dashboard_mount. st_preserve. Qed.
Lemma handleJoinTontine_users tid u p fu : st_preserves (users_is (L:=L) fu) (handleJoinTontine tid u p).
  Proof. unfold handleJoinTontine. st_preserve. Qed.
Lemma handleCreateWallet_users tn d s now p fu :
    st_preserves (users_is (L:=L) fu) (handleCreateWallet tn d s now p).
  Proof. unfold handleCreateWallet. st_preserve. Qed.
Lemma view_mount_users id fu : st_preserves (users_is (L:=L) fu) (view_mount id).
  Proof. unfold view_mount, fetchTontineDetails. st_preserve. Qed.
Lemma handleAddTrustline_users r p fu : st_preserves (users_is (L:=L) fu) (handleAddTrustline r p).
  Proof. unfold handleAddTrustline. st_preserve. Qed.
Lemma handleTriggerTransfer_users now p fu :
    st_preserves (users_is (L:=L) fu) (handleTriggerTransfer date_parse now p).
  Proof. unfold handleTriggerTransfer. st_preserve. Qed.
End PagesFrame.

(** ** The session and [users.json] *)

Section Session.
  Context {L : Type} `{Gateway L}.

  (** The stored user is the user [users.json] answers for its wallet
      address. *)
Definition session_user (fu : file user) (su : stored) : Prop :=
    exists u us, fu = FJson us /\ find (wallet_is (u_walletAddress u)) us = Some u /\ su = stored_of u.

  (** [auth] leaves [users.json] alone or appends a user whose wallet
      address no user had. *)
Lemma auth_users wa now rand (w w' : world L) r :
    auth wa now rand w = (w', r) ->
    w_users w' = w_users w \/
    exists us v, read_users (w_users w) = inr us /\ find (wallet_is (u_walletAddress v)) us = None /\
                 w_users w' = FJson (us ++ [v]).
  Proof.
    destruct wa as [a|]; [|unfold auth; st_simpl; intros [= <- _]; by left].
    destruct (String.eqb_spec a "") as [->|Ha]; [unfold auth, truthy; st_simpl; intros [= <- _]; by left|].
    intros Hrun. apply (auth_cases _ _ _ _ _ _ Ha) in Hrun
      as [(-> & _)|[(_ & _ & _ & _ & -> & _)|(us & Hr & Hf & -> & _)]]; [by left|by left|].
    right. exists us, (new_user a now rand). done.
  Qed.

Lemma session_user_auth wa now rand (w w' : world L) r su :
    auth wa now rand w = (w', r) -> session_user (w_users w) su -> session_user (w_users w') su.
  Proof.
    intros Hrun (u & us0 & Hfu & Hf & ->). apply auth_users in Hrun as [->|(us & v & Hr & _ & ->)].
    - by exists u, us0.
    - rewrite Hfu in Hr. injection Hr as <-. exists u, (us0 ++ [v]). by rewrite find_app, Hf.
  Qed.

  (** A login answered with a 2xx status gives the user [users.json] now
      holds for the address. *)
Lemma auth_ok_session a now rand (w w' : world L) resp :
    a <> "" -> auth (Some a) now rand w = (w', inr resp) -> resp_ok resp = true ->
    exists u, r_body resp = BUser u /\ u_walletAddress u = a /\ session_user (w_users w') (stored_of u).
  Proof.
    intros Ha Hrun Hok. apply (auth_cases _ _ _ _ _ _ Ha) in Hrun
      as [(_ & [= ->] & _)|[(us & u & Hr & Hf & -> & [= ->])|(us & Hr & Hf & -> & [= ->])]];
      [discriminate| |].
    - pose proof (find_some _ _ Hf) as [_ Hw]. unfold wallet_is in Hw. apply String.eqb_eq in Hw.
      exists u. split_and!; [done|done|]. exists u, us. rewrite Hw.
      destruct (w_users w); simplify_eq/=; done.
    - exists (new_user a now rand). split_and!; [done|done|].
      exists (new_user a now rand), (us ++ [new_user a now rand]).
      split_and!; [done| |done]. change (u_walletAddress (new_user a now rand)) with a.
      rewrite find_app, Hf. cbn. by rewrite String.eqb_refl.
  Qed.
End Session.

(** ** What the pages do to [tontines.json]

    The pages write [tontines.json] only through the routes that write it,
    so they keep its invariant ([Membership.wf_world]). *)

Section PagesWf.
  Context {L : Type} `{Gateway L}.
  Variable date_parse : string -> option Z.

Lemma frame_wf {A} (c : st (world L) A) :
    (forall ft, st_preserves (tontines_file_is ft) c) -> st_preserves wf_world c.
  Proof. intros Hc w Hw. unfold wf_world. by rewrite (Hc _ w eq_refl). Qed.

Lemma xrp_balance_tontines a ft : st_preserves (tontines_file_is (L:=L) ft) (xrp_balance a).
  Proof. intros w Hw. exact Hw. Qed.
#[local] Hint Resolve xrp_balance_tontines : tontine.

Lemma auth_wf a now rand : st_preserves (wf_world (L:=L)) (auth a now rand).
  Proof. apply frame_wf. intros ft. unfold auth. st_preserve. Qed.
Lemma wallet_balance_post_wf a : st_preserves (wf_world (L:=L)) (wallet_balance_post a).
  Proof. apply frame_wf. intros ft. unfold wallet_balance_post. st_preserve. Qed.
Lemma list_tontines_wf u : st_preserves (wf_world (L:=L)) (list_tontines u).
  Proof. apply frame_wf. intros ft. unfold list_tontines. st_preserve. Qed.
Lemma tontine_details_wf id : st_preserves (wf_world (L:=L)) (tontine_details id).
  Proof. apply frame_wf. intros ft. unfold tontine_details. st_preserve. Qed.
Lemma trustline_add_wf a s : st_preserves (wf_world (L:=L)) (trustline_add a s).
  Proof. apply frame_wf. intros ft. apply trustline_add_tontines. Qed.
#[local] Hint Resolve auth_wf wallet_balance_post_wf list_tontines_wf tontine_details_wf
  trustline_add_wf join_wf createWallet_wf triggerTransfer_wf fetch_preserves : tontine.

Lemma fetchWalletBalance_tontines a ft :
    st_preserves (tontines_file_is (L:=L) ft) (fetchWalletBalance a).
  Proof.
    unfold fetchWalletBalance, wallet_balance_post. st_preserve; apply fetch_preserves; st_preserve.
  Qed.

Lemma fetchWalletBalance_wf a : st_preserves (wf_world (L:=L)) (fetchWalletBalance a).
  Proof. unfold fetchWalletBalance. st_preserve. Qed.
Lemma fetchUserTontines_wf u d : st_preserves (wf_world (L:=L)) (fetchUserTontines u d).
  Proof. unfold fetchUserTontines. st_preserve. Qed.
Lemma view_fetchWalletBalance_wf a : st_preserves (wf_world (L:=L)) (view_fetchWalletBalance a).
  Proof. unfold view_fetchWalletBalance. st_preserve. Qed.
#[local] Hint Resolve fetchWalletBalance_wf fetchUserTontines_wf view_fetchWalletBalance_wf : tontine.

Lemma handleLogin_wf a now rand c : st_preserves (wf_world (L:=L)) (handleLogin a now rand c).
  Proof. unfold handleLogin. st_preserve. Qed.
Lemma dashboard_mount_wf c : st_preserves (wf_world (L:=L)) (dashboard_mount c).
  Proof. unfold dashboard_mount. st_preserve. Qed.
Lemma handleJoinTontine_wf tid u p : st_preserves (wf_world (L:=L)) (handleJoinTontine tid u p).
  Proof. unfold handleJoinTontine. st_preserve. Qed.
Lemma handleCreateWallet_wf tn d s now p :
    st_preserves (wf_world (L:=L)) (handleCreateWallet tn d s now p).
  Proof. unfold handleCreateWallet. st_preserve. Qed.
Lemma view_mount_wf id : st_preserves (wf_world (L:=L)) (view_mount id).
  Proof. unfold view_mount, fetchTontineDetails. st_preserve. Qed.
Lemma handleAddTrustline_wf r p : st_preserves (wf_world (L:=L)) (handleAddTrustline r p).
  Proof. unfold handleAddTrustline. st_preserve. Qed.
Lemma handleTriggerTransfer_wf now p :
    st_preserves (wf_world (L:=L)) (handleTriggerTransfer date_parse now p).
  Proof. unfold handleTriggerTransfer. st_preserve. Qed.
End PagesWf.

(** ** The browser and the server together

    [ui_step] is one thing that can happen: a page of this browser runs a
    handler to its end (calling the routes it calls), the user navigates,
    or another browser's request is served by a route that writes a file.
    The page states that do not outlive their page (join, view, trigger)
    are not kept. *)

Section System.
  Context {L : Type} `{Gateway L}.
  Variable date_parse : string -> option Z.

Abbreviation M := (st (world L)).

  (** A request of another browser, to a route that writes a file. *)
Inductive other_request :=
  | OAuth (walletAddress : option string) (now : Z) (rand : string)
  | OCreateTontine (name cycleSize password creatorId : option string) (rand : string) (now : Z)
  | OCreateWallet (tontineName destination scheduledTime userId : option string) (now : Z)
  | OJoinTontine (tontineId userId : option string)
  | OJoin (tontineId userId : option string)
  | OTrigger (now : Z).

Definition serve (q : other_request) : M response :=
    match q with
    | OAuth a now rand => auth a now rand
    | OCreateTontine n cs pw c rand now => create_tontine n cs pw c rand now
    | OCreateWallet tn d s u now => createWallet tn d s u now
    | OJoinTontine tid u => join_tontine tid u
    | OJoin tid u => join tid u
    | OTrigger now => triggerTransfer date_parse now
    end.

Inductive ui_step : client * world L -> client * world L -> Prop :=
  | UiLoginMount c w : ui_step (c, w) (login_mount c, w)
  | UiLogin a now rand c w c' e w' :
      handleLogin a now rand c w = (w', inr (c', e)) -> ui_step (c, w) (c', w')
  | UiDashboard c w c' d w' :
      dashboard_mount c w = (w', inr (c', d)) -> ui_step (c, w) (c', w')
  | UiLogout c w : ui_step (c, w) (handleLogout c, w)
  | UiViewDetails id c w : ui_step (c, w) (handleViewDetails id c, w)
  | UiNavigate l c w : ui_step (c, w) (push l c, w)
  | UiJoin tid uid p p' c w w' :
      handleJoinTontine tid uid p w = (w', inr p') -> ui_step (c, w) (c, w')
  | UiCreate tn d s now p p' c w w' :
      handleCreateWallet tn d s now p w = (w', inr p') -> ui_step (c, w) (snd (fire_timer p' c), w')
  | UiView id v c w w' : view_mount id w = (w', inr v) -> ui_step (c, w) (c, w')
  | UiTrustline r p p' c w w' : handleAddTrustline r p w = (w', inr p') -> ui_step (c, w) (c, w')
  | UiTrigger now p p' c w w' :
      handleTriggerTransfer date_parse now p w = (w', inr p') -> ui_step (c, w) (c, w')
  | UiLayoutGuard c w : ui_step (c, w) (layout_guard c, w)
  | UiCheckAuth c w : ui_step (c, w) (fst (checkAuth c), w)
  | UiOther q c w : ui_step (c, w) (c, fst (serve q w)).

  (** The invariant of the system: the stored user is the user
      [users.json] holds for its address, and [tontines.json] is well
      formed. *)
Definition session_ok (s : client * world L) : Prop :=
    forall su, c_storage (fst s) = Some su -> session_user (w_users (snd s)) su.

Definition sys_inv (s : client * world L) : Prop := session_ok s /\ wf_world (snd s).
End System.

Section SystemLemmas.
  Context {L : Type} `{Gateway L}.
  Variable date_parse : string -> option Z.

Lemma users_same {A} (c : st (world L) A) w w' r :
    (forall fu, st_preserves (users_is fu) c) -> c w = (w', r) -> w_users w' = w_users w.
  Proof. intros Hc Hr. pose proof (Hc _ w eq_refl) as Hu. by rewrite Hr in Hu. Qed.

Lemma wf_run {A} (c : st (world L) A) w w' r :
    st_preserves wf_world c -> c w = (w', r) -> wf_world w -> wf_world w'.
  Proof. intros Hc Hr Hw. pose proof (Hc w Hw) as Hw'. by rewrite Hr in Hw'. Qed.

  (** The two ends of a login through the page. *)
Lemma handleLogin_cases a now rand c (w w' : world L) c' e :
    handleLogin a now rand c w = (w', inr (c', e)) ->
    (c' = c /\ e <> None /\ (w' = w \/ exists r, auth (Some a) now rand w = (w', r))) \/
    (e = None /\ exists u, u_walletAddress u = a /\ c' = push LHome (set_storage (Some (stored_of u)) c) /\
                           session_user (w_users w') (stored_of u)).
  Proof.
    unfold handleLogin, fetch. destruct (String.eqb_spec a "") as [->|Ha].
    { cbn. intros [= <- <- <-]. left. split_and!; [done|done|by left]. }
    rewrite truthy_some by done. unfold st_bind, st_ret. cbn -[auth].
    destruct (auth (Some a) now rand w) as [w1 [ex|resp]] eqn:Hr;
      [|destruct (resp_ok resp) eqn:Hok]; cbn; intros ?; simplify_eq/=.
    - left. split_and!; [done|done|eauto].
    - right. split; [done|].
      destruct (auth_ok_session _ _ _ _ _ _ Ha Hr Hok) as (u & -> & Hwa & Hs). eauto.
    - left. split_and!; [done|done|eauto].
  Qed.

Lemma dashboard_mount_client c (w w' : world L) c' d :
    dashboard_mount c w = (w', inr (c', d)) -> c_storage c' = c_storage c.
  Proof.
    unfold dashboard_mount. destruct (c_storage c) eqn:Hc; [|st_simpl; intros Hr; by simplify_eq/=].
    intros Hrun. apply st_bind_inv in Hrun as [[? [_ ?]]|[w1 [b [_ Hrun]]]]; [discriminate|].
    apply st_bind_inv in Hrun as [[? [_ ?]]|[w2 [d' [_ Hrun]]]]; [discriminate|]. by st_run.
  Qed.

Lemma fire_timer_storage p c : c_storage (snd (fire_timer p c)) = c_storage c.
  Proof. unfold fire_timer. by destruct (cp_timer p). Qed.

  (** Steps that keep the stored user and [users.json]. *)
Lemma session_frame c c' (w w' : world L) :
    c_storage c' = c_storage c -> w_users w' = w_users w -> session_ok (c, w) -> session_ok (c', w').
  Proof. intros Hc Hw Hs su Hsu. unfold session_ok in *. simpl in *. rewrite Hw. apply Hs. congruence. Qed.

Lemma serve_users_or_auth q (w : world L) :
    (exists a now rand, q = OAuth a now rand) \/ w_users (fst (serve date_parse q w)) = w_users w.
  Proof.
    destruct q; [left; eauto|right..]; destruct (serve _ _ w) eqn:E; eapply users_same; try exact E;
      intros fu; simpl; eauto with tontine.
  Qed.

Lemma serve_wf q : st_preserves (wf_world (L:=L)) (serve date_parse q).
  Proof.
    destruct q; simpl; auto using auth_wf, create_tontine_wf, createWallet_wf, join_tontine_wf,
      join_wf, triggerTransfer_wf.
  Qed.

  (** A step of a page whose handler neither logs in nor out. *)
Ltac page_frame Hr users_lemma wf_lemma :=
    split; [eapply session_frame; [| eapply users_same; [intros; apply users_lemma | exact Hr] |]
           | eapply wf_run; [apply wf_lemma | exact Hr |]].

Lemma ui_step_sys_inv s s' : sys_inv s -> ui_step date_parse s s' -> sys_inv s'.
  Proof.
    intros [Hs Hw] Hst.
    destruct Hst as [c w|a now rand c w c' e w' Hr|c w c' d w' Hr|c w|id c w|l c w
                    |tid uid p p' c w w' Hr|tn d sc now p p' c w w' Hr|id v c w w' Hr
                    |r p p' c w w' Hr|now p p' c w w' Hr|c w|c w|q c w]; simpl in *.
    - split; [|done]. eapply session_frame; [|done|exact Hs]. unfold login_mount. by case_match.
    - split; [|eapply wf_run; [apply handleLogin_wf|exact Hr|exact Hw]].
      apply handleLogin_cases in Hr as [(-> & _ & [[= ->]|[r Hr]])|(_ & u & _ & -> & Hu)].
      + exact Hs.
      + intros su Hsu. eapply session_user_auth; [exact Hr|]. by apply Hs.
      + intros su [= <-]. exact Hu.
    - page_frame Hr dashboard_mount_users dashboard_mount_wf; [|exact Hs|exact Hw].
      by eapply dashboard_mount_client.
    - split; [by intros su|exact Hw].
    - split; [|exact Hw]. eapply session_frame; [|done|exact Hs]. unfold handleViewDetails. by case_match.
    - split; [|exact Hw]. eapply session_frame; [done|done|exact Hs].
    - page_frame Hr handleJoinTontine_users handleJoinTontine_wf; done.
    - page_frame Hr handleCreateWallet_users handleCreateWallet_wf; [apply fire_timer_storage|done..].
    - page_frame Hr view_mount_users view_mount_wf; done.
    - page_frame Hr handleAddTrustline_users handleAddTrustline_wf; done.
    - page_frame Hr handleTriggerTransfer_users handleTriggerTransfer_wf; done.
    - split; [|exact Hw]. eapply session_frame; [|done|exact Hs]. unfold layout_guard.
      by repeat case_match.
    - split; [|exact Hw]. eapply session_frame; [|done|exact Hs]. unfold checkAuth. by case_match.
    - split; [|by apply serve_wf].
      destruct (serve_users_or_auth q w) as [(a & now & rand & ->)|Hu].
      + intros su Hsu. simpl. destruct (auth a now rand w) as [w' r] eqn:Hr. simpl.
        eapply session_user_auth; [exact Hr|]. by apply Hs.
      + eapply session_frame; [done|exact Hu|exact Hs].
  Qed.
End SystemLemmas.

Section RouteOk.
  Context {L : Type} `{Gateway L}.

  (** [join] answers 2xx only with its 200. *)
Lemma join_ok_200 tid u (w w' : world L) resp :
    join (Some tid) (Some u) w = (w', inr resp) -> resp_ok resp = true -> r_status resp = 200%Z.
  Proof.
    unfold join, commit_join, tontines_exist, load_tontines, write_tontines, read_strict.
    intros Hr Hok. st_run; done.
  Qed.

  (** A [createWallet] answered 2xx appended the new record, whose id is
      the one answered. *)
Lemma createWallet_ok tn d sched u now (w w' : world L) resp :
    createWallet (Some tn) (Some d) (Some sched) (Some u) now w = (w', inr resp) ->
    resp_ok resp = true ->
    exists ts wl, read_or_empty (w_tontines w) = inr ts /\
      w_tontines w' = FJson (ts ++ [new_wallet_tontine tn d sched u wl now]) /\
      r_body resp = BCreated (pretty now) (w_address wl).
  Proof.
    unfold createWallet, load_tontines, write_tontines. intros Hr Hok.
    destruct (truthy (Some tn) && truthy (Some d) && truthy (Some sched) && truthy (Some u));
      [|by st_run]. st_simpl.
    destruct (createTemporaryWallet w) as [w1 [e|wl]] eqn:Hc; [by simplify_eq/=|].
    pose proof (createTemporaryWallet_tontines (w_tontines w) w eq_refl) as Hf.
    rewrite Hc in Hf. unfold tontines_file_is in Hf. simpl in Hf.
    destruct (read_or_empty (w_tontines w1)) eqn:Hrd; simplify_eq/=.
    exists l, wl. rewrite <- Hf. done.
  Qed.
End RouteOk.

Lemma stored_of_inj u v : stored_of u = stored_of v -> u = v.
Proof. destruct u, v. unfold stored_of. simpl. by intros [= -> -> ->]. Qed.

Lemma pretty_N_go_nonempty x s : s <> "" -> pretty_N_go x s <> "".
Proof.
  revert s. induction (N.lt_wf_0 x) as [x _ IH]; intros s Hs.
  destruct (decide (x = 0)%N) as [->|Hx]; [by rewrite pretty_N_go_0|].
  rewrite pretty_N_go_step by lia. apply IH; [apply N.div_lt; lia|discriminate].
Qed.

(** [String(Date.now())] is never empty. *)
Lemma pretty_Z_nonempty (z : Z) : pretty z <> "".
Proof.
  destruct z as [|p|p]; [discriminate| |discriminate].
  change (pretty (Z.pos p)) with (pretty (N.pos p)). unfold pretty, pretty_N.
  destruct (decide (N.pos p = 0%N)); [discriminate|].
  rewrite pretty_N_go_step by lia. by apply pretty_N_go_nonempty.
Qed.

Section ClientTheorems.
  Context {L : Type} `{Gateway L}.
  Variable date_parse : string -> option Z.

  (** The view page on a record [tontines/details] finds shows it, whether
      or not its wallet balance can be read. *)
Lemma view_mount_found id ts t (w w' : world L) v :
    id <> "" -> w_tontines w = FJson ts -> find (id_is id) ts = Some t ->
    view_mount (Some id) w = (w', inr v) -> vp_details v = Some t.
  Proof.
    intros Hid Hf Hfind Hr. unfold view_mount, fetchTontineDetails, fetch, tontine_details,
      load_tontines in Hr. rewrite !truthy_some in Hr by done.
    unfold st_bind, st_catch, st_ret in Hr. simpl in Hr. rewrite Hf in Hr. simpl in Hr.
    rewrite Hfind in Hr. simpl in Hr. destruct (t_wallet t) as [wd|]; [|by simplify_eq/=].
    destruct (view_fetchWalletBalance (w_address wd) w) as [w2 [e|b]]; by simplify_eq/=.
  Qed.

  (** The dashboard of a stored user: it stays on the page, lists the
      summaries [tontines/list] gives for the stored [userId], and writes
      no file. *)
Lemma dashboard_mount_run c (w w' : world L) c' d u ts :
    c_storage c = Some (stored_of u) -> w_tontines w = FJson ts -> u_userId u <> "" ->
    dashboard_mount c w = (w', inr (c', d)) ->
    c' = c /\ w_tontines w' = FJson ts /\ d_user d = Some (stored_of u) /\ d_mounted d = true /\
    d_tontines d = Some (map summarize (filter (fun t => str_includes (t_members t) (u_userId u) = true) ts)).
  Proof.
    intros Hc Hf Hu Hr. unfold dashboard_mount in Hr. rewrite Hc in Hr.
    cbn [su_walletAddress su_userId stored_of] in Hr. unfold st_bind in Hr.
    destruct (fetchWalletBalance (Some (u_walletAddress u)) w) as [w1 [e|b]] eqn:Hb; [discriminate|].
    assert (Hf1 : w_tontines w1 = FJson ts).
    { pose proof (fetchWalletBalance_tontines (Some (u_walletAddress u)) (FJson ts) w Hf) as Hf1.
      by rewrite Hb in Hf1. }
    unfold fetchUserTontines, fetch, list_tontines, load_tontines in Hr.
    rewrite truthy_some in Hr by done. unfold st_bind, st_catch, st_ret in Hr. simpl in Hr.
    rewrite Hf1 in Hr. simpl in Hr. by injection Hr as <- <- <-.
  Qed.

  (** C2: The session invariant of the browser and the server, by rule
      induction on [ui_step]: from a logged-out browser and a well-formed
      [tontines.json], whatever the pages of this browser run (login,
      dashboard, join, create, view, add trustline, trigger), however the
      user navigates or logs out, and whatever other browsers' requests are
      served in between, the user in [localStorage] is always the user
      [users.json] holds for its wallet address, and [tontines.json] stays
      well formed. *)
Theorem reachable_sys_inv c (w : world L) s :
    c_storage c = None -> wf_world w -> rtc (ui_step date_parse) (c, w) s -> sys_inv s.
  Proof.
    intros Hc Hw Hr.
    assert (Hi : sys_inv (c, w)) by (split; [intros su Hsu; simpl in Hsu; congruence | exact Hw]).
    clear Hc Hw. induction Hr as [x|x y z Hxy _ IH]; [done|].
    apply IH. by eapply ui_step_sys_inv.
  Qed.

  (** C28: The login page: a login it ends without an error stores in
      [localStorage] exactly the user [users.json] now holds for the typed
      address and goes to the dashboard; a login that ends with an error
      leaves the stored user and the location as they were. *)
Theorem handleLogin_outcome a now rand c (w w' : world L) c' e :
    handleLogin a now rand c w = (w', inr (c', e)) ->
    match e with
    | None => exists u us, c' = mk_client (Some (stored_of u)) LHome /\ u_walletAddress u = a /\
                           w_users w' = FJson us /\ find (wallet_is a) us = Some u
    | Some _ => c' = c
    end.
  Proof.
    intros Hr. apply handleLogin_cases in Hr as [(-> & He & _)|(-> & u & Ha & -> & (u' & us & Hu & Hf & Hs))].
    - by destruct e.
    - apply stored_of_inj in Hs. subst. exists u', us. done.
  Qed.
  (** C26: The create page composed with the view page it redirects to:
      when [handleCreateWallet] reports success, the [setTimeout] sends the
      browser to [/viewTontines?id=<the new id>], and the view page mounted
      there shows the record [createWallet] appended (the form's name,
      destination and time, the page's user as only member, the new
      wallet), provided no earlier record had that id. *)
Theorem create_then_view tn d sc now p (w w1 : world L) p' c ts :
    handleCreateWallet tn d sc now p w = (w1, inr p') -> cp_message p' = Some CreateSuccess ->
    read_or_empty (w_tontines w) = inr ts -> find (id_is (pretty now)) ts = None ->
    c_location (snd (fire_timer p' c)) = LViewTontines (pretty now) /\
    forall w2 v, view_mount (Some (pretty now)) w1 = (w2, inr v) ->
      exists wl, vp_details v = Some (new_wallet_tontine tn d sc (cp_userId p) wl now).
  Proof.
    intros Hr Hmsg Hrd Hfresh. unfold handleCreateWallet, fetch in Hr.
    destruct (truthy (Some tn) && truthy (Some d) && truthy (Some sc) && truthy (Some (cp_userId p)));
      [|by st_run].
    unfold st_bind, st_ret in Hr. simpl in Hr.
    destruct (createWallet _ _ _ _ now w) as [w1' [e|resp]] eqn:Hc; [by simplify_eq/=|].
    destruct (resp_ok resp) eqn:Hok; simpl in Hr; [|by simplify_eq/=].
    injection Hr as <- <-.
    destruct (createWallet_ok _ _ _ _ _ _ _ _ Hc Hok) as (ts' & wl & Hrd' & Hf & Hb).
    rewrite Hrd in Hrd'. injection Hrd' as <-. rewrite Hb. split; [done|].
    intros w2 v Hv. exists wl. eapply view_mount_found; [apply pretty_Z_nonempty|exact Hf| |exact Hv].
    rewrite find_app, Hfresh. simpl. unfold id_is. simpl. by rewrite String.eqb_refl.
  Qed.

  (** C27: The join page reports success only when the membership is
      durable: after [handleJoinTontine] shows its success message,
      [tontines.json] holds the record with the typed id, and the typed
      user is among its members. *)
Theorem join_page_success_persisted tid uid p (w w' : world L) p' :
    handleJoinTontine tid uid p w = (w', inr p') -> jp_message p' = Some JoinSuccess ->
    exists ts t, w_tontines w' = FJson ts /\ find (id_is tid) ts = Some t /\ In uid (t_members t).
  Proof.
    intros Hr Hmsg. unfold handleJoinTontine, fetch in Hr.
    destruct (negb (truthy (Some tid)) || negb (truthy (Some uid))); [by st_run|].
    unfold st_bind, st_ret in Hr. simpl in Hr.
    destruct (join (Some tid) (Some uid) w) as [w1 [e|resp]] eqn:Hj; [by simplify_eq/=|].
    destruct (resp_ok resp) eqn:Hok; simpl in Hr; [|by simplify_eq/=]. injection Hr as <- _.
    pose proof (join_ok_200 _ _ _ _ _ Hj Hok) as H200.
    apply join_cases in Hj as [[_ Hs]|(ts & t & wd & w2 & tr & Hf & Hfind & _ & _ & _ & _ & -> & _)].
    { by specialize (Hs _ eq_refl). }
    pose proof (find_some _ _ Hfind) as [_ Hid].
    exists (update_first (id_is tid) (push_member uid) ts), (push_member uid t).
    split_and!; [done| |].
    - apply find_update_first; [done|]. exact Hid.
    - simpl. apply in_or_app. right. by left.
  Qed.

End ClientTheorems.

Module ClientScenarios.
  Import SimLedger Fixtures SettlementScenarios MembershipScenarios.

Definition c0 : client := mk_client None LLogin.

  (** An empty store; [rAlice] has an account on the ledger. *)
Definition w0 : world sim :=
    world_of FMissing (mk_sim true [("rAlice", [rlusd_line "5"])] [] [mk_wallet "rFresh" "sFresh"]).

Definition login_run := handleLogin "rAlice" 1700 "k3x" c0 w0.
Definition w1 : world sim := fst login_run.
Definition c1 : client := match snd login_run with inr (c, _) => c | inl _ => c0 end.

Definition dash_run := dashboard_mount c1 w1.
Definition w2 : world sim := fst dash_run.
Definition c2 : client := match snd dash_run with inr (c, _) => c | inl _ => c1 end.

  (** A login then the dashboard, from a fresh browser. *)
Lemma reachable_sys_inv_witness : sys_inv (c2, w2).
  Proof.
    apply (reachable_sys_inv dp c0 w0 (c2, w2)); [reflexivity|exact I|].
    eapply rtc_l; [apply (UiLogin dp "rAlice" 1700 "k3x" c0 w0 c1 None w1); vm_compute; reflexivity|].
    eapply rtc_l; [|apply rtc_refl].
    apply (UiDashboard dp c1 w1 c2 (snd (match snd dash_run with inr x => x | inl _ => (c1, dash0) end)) w2).
    vm_compute. reflexivity.
  Defined.

Lemma handleLogin_outcome_witness :
    exists u us, c1 = mk_client (Some (stored_of u)) LHome /\ u_walletAddress u = "rAlice" /\
                 w_users w1 = FJson us /\ find (wallet_is "rAlice") us = Some u.
  Proof.
    apply (handleLogin_outcome "rAlice" 1700 "k3x" c0 w0 w1 c1 None). vm_compute. reflexivity.
  Defined.
  (** The create page of the user logged in above. *)
Definition p_alice : create_page := create_mount c1.

Definition w_create : world sim := world_of (FJson [pool_rec]) (ledger0 "50").
Definition create_run := handleCreateWallet "G2" "rDest" "2000" 1700 p_alice w_create.
Definition pc1 : create_page := match snd create_run with inr p => p | inl _ => p_alice end.

Lemma create_then_view_witness :
    c_location (snd (fire_timer pc1 c1)) = LViewTontines (pretty 1700%Z) /\
    forall w2 v, view_mount (Some (pretty 1700%Z)) (fst create_run) = (w2, inr v) ->
      exists wl, vp_details v = Some (new_wallet_tontine "G2" "rDest" "2000" (cp_userId p_alice) wl 1700).
  Proof.
    apply (create_then_view "G2" "rDest" "2000" 1700 p_alice w_create (fst create_run) pc1 c1 [pool_rec]);
      vm_compute; reflexivity.
  Defined.

Lemma join_page_success_persisted_witness :
    exists ts t, w_tontines (fst (handleJoinTontine "1" "u2" (mk_join None false) w_join)) = FJson ts /\
                 find (id_is "1") ts = Some t /\ In "u2" (t_members t).
  Proof.
    apply (join_page_success_persisted "1" "u2" (mk_join None false) w_join _
             (mk_join (Some JoinSuccess) false)); [vm_compute; reflexivity|reflexivity].
  Defined.

  (** A record [createWallet] wrote in the same millisecond as the next
      one: both get the id ["1700"]. *)
Definition w_dup : world sim := world_of (FJson [rec_of "1700" pool_wallet "rDest" "1000"]) (ledger0 "50").
Definition dup_run := handleCreateWallet "G2" "rDest" "2000" 1700 p_alice w_dup.
Definition dup_page : create_page := match snd dup_run with inr p => p | inl _ => p_alice end.
Definition dup_view : view_page :=
    match snd (view_mount (Some "1700") (fst dup_run)) with inr v => v | inl _ => view0 end.

  (** [createWallet]'s id is [Date.now()]: a tontine created in the
      same millisecond as an earlier one is written, the create page
      reports success and redirects to [/viewTontines?id=1700], and the
      view page shows the earlier tontine ["G"], not the new ["G2"]. *)
Example create_same_ms_views_other :
    cp_message dup_page = Some CreateSuccess /\
    c_location (snd (fire_timer dup_page c1)) = LViewTontines "1700" /\
    option_map t_tontineName (vp_details dup_view) = Some (Some "G") /\
    (exists ts, w_tontines (fst dup_run) = FJson ts /\ length ts = 2).
  Proof. vm_compute. split_and!; try reflexivity. eexists. split; reflexivity. Qed.

  (** A record written by [create-tontine]: it has no wallet. *)
Definition named_rec : tontine := new_named_tontine "rlsud_G1_x" "G1" "3" "pw" "u1" 0.
Definition w_named : world sim := world_of (FJson [named_rec]) (ledger0 "50").
Definition named_view : view_page :=
    match snd (view_mount (Some "rlsud_G1_x") w_named) with inr v => v | inl _ => view0 end.

  (** The view page on a record [create-tontine] wrote: the details
      are set, then [data.wallet.address] throws and the page shows the
      network-error message; the balances stay pending and adding a trust
      line fails with ["An error occurred"] without calling the route. *)
Example view_record_without_wallet :
    vp_details named_view = Some named_rec /\ vp_error named_view = Some ViewNetwork /\
    vp_balance named_view = BalPending /\
    handleAddTrustline "rBob" named_view w_named =
      (w_named, inr (mk_view (Some named_rec) BalPending (Some ViewNetwork) None (Some TrustFailed) false)).
  Proof. vm_compute. split_and!; reflexivity. Qed.

  (** The same failed balance answer (no account [rGhost]: 500) is shown
      as ["Error"] by the dashboard and as ["Erreur"] by the view page. *)
Example balance_error_wording :
    snd (fetchWalletBalance (Some "rGhost") w_join) = inr BalError /\
    snd (view_fetchWalletBalance "rGhost" w_join) = inr BalErreur.
  Proof. vm_compute. split; reflexivity. Qed.

  (** The join form's field is labelled ["Name of Tontine"] but is sent as
      [tontineId]: typing the name of an existing tontine is answered 404. *)
Example join_by_name_not_found :
    snd (handleJoinTontine "G" "u2" (mk_join None false) w_join) =
      inr (mk_join (Some (JoinError (Some NotFound))) false).
  Proof. vm_compute. reflexivity. Qed.
End ClientScenarios.
