(* ===== verification/Render.v ===== *)
(** * Render: what the pages show

    The [return (...)] of each page is a pure function of its state; here it
    is a function from the page record of [Client] to the list of the items
    the page shows, in order, leaving out markup and style.  A render that
    throws (a property read on [undefined]) is [inl ETypeError]; React then
    shows no page.  Text the code prints from a value that may be
    [undefined] is [option string] ([None] prints nothing).

    The theorems compose rendering with the handlers: every card the
    dashboard shows opens the view page of a tontine the user belongs to;
    and the findings the pages show: a view page on a record without a
    wallet does not render, the view page never shows its errors, and the
    trigger page reports "all tontines up to date" after a failed pass. *)

From stdpp Require Import base list strings pretty.
From Stdlib Require Import ZArith Lia.
From S2P Require Import Prelude JsValue Gateway World Membership Settlement Client.

(** [walletBalance.xrp], [walletBalance.rlusd] as the pages set them. *)
Definition balance_text (b : balance_view) : string * string :=
  match b with
  | BalPending => ("...", "...")
  | BalShown x r => (x, r)
  | BalError => ("Error", "Error")
  | BalErreur => ("Erreur", "Erreur")
  end.

(** ** [page.js] *)

Inductive dash_item :=
  | DLoggedInAs (walletAddress : option string)
  | DLightMode
  | DLogout
  | DBalance (xrp rlusd : string)
  | DNoTontines
  | DCard (id : string) (tontineName scheduledTime : option string) (status : option status)
  | DJoin
  | DCreate.

(** [<TontineCard key id tontineName scheduledTime status />], lines 170-176 *)
Definition card (s : summary) : dash_item :=
  DCard (s_id s) (s_tontineName s) (s_scheduledTime s) (s_status s).

(** [if (!mounted) return null;] and the [return], lines 131-199:
    [tontines.length] of [undefined] throws. *)
Definition render_dashboard (d : dashboard) : exn + list dash_item :=
  if negb (d_mounted d) then inr [] else
  match d_tontines d with
  | None => inl ETypeError
  | Some l =>
      let who := match d_user d with Some su => su_walletAddress su | None => Some "..." end in
      let '(x, r) := balance_text (d_balance d) in
      inr ([DLoggedInAs who; DLightMode; DLogout; DBalance x r] ++
           (match l with [] => [DNoTontines] | _ => map card l end) ++ [DJoin; DCreate])
  end.

(** ** [login/page.js], lines 72-90 *)

Inductive login_item := LForm | LError (e : login_error).

Definition render_login (error : option login_error) : list login_item :=
  LForm :: match error with Some e => [LError e] | None => [] end.

(** ** [join/page.js], lines 52-82 *)

Inductive join_item := JForm (adding : bool) | JMessage (m : join_msg) | JBack.

Definition render_join (p : join_page) : list join_item :=
  [JForm (jp_loading p)] ++ (match jp_message p with Some m => [JMessage m] | None => [] end) ++ [JBack].

(** ** [create-tontine/page.js], lines 77-139 *)

Inductive create_item := CBack | CForm (creating : bool) | CMessage (m : create_msg).

Definition render_create (p : create_page) : list create_item :=
  [CBack; CForm (cp_loading p)] ++ match cp_message p with Some m => [CMessage m] | None => [] end.

(** ** [BCI/src/app/viewTontines/page.js], lines 125-169 *)

Inductive view_item :=
  | VTitle (tontineName : option string)
  | VBack
  | VWallet (address : option string)
  | VBalance (xrp rlusd : string)
  | VTrustForm (adding : bool)
  | VTrustMessage (m : trust_msg).

(** [tontineDetails?.wallet.address]: [undefined] without details, a
    [TypeError] on details without a wallet. *)
Definition wallet_text (details : option tontine) : exn + option string :=
  match details with
  | None => inr None
  | Some t => match t_wallet t with Some wd => inr (Some (w_address wd)) | None => inl ETypeError end
  end.

Definition render_view (v : view_page) : exn + list view_item :=
  match wallet_text (vp_details v) with
  | inl e => inl e
  | inr a =>
      let '(x, r) := balance_text (vp_balance v) in
      inr ([VTitle (match vp_details v with Some t => t_tontineName t | None => None end); VBack;
            VWallet a; VBalance x r; VTrustForm (vp_loading v)] ++
           match vp_message v with Some m => [VTrustMessage m] | None => [] end)
  end.

(** ** [triggerTransfer/page.js], lines 45-90 *)

Inductive trigger_item :=
  | TMessage (m : trigger_msg) | TLoading | TResult (r : transfer_result) | TUpToDate | TBack.

Definition render_trigger (p : trigger_page) : list trigger_item :=
  [TMessage (tp_message p)] ++ (if tp_loading p then [TLoading] else []) ++
  (if negb (tp_loading p) then
     match tp_results p with [] => [TUpToDate] | rs => map TResult rs end
   else []) ++ [TBack].

(** ** [src/BCI/src/app/components]: components no page imports *)

Inductive component_item := KName (name : option string) | KCycle (days : string) | KSpinner.

(** [TontineCard({ name, cycleSize })] of [TontineCard.js], lines 13-22:
    [{cycleSize} days] prints the number, and nothing for [null] or
    [undefined]. *)
Definition tontine_card_component (name : option string) (cycleSize : option Z) : list component_item :=
  [KName name; KCycle (match cycleSize with Some n => pretty n | None => "" end +:+ " days")].

(** [LoadingSpinner()] of [LoadingSpinner.js], lines 6-10. *)
Definition loading_spinner : list component_item := [KSpinner].

(** ** Rendering composed with the handlers *)

(** With ids unique, [tontines.find(t => t.id === id)] finds the record of
    that id. *)
Lemma find_id_nodup ts t : NoDup (map t_id ts) -> In t ts -> find (id_is (t_id t)) ts = Some t.
Proof.
  induction ts as [|x ts IH]; simpl; [done|]. intros Hnd Hin. apply NoDup_cons in Hnd as [Hx Hnd].
  unfold id_is at 1. destruct (String.eqb_spec (t_id x) (t_id t)) as [E|E].
  - destruct Hin as [->|Hin]; [done|]. exfalso. apply Hx. rewrite E.
    apply list_elem_of_In, in_map_iff. eauto.
  - destruct Hin as [->|Hin]; [done|]. by apply IH.
Qed.

(** A card the dashboard shows is the summary of a record of the list. *)
Lemma render_dashboard_card d items id tn sc st l :
  d_tontines d = Some l -> render_dashboard d = inr items -> In (DCard id tn sc st) items ->
  exists s, In s l /\ s_id s = id /\ s_tontineName s = tn.
Proof.
  intros Hl Hr Hin. unfold render_dashboard in Hr. rewrite Hl in Hr.
  destruct (d_mounted d); simpl in Hr; [|by simplify_eq].
  destruct (balance_text (d_balance d)) as [x r]. simplify_eq/=.
  repeat (destruct Hin as [Hin|Hin]; [discriminate|]).
  apply in_app_or in Hin as [Hin|Hin].
  - destruct l as [|s1 l']; [by destruct Hin|].
    apply in_map_iff in Hin as (s & Hs & Hin). unfold card in Hs. injection Hs as <- <- _ _. eauto.
  - repeat (destruct Hin as [Hin|Hin]; [discriminate|]). done.
Qed.

Section RenderTheorems.
  Context {L : Type} `{Gateway L}.

  (** C29: The dashboard's cards open the user's tontines: on a file with
      unique ids, every card the dashboard of a stored user shows leads
      ([handleViewDetails]) to [/viewTontines?id=<its id>], and the view
      page mounted there shows the record of that id, under the name the
      card showed, with the stored [userId] among its members. *)
Theorem dashboard_card_opens_member_tontine c (w w' w2 : world L) c' d u ts items id tn sc st v :
    c_storage c = Some (stored_of u) -> w_tontines w = FJson ts -> u_userId u <> "" ->
    NoDup (map t_id ts) ->
    dashboard_mount c w = (w', inr (c', d)) -> render_dashboard d = inr items ->
    In (DCard id tn sc st) items -> id <> "" ->
    c_location (handleViewDetails id c') = LViewTontines id /\
    (view_mount (Some id) w' = (w2, inr v) ->
     exists t, vp_details v = Some t /\ t_id t = id /\ t_tontineName t = tn /\ In (u_userId u) (t_members t)).
  Proof.
    intros Hc Hf Hu Hnd Hd Hr Hin Hid.
    destruct (dashboard_mount_run _ _ _ _ _ _ _ Hc Hf Hu Hd) as (-> & Hf' & _ & _ & Hl).
    destruct (render_dashboard_card _ _ _ _ _ _ _ Hl Hr Hin) as (s & Hs & <- & <-).
    apply in_map_iff in Hs as (t & <- & Ht).
    apply list_elem_of_In, list_elem_of_filter in Ht as [Hm Ht%list_elem_of_In].
    split; [unfold handleViewDetails; by rewrite truthy_some|].
    intros Hv. exists t. split_and!; [|done|done|by apply str_includes_spec].
    eapply view_mount_found; [exact Hid|exact Hf'| |exact Hv]. by apply find_id_nodup.
  Qed.
End RenderTheorems.

Module RenderScenarios.
  Import SimLedger Fixtures SettlementScenarios MembershipScenarios ClientScenarios.

Definition u1 : user := mk_user "u1" "rDest" "session_t".
Definition c_u1 : client := mk_client (Some (stored_of u1)) LHome.
Definition dash_u1 := dashboard_mount c_u1 w_join.
Definition w_dash : world sim := fst dash_u1.
Definition d_u1 : dashboard := match snd dash_u1 with inr (_, d) => d | inl _ => dash0 end.
Definition items_u1 : list dash_item := match render_dashboard d_u1 with inr l => l | inl _ => [] end.
Definition view_run := view_mount (Some "1") w_dash.
Definition v_u1 : view_page := match snd view_run with inr v => v | inl _ => view0 end.

Lemma dashboard_card_opens_member_tontine_witness :
    c_location (handleViewDetails "1" c_u1) = LViewTontines "1" /\
    (view_run = (fst view_run, inr v_u1) ->
     exists t, vp_details v_u1 = Some t /\ t_id t = "1" /\ t_tontineName t = Some "G" /\
               In (u_userId u1) (t_members t)).
  Proof.
    apply (dashboard_card_opens_member_tontine c_u1 w_join w_dash (fst view_run) c_u1 d_u1 u1 [pool_rec]
             items_u1 "1" (Some "G") (Some "1000") (Some Active) v_u1);
      [reflexivity|reflexivity|discriminate| |vm_compute; reflexivity|vm_compute; reflexivity| |discriminate].
    - constructor; [apply not_elem_of_nil|constructor].
    - vm_compute. right; right; right; right; left. reflexivity.
  Defined.

  (** The view page of a record [create-tontine] wrote does not render:
      [tontineDetails?.wallet.address] throws once the details are set. *)
Example view_without_wallet_not_rendered : render_view named_view = inl ETypeError.
  Proof. vm_compute. reflexivity. Qed.

  (** The view page never shows its [error]: opened without an id it sets
      the error and shows an empty page with pending balances. *)
Example view_error_not_shown :
    let v := match snd (view_mount None w0) with inr v => v | inl _ => view0 end in
    vp_error v = Some ViewMissingId /\
    render_view v = inr [VTitle None; VBack; VWallet None; VBalance "..." "..."; VTrustForm false].
  Proof. vm_compute. split; reflexivity. Qed.

  (** A pass that fails on its second record (its destination has no trust
      line) answers 500; the trigger page shows the error and, below it,
      "No transfers made. All tontines are up to date.", although the
      ledger accepted the payment of the first record. *)
Example trigger_failure_shown_up_to_date :
    let p := match snd (handleTriggerTransfer dp 2000 trigger0 w_two) with inr p => p | inl _ => trigger0 end in
    render_trigger p = [TMessage (TrigError (Some InternalError)); TUpToDate; TBack].
  Proof. vm_compute. reflexivity. Qed.

  (** A tontine created by [create-tontine] is listed on its creator's
      dashboard without a name (it has [name], the list reads
      [tontineName]), without a time and without a status. *)
Example dashboard_named_record_untitled :
    let d := match snd (dashboard_mount c_u1 w_named) with inr (_, d) => d | inl _ => dash0 end in
    exists items, render_dashboard d = inr items /\ In (DCard "rlsud_G1_x" None None None) items.
  Proof. vm_compute. eexists. split; [reflexivity|]. right; right; right; right; left. reflexivity. Qed.

  (** The component card of [TontineCard.js] reads [name] and [cycleSize],
      the fields [create-tontine] writes: it would title the record the
      dashboard's own card leaves untitled; no page uses it. *)
Example component_card_titles_named_record :
    tontine_card_component (t_name named_rec) (t_cycleSize named_rec) = [KName (Some "G1"); KCycle "3 days"].
  Proof. vm_compute. reflexivity. Qed.
End RenderScenarios.
